(** * MirrorMarkets: the trading-authority adapters

    A shallow embedding of
    [services/api/src/adapters/trading-authority.factory.ts] (the provider
    factory), of [DynamicServerWalletProvider] (the production provider that
    delegates signing to remote server wallets) and of the result types of the
    [TradingAuthorityProvider] interface.

    The provider is asynchronous JavaScript that talks to a database through
    Prisma and to a remote service through [fetch].  One request is a single
    flow of control, so every [async] method is embedded as a computation in a
    state-and-exception monad over a [World]: the database tables, the
    generators the code draws from, and a journal of the effects that can be
    seen from outside (audit rows inserted, requests sent, timers awaited), in
    program order. *)

From Stdlib Require Import String Ascii List ZArith Lia Bool Arith.
From Stdlib Require Import Strings.Byte DecimalString.
From Stdlib Require Import Floats.SpecFloat.
Import ListNotations.
Local Open Scope string_scope.
Local Set Warnings "-register-all".

(** ** JavaScript values *)

(** A JavaScript number is an IEEE 754 binary64 value.  The adapter computes
    with numbers in two places, the delay after a 429
    ([parseInt(...) * 1000]) and the backoff delay
    ([BASE_DELAY_MS * Math.pow(2, attempt)]), and every value it can reach
    there is an integer, a zero of either sign, an infinity or [NaN]; the
    type holds those.  [Num z] is the double whose value is the integer [z]
    ([Num 0] being the positive zero); the operations below build it only
    for a [z] that binary64 holds exactly. *)
Inductive JsNumber : Type :=
| Num (z : Z)
| NegZero
| Infinity (negative : bool)
| NaN.

(** The Number value for a mathematical integer [z]: [z] itself when its
    magnitude is below [2^53], otherwise [z] rounded to 53 significant bits,
    to the nearest double with ties going to the even significand, and an
    infinity when that rounding reaches [2^1024]. *)
Definition double_of_Z (z : Z) : JsNumber :=
  let a := Z.abs z in
  if (a <? 2 ^ 53)%Z then Num z
  else
    let e := (Z.log2 a - 52)%Z in
    let q := Z.shiftr a e in
    let r := (a - Z.shiftl q e)%Z in
    let half := (2 ^ (e - 1))%Z in
    let q' := if (r <? half)%Z then q
              else if (half <? r)%Z then (q + 1)%Z
              else if Z.even q then q else (q + 1)%Z in
    let v := Z.shiftl q' e in
    if (2 ^ 1024 <=? v)%Z then Infinity (z <? 0)%Z
    else Num (Z.sgn z * v)%Z.

(** JavaScript [*] on the numbers above: the exact product, rounded; the
    sign of a zero or of an infinity is the exclusive or of the signs of the
    operands; an infinity times a zero is [NaN]. *)
Definition js_mul (a b : JsNumber) : JsNumber :=
  match a, b with
  | NaN, _ | _, NaN => NaN
  | Infinity s, Infinity t => Infinity (xorb s t)
  | Infinity s, Num z | Num z, Infinity s =>
      if (z =? 0)%Z then NaN else Infinity (xorb s (z <? 0)%Z)
  | Infinity _, NegZero | NegZero, Infinity _ => NaN
  | NegZero, NegZero => Num 0
  | NegZero, Num z | Num z, NegZero => if (z <? 0)%Z then Num 0 else NegZero
  | Num x, Num y =>
      if (x * y =? 0)%Z
      then if xorb (x <? 0)%Z (y <? 0)%Z then NegZero else Num 0
      else double_of_Z (x * y)
  end.

(** The same numbers in the Standard Library's model of IEEE 754 binary64
    (53 bits of precision, exponents below 1024), against which the two
    definitions above are checked further down. *)
Definition binary64_of_Z (z : Z) : spec_float := binary_normalize 53 1024 z 0 false.

Definition binary64_mul (a b : spec_float) : spec_float := SFmul 53 1024 a b.

Definition JsNumber_of_binary64 (f : spec_float) : JsNumber :=
  match f with
  | S754_zero s => if s then NegZero else Num 0
  | S754_infinity s => Infinity s
  | S754_nan => NaN
  | S754_finite s m e => Num ((if s then -1 else 1) * Z.shiftl (Zpos m) e)
  end.

Definition JsNumber_eqb (a b : JsNumber) : bool :=
  match a, b with
  | Num x, Num y => (x =? y)%Z
  | NegZero, NegZero => true
  | Infinity s, Infinity t => Bool.eqb s t
  | NaN, NaN => true
  | _, _ => false
  end.

(** Integers around the thresholds of [double_of_Z]: small ones, the first
    integers that binary64 does not hold, ties and near-ties at several
    scales, long decimal numerals, and the edge of the finite range. *)
Definition rounding_samples : list Z :=
  [0; 1; -1; 2; 3; 120; 1000; 9007199254740; 9007199254741;
   2 ^ 53 - 1; 2 ^ 53; 2 ^ 53 + 1; 2 ^ 53 + 2; 2 ^ 53 + 3; 2 ^ 53 + 4;
   2 ^ 53 + 5; 2 ^ 53 + 6; 2 ^ 53 + 7; - (2 ^ 53 + 1); - (2 ^ 53 + 3);
   2 ^ 54 + 2; 2 ^ 54 + 3; 2 ^ 54 + 6; 9007199254740993000;
   2 ^ 60 + 2 ^ 7; 2 ^ 60 + 2 ^ 7 + 1; 2 ^ 60 + 3 * 2 ^ 7;
   10 ^ 20 + 1; 10 ^ 22; 10 ^ 23; 10 ^ 25 + 12345;
   123456789012345678901234567890; 10 ^ 100; 10 ^ 305; 10 ^ 308; 10 ^ 309;
   2 ^ 1024 - 2 ^ 971; 2 ^ 1024 - 2 ^ 970 - 1; 2 ^ 1024 - 2 ^ 970;
   2 ^ 1024 - 1; 2 ^ 1024; - (2 ^ 1024); 2 ^ 1100]%Z.

(** Template-literal rendering of an integer. *)
Definition string_of_Z (z : Z) : string := NilZero.string_of_int (Z.to_int z).

(** Plain data that is serialised as JSON: request bodies and the [details]
    column of an audit row. *)
Inductive JsonValue : Type :=
| JStr (s : string)
| JNum (z : Z)
| JBool (b : bool)
| JObj (fields : list (string * JsonValue)).

(** Modelled from the spec: [ErrorCodes] is declared in the shared package,
    which is not part of the sources at hand; these are the members the
    adapter names. *)
Inductive ErrorCode : Type :=
| SERVER_WALLET_NOT_READY
| NOT_FOUND
| SERVER_WALLET_CREATION_FAILED
| RATE_LIMITED
| SIGNING_UNAVAILABLE.

(** Modelled from the spec: [AppError] is declared in the shared package,
    which is not part of the sources at hand; it is constructed as
    [new AppError(code, message, statusCode)] and taken to extend [Error], as
    the typed errors of the design do.  The type holds whatever a JavaScript
    [throw] can carry: an [AppError], another [Error], or a value that is
    not an [Error]. *)
Inductive JsThrown : Type :=
| AppError (code : ErrorCode) (message : string) (statusCode : Z)
| Error (message : string)
| NonError (shown : string).

(** [error instanceof AppError] *)
Definition instanceof_AppError (error : JsThrown) : bool :=
  match error with
  | AppError _ _ _ => true
  | _ => false
  end.

(** [error instanceof Error] *)
Definition instanceof_Error (error : JsThrown) : bool :=
  match error with
  | AppError _ _ _ | Error _ => true
  | NonError _ => false
  end.

(** [error.message] of an [Error]. *)
Definition message_of (error : JsThrown) : string :=
  match error with
  | AppError _ m _ | Error m => m
  | NonError _ => ""
  end.

(** [error instanceof Error ? error.message : 'Unknown'] *)
Definition error_message_or_Unknown (error : JsThrown) : string :=
  if instanceof_Error error then message_of error else "Unknown".

(** ** [parseInt(s, 10)] *)

(** [parseInt] is applied to the value of a response header.  [Headers.get]
    returns a ByteString, a string whose code units are the bytes of the
    header, so a character of such a string is a code unit below 256 and the
    8-bit characters of [string] are exactly those. *)

(** The white space [parseInt] trims: of the code units below 256, those in
    [WhiteSpace] or [LineTerminator] are TAB, LF, VT, FF, CR, SP and the
    no-break space U+00A0. *)
Definition is_js_whitespace (c : ascii) : bool :=
  let n := nat_of_ascii c in
  ((9 <=? n) && (n <=? 13) || (n =? 32) || (n =? 160))%nat.

Definition digit_of_ascii (c : ascii) : option Z :=
  let n := nat_of_ascii c in
  if ((48 <=? n) && (n <=? 57))%nat then Some (Z.of_nat (n - 48)) else None.

Fixpoint skip_whitespace (s : string) : string :=
  match s with
  | String c rest => if is_js_whitespace c then skip_whitespace rest else s
  | EmptyString => s
  end.

(** Reads the longest run of decimal digits at the head of [s], continuing
    the numeral whose value so far is [acc]; [seen] tells whether a digit has
    been read. *)
Fixpoint read_digits (s : string) (seen : bool) (acc : Z) : option Z :=
  match s with
  | String c rest =>
      match digit_of_ascii c with
      | Some d => read_digits rest true (10 * acc + d)
      | None => if seen then Some acc else None
      end
  | EmptyString => if seen then Some acc else None
  end.

(** [parseInt(s, 10)]: leading white space is skipped, one sign is accepted,
    then the longest run of digits is read; no digit at all gives [NaN].
    The result is the Number value for the integer read, [-0] when the
    integer is zero under a minus sign.  (ECMAScript lets an implementation
    approximate a numeral of more than 20 significant digits; V8, which runs
    the service, rounds the exact integer.) *)
Definition parseInt10 (s : string) : JsNumber :=
  match skip_whitespace s with
  | String "-" rest =>
      match read_digits rest false 0 with
      | Some v => if (v =? 0)%Z then NegZero else double_of_Z (- v)
      | None => NaN
      end
  | String "+" rest =>
      match read_digits rest false 0 with
      | Some v => double_of_Z v
      | None => NaN
      end
  | t =>
      match read_digits t false 0 with
      | Some v => double_of_Z v
      | None => NaN
      end
  end.

(** ** Hexadecimal rendering of a byte array: [Buffer.from(m).toString('hex')] *)

Definition hex_digit (n : N) : ascii :=
  match n with
  | 0 => "0" | 1 => "1" | 2 => "2" | 3 => "3" | 4 => "4" | 5 => "5"
  | 6 => "6" | 7 => "7" | 8 => "8" | 9 => "9" | 10 => "a" | 11 => "b"
  | 12 => "c" | 13 => "d" | 14 => "e" | _ => "f"
  end%N%char.

Fixpoint hex_of_bytes (bs : list byte) : string :=
  match bs with
  | [] => ""
  | b :: rest =>
      let n := Byte.to_N b in
      String (hex_digit (n / 16)) (String (hex_digit (n mod 16)) (hex_of_bytes rest))
  end.

(** ** Database rows *)

(** Modelled from the spec: the Prisma schema is not part of the sources at
    hand; the status of a wallet record is the enumeration of the data model. *)
Inductive WalletStatus : Type :=
| CREATING
| READY
| FAILED.

Definition WalletStatus_eqb (a b : WalletStatus) : bool :=
  match a, b with
  | CREATING, CREATING | READY, READY | FAILED, FAILED => true
  | _, _ => false
  end.

(** A row of [prisma.serverWallet]. *)
Record ServerWallet : Type := mkServerWallet {
  sw_id : nat;
  sw_userId : string;
  sw_dynamicServerWalletId : string;
  sw_address : string;
  sw_status : WalletStatus
}.

(** A row of [prisma.wallet], the compatibility table. *)
Record Wallet : Type := mkWallet {
  wl_userId : string;
  wl_type : string;
  wl_address : string
}.

(** A row of [prisma.copyProfile]; the status column is kept as the string
    the code compares it with. *)
Record CopyProfile : Type := mkCopyProfile {
  cp_id : nat;
  cp_userId : string;
  cp_status : string
}.

Inductive AuditAction : Type :=
| SERVER_WALLET_CREATED
| SERVER_WALLET_FAILED
| OWNERSHIP_TRANSFERRED
| SIGNING_REQUESTED
| SIGNING_COMPLETED
| SIGNING_FAILED.

(** The [data] of [prisma.auditLog.create]. *)
Record AuditLog : Type := mkAuditLog {
  al_userId : string;
  al_action : AuditAction;
  al_details : list (string * JsonValue)
}.

(** ** The remote service as seen through [fetch] *)

Inductive HttpMethod : Type := GET | POST.

Definition method_name (m : HttpMethod) : string :=
  match m with GET => "GET" | POST => "POST" end.

(** The arguments of one [fetch] call. *)
Record Request : Type := mkRequest {
  rq_url : string;
  rq_method : HttpMethod;
  rq_headers : list (string * string);
  rq_body : option JsonValue;
  rq_timeout_ms : Z
}.

(** A decoded response body.  [callDynamicWithRetry<T>] casts the decoded JSON
    to the interface [T] of the call site without checking it; the record
    holds the fields those interfaces declare, with their declared types. *)
Record ResponseBody : Type := mkResponseBody {
  rb_id : string;
  rb_address : string;
  rb_chain : string;
  rb_name : string;
  rb_status : string;
  rb_signature : string;
  rb_hash : string
}.

(** A [Response]: the status line, [headers.get('Retry-After')], what
    [text()] resolves to, and what [json()] resolves to or rejects with. *)
Record Response : Type := mkResponse {
  rs_status : Z;
  rs_retry_after : option string;
  rs_text : string;
  rs_json : JsThrown + ResponseBody
}.

(** [res.ok] *)
Definition rs_ok (res : Response) : bool :=
  (200 <=? rs_status res)%Z && (rs_status res <=? 299)%Z.

(** How the promise returned by [fetch] settles: rejected (network failure,
    or the 15 s abort signal firing) or resolved with a response. *)
Inductive FetchOutcome : Type :=
| FetchRejects (reason : JsThrown)
| FetchResolves (res : Response).

(** ** The world a request runs in *)

(** What can be observed of a run from outside, in program order. *)
Inductive Event : Type :=
| AuditWritten (row : AuditLog)
| FetchSent (req : Request)
| Slept (ms : JsNumber).

Record World : Type := mkWorld {
  serverWallets : list ServerWallet;
  wallets : list Wallet;
  copyProfiles : list CopyProfile;
  journal : list Event;
  nextRowId : nat;
  uuidsDrawn : nat;
  fetchesSent : nat
}.

Definition set_serverWallets (t : list ServerWallet) (w : World) : World :=
  mkWorld t (wallets w) (copyProfiles w) (journal w)
          (nextRowId w) (uuidsDrawn w) (fetchesSent w).

Definition set_wallets (t : list Wallet) (w : World) : World :=
  mkWorld (serverWallets w) t (copyProfiles w) (journal w)
          (nextRowId w) (uuidsDrawn w) (fetchesSent w).

Definition set_copyProfiles (t : list CopyProfile) (w : World) : World :=
  mkWorld (serverWallets w) (wallets w) t (journal w)
          (nextRowId w) (uuidsDrawn w) (fetchesSent w).

Definition record_event (e : Event) (w : World) : World :=
  mkWorld (serverWallets w) (wallets w) (copyProfiles w) (journal w ++ [e])
          (nextRowId w) (uuidsDrawn w) (fetchesSent w).

(** The rows of the audit table: the audit writes of the journal, in order. *)
Fixpoint audit_rows (j : list Event) : list AuditLog :=
  match j with
  | [] => []
  | AuditWritten row :: rest => row :: audit_rows rest
  | _ :: rest => audit_rows rest
  end.

Definition auditLog (w : World) : list AuditLog := audit_rows (journal w).

(** ** Asynchronous methods as state-and-exception computations *)

Inductive Outcome (A : Type) : Type :=
| Return (a : A)
| Throw (error : JsThrown).
Arguments Return {A} a.
Arguments Throw {A} error.

Definition M (A : Type) : Type := World -> Outcome A * World.

Definition ret {A} (a : A) : M A := fun w => (Return a, w).

Definition throw {A} (error : JsThrown) : M A := fun w => (Throw error, w).

Definition bind {A B} (c : M A) (k : A -> M B) : M B :=
  fun w =>
    match c w with
    | (Return a, w') => k a w'
    | (Throw error, w') => (Throw error, w')
    end.

(** [try { body } catch (error) { handler }] *)
Definition try_catch {A} (body : M A) (handler : JsThrown -> M A) : M A :=
  fun w =>
    match body w with
    | (Return a, w') => (Return a, w')
    | (Throw error, w') => handler error w'
    end.

Declare Scope js_scope.
Delimit Scope js_scope with js.
Notation "x <- c ;; k" := (bind c (fun x => k))
  (at level 61, c at next level, right associativity) : js_scope.
Notation "c ;; k" := (bind c (fun _ => k))
  (at level 61, right associativity) : js_scope.
Local Open Scope js_scope.

(** ** Prisma operations *)

Module prisma.

(** [serverWallet.findUnique({ where: { userId } })] *)
Definition serverWallet_findUnique (userId : string) : M (option ServerWallet) :=
  fun w =>
    (Return (find (fun r => String.eqb (sw_userId r) userId) (serverWallets w)), w).

(** [serverWallet.update({ where: { id }, data })]: the fields of [data]
    are applied by [patch]; Prisma rejects when no row has the id. *)
Definition serverWallet_update (id : nat) (patch : ServerWallet -> ServerWallet)
  : M unit :=
  fun w =>
    if existsb (fun r => Nat.eqb (sw_id r) id) (serverWallets w)
    then (Return tt,
          set_serverWallets
            (map (fun r => if Nat.eqb (sw_id r) id then patch r else r)
                 (serverWallets w)) w)
    else (Throw (Error "Record to update not found."), w).

(** [serverWallet.create({ data })]: the database generates the id; Prisma
    rejects when the unique [userId] is taken. *)
Definition serverWallet_create
    (userId dynamicServerWalletId address : string) (status : WalletStatus)
  : M unit :=
  fun w =>
    if existsb (fun r => String.eqb (sw_userId r) userId) (serverWallets w)
    then (Throw (Error "Unique constraint failed on the fields: (`userId`)"), w)
    else
      let row := mkServerWallet (nextRowId w) userId dynamicServerWalletId
                                address status in
      (Return tt,
       mkWorld (serverWallets w ++ [row]) (wallets w) (copyProfiles w)
               (journal w) (S (nextRowId w)) (uuidsDrawn w) (fetchesSent w)).

(** [wallet.upsert({ where: { userId_type }, create, update: { address } })] *)
Definition wallet_upsert (userId type address : string) : M unit :=
  fun w =>
    let hit r := String.eqb (wl_userId r) userId && String.eqb (wl_type r) type in
    if existsb hit (wallets w)
    then (Return tt,
          set_wallets
            (map (fun r => if hit r then mkWallet (wl_userId r) (wl_type r) address
                           else r)
                 (wallets w)) w)
    else (Return tt, set_wallets (wallets w ++ [mkWallet userId type address]) w).

(** [copyProfile.updateMany({ where: { userId, status }, data: { status } })] *)
Definition copyProfile_updateMany (userId whereStatus newStatus : string) : M unit :=
  fun w =>
    (Return tt,
     set_copyProfiles
       (map (fun p => if String.eqb (cp_userId p) userId
                         && String.eqb (cp_status p) whereStatus
                      then mkCopyProfile (cp_id p) (cp_userId p) newStatus
                      else p)
            (copyProfiles w)) w).

(** [auditLog.create({ data })]: rows are only ever appended. *)
Definition auditLog_create (data : AuditLog) : M unit :=
  fun w => (Return tt, record_event (AuditWritten data) w).

End prisma.

(** Modelled from the spec: [getConfig] lives in [../config.js], which is not
    part of the sources at hand; these are the two settings the adapters
    read.  An unset variable is [None]. *)
Record Config : Type := mkConfig {
  DYNAMIC_API_KEY : option string;
  NODE_ENV : string
}.

(** Rendering of a possibly unset setting inside a template literal. *)
Definition template_of (v : option string) : string :=
  match v with Some s => s | None => "undefined" end.

(** ** Constants *)

Definition DYNAMIC_API_BASE : string := "https://app.dynamicauth.com/api/v0".
Definition MAX_RETRIES : nat := 3.
Definition BASE_DELAY_MS : Z := 500.

(** ** Interface types of [TradingAuthorityProvider] *)

Record EIP712TypedData : Type := mkEIP712TypedData {
  td_types : JsonValue;
  td_primaryType : string;
  td_domain : JsonValue;
  td_message : JsonValue
}.

Record TransactionRequest : Type := mkTransactionRequest {
  tx_to : string;
  tx_data : string;
  tx_value : option string;
  tx_chainId : option Z
}.

(** The [status] of a [TransactionResult]:
    ['submitted' | 'confirmed' | 'failed']. *)
Inductive TransactionStatus : Type :=
| submitted
| confirmed
| failed.

Record TransactionResult : Type := mkTransactionResult {
  tr_hash : string;
  tr_status : TransactionStatus
}.

(** How one pass through the body of the retry loop ends when it does not
    throw: with [continue], or with [return]. *)
Inductive LoopStep (A : Type) : Type :=
| Continue
| Finish (a : A).
Arguments Continue {A}.
Arguments Finish {A} a.

(** ** [DynamicServerWalletProvider] *)

Section DynamicServerWalletProvider.

(** What [getConfig()] returns. *)
Variable config : Config.

(** The remote service and the network: how the [n]-th [fetch] of the run
    settles, given the request it carries. *)
Variable fetch_outcome : nat -> Request -> FetchOutcome.

(** The source of randomness behind [randomUUID]: its successive draws. *)
Variable uuid_stream : nat -> string.

(** [JSON.stringify] on typed data. *)
Variable JSON_stringify : EIP712TypedData -> string.

Definition randomUUID : M string :=
  fun w =>
    (Return (uuid_stream (uuidsDrawn w)),
     mkWorld (serverWallets w) (wallets w) (copyProfiles w) (journal w)
             (nextRowId w) (S (uuidsDrawn w)) (fetchesSent w)).

(** [await fetch(url, init)] *)
Definition fetch (req : Request) : M Response :=
  fun w =>
    let w' := mkWorld (serverWallets w) (wallets w) (copyProfiles w)
                      (journal w ++ [FetchSent req])
                      (nextRowId w) (uuidsDrawn w) (S (fetchesSent w)) in
    match fetch_outcome (fetchesSent w) req with
    | FetchRejects reason => (Throw reason, w')
    | FetchResolves res => (Return res, w')
    end.

(** [sleep(ms)]: a promise resolved by [setTimeout(resolve, ms)]; the journal
    keeps the duration asked for. *)
Definition sleep (ms : JsNumber) : M unit :=
  fun w => (Return tt, record_event (Slept ms) w).

(** [await res.json()] *)
Definition res_json (res : Response) : M ResponseBody :=
  match rs_json res with
  | inl error => throw error
  | inr decoded => ret decoded
  end.

(** The body of the [for] loop of [callDynamicWithRetry], at iteration
    [attempt]. *)
Definition callDynamic_attempt
    (path : string) (method : HttpMethod) (body : option JsonValue) (attempt : nat)
  : M (LoopStep ResponseBody) :=
  let url := DYNAMIC_API_BASE ++ "/" ++ path in
  try_catch
    (let headers :=
       [("Authorization", "Bearer " ++ template_of (DYNAMIC_API_KEY config));
        ("Content-Type", "application/json")] in
     res <- fetch (mkRequest url method headers body 15000) ;;
     if (rs_status res =? 429)%Z then
       let retryAfter :=
         parseInt10 (match rs_retry_after res with Some h => h | None => "2" end) in
       let delay := js_mul retryAfter (Num 1000) in
       if (attempt <? MAX_RETRIES)%nat then
         sleep delay ;; ret Continue
       else throw (AppError RATE_LIMITED "Dynamic API rate limited" 429)
     else if negb (rs_ok res) then
       let errorBody := rs_text res in
       throw (Error ("Dynamic API " ++ method_name method ++ " " ++ path
                     ++ " failed: " ++ string_of_Z (rs_status res) ++ " "
                     ++ errorBody))
     else
       decoded <- res_json res ;; ret (Finish decoded))
    (fun error =>
       if instanceof_AppError error then throw error
       else if (attempt <? MAX_RETRIES)%nat then
         (* attempt < 3 here: the product is exact *)
         let delay := (BASE_DELAY_MS * 2 ^ Z.of_nat attempt)%Z in
         sleep (Num delay) ;; ret Continue
       else throw error).

(** The loop [for (let attempt = 0; attempt <= MAX_RETRIES; attempt++)],
    unfolded on the number of iterations it still has to run, and the [throw]
    that follows it. *)
Fixpoint callDynamic_loop
    (path : string) (method : HttpMethod) (body : option JsonValue)
    (iterations attempt : nat) : M ResponseBody :=
  match iterations with
  | O => throw (Error "Exhausted retries for Dynamic API call")
  | S remaining =>
      step <- callDynamic_attempt path method body attempt ;;
      match step with
      | Continue => callDynamic_loop path method body remaining (S attempt)
      | Finish decoded => ret decoded
      end
  end.

Definition callDynamicWithRetry
    (path : string) (method : HttpMethod) (body : option JsonValue)
  : M ResponseBody :=
  callDynamic_loop path method body (S MAX_RETRIES) 0.

Definition fetchWalletFromDynamic (walletId : string) : M ResponseBody :=
  callDynamicWithRetry ("server-wallets/" ++ walletId) GET None.

Definition requireReadyWallet (userId : string) : M ServerWallet :=
  sw <- prisma.serverWallet_findUnique userId ;;
  match sw with
  | Some r =>
      if negb (WalletStatus_eqb (sw_status r) READY)
      then throw (AppError SERVER_WALLET_NOT_READY
                           "Server wallet is not ready for signing" 503)
      else ret r
  | None => throw (AppError SERVER_WALLET_NOT_READY
                            "Server wallet is not ready for signing" 503)
  end.

Definition wrapSigningError (error : JsThrown) : JsThrown :=
  if instanceof_AppError error then error
  else
    let message :=
      if instanceof_Error error then message_of error else "Unknown signing error" in
    AppError SIGNING_UNAVAILABLE message 503.

(** *** Audit helpers *)

Definition signing_requested (userId correlationId operation : string) : AuditLog :=
  mkAuditLog userId SIGNING_REQUESTED
             [("correlationId", JStr correlationId); ("operation", JStr operation)].

Definition signing_completed (userId correlationId : string) : AuditLog :=
  mkAuditLog userId SIGNING_COMPLETED [("correlationId", JStr correlationId)].

Definition signing_failed (userId correlationId : string) (error : JsThrown)
  : AuditLog :=
  mkAuditLog userId SIGNING_FAILED
             [("correlationId", JStr correlationId);
              ("error", JStr (error_message_or_Unknown error))].

Definition auditSigningRequest (userId correlationId operation : string) : M unit :=
  prisma.auditLog_create (signing_requested userId correlationId operation).

Definition auditSigningComplete (userId correlationId : string) : M unit :=
  prisma.auditLog_create (signing_completed userId correlationId).

Definition auditSigningFailed (userId correlationId : string) (error : JsThrown)
  : M unit :=
  prisma.auditLog_create (signing_failed userId correlationId error).

(** *** Signing *)

Definition signTypedData (userId : string) (typedData : EIP712TypedData) : M string :=
  correlationId <- randomUUID ;;
  sw <- requireReadyWallet userId ;;
  auditSigningRequest userId correlationId "signTypedData" ;;
  try_catch
    (result <- callDynamicWithRetry
                 ("server-wallets/" ++ sw_dynamicServerWalletId sw ++ "/sign-typed-data")
                 POST
                 (Some (JObj [("typedData", JStr (JSON_stringify typedData));
                              ("chain", JStr "EVM")])) ;;
     auditSigningComplete userId correlationId ;;
     ret (rb_signature result))
    (fun error =>
       auditSigningFailed userId correlationId error ;;
       throw (wrapSigningError error)).

(** The [message] argument is [string | Uint8Array]. *)
Definition signMessage (userId : string) (message : string + list byte) : M string :=
  correlationId <- randomUUID ;;
  sw <- requireReadyWallet userId ;;
  auditSigningRequest userId correlationId "signMessage" ;;
  try_catch
    (let messageStr :=
       match message with
       | inl text => text
       | inr bytes => hex_of_bytes bytes
       end in
     result <- callDynamicWithRetry
                 ("server-wallets/" ++ sw_dynamicServerWalletId sw ++ "/sign")
                 POST
                 (Some (JObj [("message", JStr messageStr);
                              ("encoding",
                               JStr (match message with
                                     | inl _ => "utf8"
                                     | inr _ => "hex"
                                     end));
                              ("chain", JStr "EVM")])) ;;
     auditSigningComplete userId correlationId ;;
     ret (rb_signature result))
    (fun error =>
       auditSigningFailed userId correlationId error ;;
       throw (wrapSigningError error)).

Definition executeTransaction (userId : string) (tx : TransactionRequest)
  : M TransactionResult :=
  correlationId <- randomUUID ;;
  sw <- requireReadyWallet userId ;;
  auditSigningRequest userId correlationId "executeTransaction" ;;
  try_catch
    (result <- callDynamicWithRetry
                 ("server-wallets/" ++ sw_dynamicServerWalletId sw ++ "/sign-transaction")
                 POST
                 (Some (JObj
                    [("transaction",
                      JObj [("to", JStr (tx_to tx));
                            ("data", JStr (tx_data tx));
                            ("value", JStr (match tx_value tx with
                                            | Some v => v
                                            | None => "0"
                                            end));
                            ("chainId", JNum (match tx_chainId tx with
                                              | Some c => c
                                              | None => 137%Z
                                              end))]);
                     ("chain", JStr "EVM");
                     ("broadcast", JBool true)])) ;;
     auditSigningComplete userId correlationId ;;
     ret (mkTransactionResult
            (rb_hash result)
            (if String.eqb (rb_status result) "confirmed" then confirmed
             else submitted)))
    (fun error =>
       auditSigningFailed userId correlationId error ;;
       throw (wrapSigningError error)).

(** *** Server wallet creation *)

Definition ZERO_ADDRESS : string := "0x0000000000000000000000000000000000000000".

(** The [try { ... } catch (error) { ... }] statement of [createServerWallet];
    [sw] is the row read before it, if any. *)
Definition createServerWallet_attempt
    (userId : string) (isRotation : bool) (sw : option ServerWallet) : M string :=
  try_catch
    (created <- callDynamicWithRetry
                  "server-wallets" POST
                  (Some (JObj [("chain", JStr "EVM");
                               ("name", JStr ("mirror-" ++ substring 0 8 userId))])) ;;
     let ready r :=
       mkServerWallet (sw_id r) (sw_userId r) (rb_id created) (rb_address created)
                      READY in
     match sw with
     | Some r =>
         if isRotation
         then prisma.serverWallet_update (sw_id r) ready
         else prisma.serverWallet_update (sw_id r) ready
     | None =>
         prisma.serverWallet_create userId (rb_id created) (rb_address created) READY
     end ;;
     prisma.wallet_upsert userId "SERVER_WALLET" (rb_address created) ;;
     prisma.auditLog_create
       (mkAuditLog userId SERVER_WALLET_CREATED
                   [("dynamicWalletId", JStr (rb_id created));
                    ("address", JStr (rb_address created));
                    ("isRotation", JBool isRotation)]) ;;
     ret (rb_address created))
    (fun error =>
       match sw with
       | None =>
           uuid <- randomUUID ;;
           prisma.serverWallet_create userId ("pending-" ++ uuid) ZERO_ADDRESS FAILED
       | Some r =>
           prisma.serverWallet_update
             (sw_id r)
             (fun row => mkServerWallet (sw_id row) (sw_userId row)
                                        (sw_dynamicServerWalletId row)
                                        (sw_address row) FAILED)
       end ;;
       prisma.auditLog_create
         (mkAuditLog userId SERVER_WALLET_FAILED
                     [("error", JStr (error_message_or_Unknown error))]) ;;
       throw (AppError SERVER_WALLET_CREATION_FAILED
                       ("Failed to create server wallet: "
                        ++ error_message_or_Unknown error)
                       503)).

Definition createServerWallet (userId : string) (isRotation : bool) : M string :=
  sw <- prisma.serverWallet_findUnique userId ;;
  match sw with
  | Some r =>
      if WalletStatus_eqb (sw_status r) READY && negb isRotation
      then ret (sw_address r)
      else createServerWallet_attempt userId isRotation sw
  | None => createServerWallet_attempt userId isRotation sw
  end.

(** *** Core interface *)

Definition getAddress (userId : string) : M string :=
  sw <- prisma.serverWallet_findUnique userId ;;
  match sw with
  | Some r =>
      if WalletStatus_eqb (sw_status r) READY then ret (sw_address r)
      else if WalletStatus_eqb (sw_status r) CREATING then
        fresh <- fetchWalletFromDynamic (sw_dynamicServerWalletId r) ;;
        if String.eqb (rb_status fresh) "active" || String.eqb (rb_status fresh) "ready"
        then
          prisma.serverWallet_update
            (sw_id r)
            (fun row => mkServerWallet (sw_id row) (sw_userId row)
                                       (sw_dynamicServerWalletId row)
                                       (rb_address fresh) READY) ;;
          ret (rb_address fresh)
        else throw (AppError SERVER_WALLET_NOT_READY
                             "Server wallet is still being created" 503)
      else createServerWallet userId false
  | None => createServerWallet userId false
  end.

Definition rotate (userId : string) : M unit :=
  oldWallet <- prisma.serverWallet_findUnique userId ;;
  match oldWallet with
  | None => throw (AppError NOT_FOUND "No server wallet to rotate" 404)
  | Some old =>
      newAddress <- createServerWallet userId true ;;
      prisma.auditLog_create
        (mkAuditLog userId OWNERSHIP_TRANSFERRED
           [("oldAddress", JStr (sw_address old));
            ("newAddress", JStr newAddress);
            ("note",
             JStr "Server wallet rotated — Proxy/Safe ownership transfer required")])
  end.

Definition revoke (userId : string) : M unit :=
  sw <- prisma.serverWallet_findUnique userId ;;
  match sw with
  | None => ret tt
  | Some r =>
      prisma.serverWallet_update
        (sw_id r)
        (fun row => mkServerWallet (sw_id row) (sw_userId row)
                                   (sw_dynamicServerWalletId row)
                                   (sw_address row) FAILED) ;;
      prisma.copyProfile_updateMany userId "ENABLED" "PAUSED" ;;
      prisma.auditLog_create
        (mkAuditLog userId SERVER_WALLET_FAILED
                    [("reason", JStr "Wallet revoked");
                     ("walletId", JStr (sw_dynamicServerWalletId r))])
  end.

End DynamicServerWalletProvider.

(** ** The provider factory *)

Module Factory.

(** The two implementations of [TradingAuthorityProvider] the factory can
    construct. *)
Inductive ProviderClass : Type :=
| DynamicServerWalletProvider
| MockDynamicServerWalletProvider.

(** A [PrismaClient] object, by reference. *)
Definition PrismaClient : Type := nat.

(** A provider object: its reference (what [===] compares), its class and the
    client its constructor stored. *)
Record Provider : Type := mkProvider {
  pv_ref : nat;
  pv_class : ProviderClass;
  pv_prisma : PrismaClient
}.

(** The module-level [let _provider], and the number of objects constructed
    so far (the next reference [new] hands out). *)
Record State : Type := mkState {
  _provider : option Provider;
  constructed : nat
}.

(** The module as loaded: [let _provider = null]. *)
Definition initial : State := mkState None 0.

(** JavaScript truthiness of a possibly unset string setting. *)
Definition truthy (v : option string) : bool :=
  match v with
  | Some s => negb (String.eqb s "")
  | None => false
  end.

(** [config] is what [getConfig()] returns at the time of the call. *)
Definition getTradingAuthorityProvider
    (config : Config) (prisma : PrismaClient) (s : State) : Provider * State :=
  match _provider s with
  | Some p => (p, s)
  | None =>
      let p :=
        if truthy (DYNAMIC_API_KEY config) && String.eqb (NODE_ENV config) "production"
        then mkProvider (constructed s) DynamicServerWalletProvider prisma
        else mkProvider (constructed s) MockDynamicServerWalletProvider prisma in
      (p, mkState (Some p) (S (constructed s)))
  end.

Definition resetTradingAuthorityProvider (s : State) : State :=
  mkState None (constructed s).

(** A sequence of calls to the factory, each with the configuration in force
    and the client passed; the providers returned, in order. *)
Fixpoint calls (args : list (Config * PrismaClient)) (s : State)
  : list Provider * State :=
  match args with
  | [] => ([], s)
  | (config, prisma) :: rest =>
      let (p, s1) := getTradingAuthorityProvider config prisma s in
      let (ps, s2) := calls rest s1 in
      (p :: ps, s2)
  end.

End Factory.

(** * Vocabulary of the statements *)

Local Open Scope nat_scope.

(** ** Journals, requests and delays *)

(** The events the remote-call client produces: requests and timers. *)
Definition remote_event (e : Event) : bool :=
  match e with
  | AuditWritten _ => false
  | FetchSent _ | Slept _ => true
  end.

Fixpoint fetches_in (evs : list Event) : nat :=
  match evs with
  | [] => 0
  | FetchSent _ :: rest => S (fetches_in rest)
  | _ :: rest => fetches_in rest
  end.

Fixpoint sleeps_in (evs : list Event) : nat :=
  match evs with
  | [] => 0
  | Slept _ :: rest => S (sleeps_in rest)
  | _ :: rest => sleeps_in rest
  end.

(** The world after the events [evs] have been journalled, with the tables
    and the generators of [w]. *)
Definition journalled (w : World) (evs : list Event) : World :=
  mkWorld (serverWallets w) (wallets w) (copyProfiles w) (journal w ++ evs)
          (nextRowId w) (uuidsDrawn w) (fetchesSent w + fetches_in evs).

(** The request [callDynamicWithRetry] sends on every attempt. *)
Definition request_of (config : Config) (path : string) (method : HttpMethod)
    (body : option JsonValue) : Request :=
  mkRequest (DYNAMIC_API_BASE ++ "/" ++ path) method
            [("Authorization", "Bearer " ++ template_of (DYNAMIC_API_KEY config));
             ("Content-Type", "application/json")]
            body 15000.

(** The delay slept on a 429 response, from its [Retry-After] header. *)
Definition retry_after_delay (header : option string) : JsNumber :=
  js_mul (parseInt10 (match header with Some h => h | None => "2" end)) (Num 1000).

(** The error an attempt fails with when the response is not a 429: the
    rejection of [fetch], the error built from a non-success status, or the
    rejection of [json()].  [None] when the attempt does not fail that way. *)
Definition attempt_error (path : string) (method : HttpMethod) (o : FetchOutcome)
  : option JsThrown :=
  match o with
  | FetchRejects reason => Some reason
  | FetchResolves res =>
      if (rs_status res =? 429)%Z then None
      else if negb (rs_ok res) then
        Some (Error ("Dynamic API " ++ method_name method ++ " " ++ path
                     ++ " failed: " ++ string_of_Z (rs_status res) ++ " "
                     ++ rs_text res))
      else match rs_json res with
           | inl error => Some error
           | inr _ => None
           end
  end.

(** A [Retry-After] header in its delta-seconds form: a run of decimal
    digits, and the number it denotes. *)
Definition digit_char (d : nat) : ascii := ascii_of_nat (48 + d).

Fixpoint digits_string (ds : list nat) : string :=
  match ds with
  | [] => ""
  | d :: rest => String (digit_char d) (digits_string rest)
  end.

Definition digits_value (ds : list nat) : Z :=
  fold_left (fun acc d => (10 * acc + Z.of_nat d)%Z) ds 0%Z.

(** The correlation id of a signing audit row. *)
Definition correlation_of (row : AuditLog) : option string :=
  match al_details row with
  | ("correlationId", JStr c) :: _ => Some c
  | _ => None
  end.

(** The row of a user in the wallet table. *)
Definition wallet_of (userId : string) (w : World) : option ServerWallet :=
  find (fun r => String.eqb (sw_userId r) userId) (serverWallets w).

(** ** The signing methods as one family *)

(** The three signing methods of the interface, as one family. *)
Inductive SigningCall : Type :=
| SignTypedData (typedData : EIP712TypedData)
| SignMessage (message : string + list byte)
| ExecuteTransaction (tx : TransactionRequest).

(** The [operation] each method writes into its [SIGNING_REQUESTED] row. *)
Definition operation_of (c : SigningCall) : string :=
  match c with
  | SignTypedData _ => "signTypedData"
  | SignMessage _ => "signMessage"
  | ExecuteTransaction _ => "executeTransaction"
  end.

(** The world once [randomUUID] has been drawn from. *)
Definition uuid_drawn (w : World) : World :=
  mkWorld (serverWallets w) (wallets w) (copyProfiles w) (journal w)
          (nextRowId w) (S (uuidsDrawn w)) (fetchesSent w).

Section SigningMethods.

Variable config : Config.
Variable fetch_outcome : nat -> Request -> FetchOutcome.
Variable uuid_stream : nat -> string.
Variable JSON_stringify : EIP712TypedData -> string.

(** Runs a signing method and forgets the type of its result. *)
Definition perform (userId : string) (c : SigningCall)
  : M (string + TransactionResult) :=
  match c with
  | SignTypedData typedData =>
      (signature <- signTypedData config fetch_outcome uuid_stream JSON_stringify
                                  userId typedData ;;
       ret (inl signature))%js
  | SignMessage message =>
      (signature <- signMessage config fetch_outcome uuid_stream userId message ;;
       ret (inl signature))%js
  | ExecuteTransaction tx =>
      (result <- executeTransaction config fetch_outcome uuid_stream userId tx ;;
       ret (inr result))%js
  end.

(** The shape the three methods share: draw a correlation id, require a
    ready wallet, write the request row, then call the remote service inside
    [try]/[catch], writing the outcome row on either path. *)
Definition envelope {A : Type} (userId operation : string)
    (call : ServerWallet -> M ResponseBody) (result : ResponseBody -> A) : M A :=
  (correlationId <- randomUUID uuid_stream ;;
   sw <- requireReadyWallet userId ;;
   auditSigningRequest userId correlationId operation ;;
   try_catch
     (decoded <- call sw ;;
      auditSigningComplete userId correlationId ;;
      ret (result decoded))
     (fun error =>
        auditSigningFailed userId correlationId error ;;
        throw (wrapSigningError error)))%js.

(** The remote call each method makes for the wallet [sw]. *)
Definition remote_call (c : SigningCall) (sw : ServerWallet) : M ResponseBody :=
  match c with
  | SignTypedData typedData =>
      callDynamicWithRetry config fetch_outcome
        ("server-wallets/" ++ sw_dynamicServerWalletId sw ++ "/sign-typed-data")
        POST
        (Some (JObj [("typedData", JStr (JSON_stringify typedData));
                     ("chain", JStr "EVM")]))
  | SignMessage message =>
      callDynamicWithRetry config fetch_outcome
        ("server-wallets/" ++ sw_dynamicServerWalletId sw ++ "/sign")
        POST
        (Some (JObj [("message",
                      JStr (match message with
                            | inl text => text
                            | inr bytes => hex_of_bytes bytes
                            end));
                     ("encoding",
                      JStr (match message with inl _ => "utf8" | inr _ => "hex" end));
                     ("chain", JStr "EVM")]))
  | ExecuteTransaction tx =>
      callDynamicWithRetry config fetch_outcome
        ("server-wallets/" ++ sw_dynamicServerWalletId sw ++ "/sign-transaction")
        POST
        (Some (JObj
           [("transaction",
             JObj [("to", JStr (tx_to tx));
                   ("data", JStr (tx_data tx));
                   ("value", JStr (match tx_value tx with
                                   | Some v => v
                                   | None => "0"
                                   end));
                   ("chainId", JNum (match tx_chainId tx with
                                     | Some c => c
                                     | None => 137%Z
                                     end))]);
            ("chain", JStr "EVM");
            ("broadcast", JBool true)]))
  end.

(** What each method returns for a decoded response. *)
Definition result_of (c : SigningCall) (decoded : ResponseBody)
  : string + TransactionResult :=
  match c with
  | SignTypedData _ | SignMessage _ => inl (rb_signature decoded)
  | ExecuteTransaction _ =>
      inr (mkTransactionResult
             (rb_hash decoded)
             (if String.eqb (rb_status decoded) "confirmed" then confirmed
              else submitted))
  end.

End SigningMethods.

(** ** Wallet rows and audit rows of the lifecycle *)

(** The body of the wallet-creation request. *)
Definition create_wallet_body (userId : string) : JsonValue :=
  JObj [("chain", JStr "EVM"); ("name", JStr ("mirror-" ++ substring 0 8 userId))].

(** The [data] patches the provider applies to a wallet row. *)
Definition marked_failed (row : ServerWallet) : ServerWallet :=
  mkServerWallet (sw_id row) (sw_userId row) (sw_dynamicServerWalletId row)
                 (sw_address row) FAILED.

Definition made_ready (dynamicServerWalletId address : string) (row : ServerWallet)
  : ServerWallet :=
  mkServerWallet (sw_id row) (sw_userId row) dynamicServerWalletId address READY.

Definition promoted (address : string) (row : ServerWallet) : ServerWallet :=
  mkServerWallet (sw_id row) (sw_userId row) (sw_dynamicServerWalletId row)
                 address READY.

(** The audit rows of wallet creation. *)
Definition creation_failed_row (userId : string) (cause : JsThrown) : AuditLog :=
  mkAuditLog userId SERVER_WALLET_FAILED
             [("error", JStr (error_message_or_Unknown cause))].

Definition creation_succeeded_row (userId : string) (created : ResponseBody)
    (isRotation : bool) : AuditLog :=
  mkAuditLog userId SERVER_WALLET_CREATED
             [("dynamicWalletId", JStr (rb_id created));
              ("address", JStr (rb_address created));
              ("isRotation", JBool isRotation)].

(** What [updateMany] does to one copy-trading profile on revocation. *)
Definition paused_for (userId : string) (p : CopyProfile) : CopyProfile :=
  if String.eqb (cp_userId p) userId && String.eqb (cp_status p) "ENABLED"
  then mkCopyProfile (cp_id p) (cp_userId p) "PAUSED"
  else p.

(** ** Worked scenarios *)

Module Scenario.

(** A production configuration with a live key. *)
Definition config : Config := mkConfig (Some "dyn_live_key") "production".

(** A source of identifiers that never repeats: the [n]-th draw is "uuid-"
    followed by [n] strokes. *)
Fixpoint strokes (n : nat) : string :=
  match n with
  | O => ""
  | S k => String "i" (strokes k)
  end.

Definition uuids (n : nat) : string := "uuid-" ++ strokes n.

Definition stringify (typedData : EIP712TypedData) : string := "{}".

Definition decoded : ResponseBody :=
  mkResponseBody "dw-1" "0xA11CE" "EVM" "mirror-user-1" "active" "0x5167" "0x7A5B".

Definition ok : Response := mkResponse 200 None "" (inr decoded).

Definition busy : Response := mkResponse 429 (Some "3") "" (inr decoded).

Definition timeout : JsThrown := Error "The operation was aborted due to timeout".

(** A remote service that always answers 200 with [decoded]. *)
Definition remote_ok (n : nat) (req : Request) : FetchOutcome := FetchResolves ok.

(** A remote service that always answers 429 with [Retry-After: 3]. *)
Definition remote_busy (n : nat) (req : Request) : FetchOutcome :=
  FetchResolves busy.

(** A remote service no request ever reaches in time. *)
Definition remote_down (n : nat) (req : Request) : FetchOutcome :=
  FetchRejects timeout.

(** A remote service that reports every wallet as still pending. *)
Definition remote_pending (n : nat) (req : Request) : FetchOutcome :=
  FetchResolves
    (mkResponse 200 None ""
       (inr (mkResponseBody "dw-0" "" "EVM" "mirror-user-1" "pending" "" ""))).

(** A database with no row at all. *)
Definition empty : World := mkWorld [] [] [] [] 0 0 0.

(** The wallet row of user-1, in a given status. *)
Definition row (status : WalletStatus) : ServerWallet :=
  mkServerWallet 0 "user-1" "dw-0" "0xB0B" status.

(** A database where user-1 has a wallet row in a given status and an
    enabled copy-trading profile, next to a profile of another user. *)
Definition with_wallet (status : WalletStatus) : World :=
  mkWorld [row status] []
          [mkCopyProfile 0 "user-1" "ENABLED"; mkCopyProfile 1 "user-2" "ENABLED"]
          [] 2 0 0.

(** The requests of the scenarios: a wallet lookup and a wallet creation. *)
Definition lookup : Request :=
  request_of config "server-wallets/dw-0" GET None.

Definition creation : Request :=
  request_of config "server-wallets" POST (Some (create_wallet_body "user-1")).

End Scenario.

(** * Vocabulary of the further properties *)

(** ** Outcomes of one attempt *)

(** An outcome after which the loop goes round again while retries remain:
    a 429, or a failure whose error is not an [AppError]. *)
Definition retryable (path : string) (method : HttpMethod) (o : FetchOutcome)
  : Prop :=
  (exists res, o = FetchResolves res /\ rs_status res = 429%Z) \/
  (exists error, attempt_error path method o = Some error /\
                 instanceof_AppError error = false).

(** An outcome that ends the loop with the body [decoded]. *)
Definition succeeds (o : FetchOutcome) (decoded : ResponseBody) : Prop :=
  exists res, o = FetchResolves res /\ rs_ok res = true /\ rs_json res = inr decoded.

(** The events of one call to the client for the request [req]: that request,
    sent again and again, and sleeps. *)
Definition call_event (req : Request) (e : Event) : Prop :=
  match e with
  | FetchSent sent => sent = req
  | Slept _ => True
  | AuditWritten _ => False
  end.

(** ** Tables *)

(** The effect of [serverWallet.update({ where: { id } })] on the table. *)
Definition patched (id : nat) (patch : ServerWallet -> ServerWallet)
    (rows : list ServerWallet) : list ServerWallet :=
  map (fun r => if Nat.eqb (sw_id r) id then patch r else r) rows.

(** The key of the compatibility table: user and type. *)
Definition compat_key (userId type : string) (r : Wallet) : bool :=
  String.eqb (wl_userId r) userId && String.eqb (wl_type r) type.

(** The effect of [wallet.upsert] on the compatibility table. *)
Definition upserted (userId type address : string) (rows : list Wallet)
  : list Wallet :=
  if existsb (compat_key userId type) rows
  then map (fun r => if compat_key userId type r
                     then mkWallet (wl_userId r) (wl_type r) address
                     else r)
           rows
  else (rows ++ [mkWallet userId type address])%list.

(** The row of a user and type in the compatibility table. *)
Definition compat_wallet_of (userId type : string) (w : World) : option Wallet :=
  find (compat_key userId type) (wallets w).

(** A wallet table as the database keeps it: ids are unique and were all
    handed out already, and no user has two rows. *)
Definition table_ok (w : World) : Prop :=
  NoDup (map sw_id (serverWallets w)) /\
  NoDup (map sw_userId (serverWallets w)) /\
  Forall (fun r => sw_id r < nextRowId w) (serverWallets w).

(** The world after the [try] block of [createServerWallet] has run to its
    end: [sw] is the row read before it, [w1] the world the remote call
    left. *)
Definition creation_recorded (userId : string) (isRotation : bool)
    (created : ResponseBody) (sw : option ServerWallet) (w1 : World) : World :=
  mkWorld
    (match sw with
     | Some r => patched (sw_id r) (made_ready (rb_id created) (rb_address created))
                         (serverWallets w1)
     | None => serverWallets w1
                 ++ [mkServerWallet (nextRowId w1) userId (rb_id created)
                                    (rb_address created) READY]
     end)
    (upserted userId "SERVER_WALLET" (rb_address created) (wallets w1))
    (copyProfiles w1)
    (journal w1 ++ [AuditWritten (creation_succeeded_row userId created isRotation)])
    (match sw with Some _ => nextRowId w1 | None => S (nextRowId w1) end)
    (uuidsDrawn w1)
    (fetchesSent w1).

(** The world after the [catch] block of [createServerWallet] has run;
    [uuid] is the identifier drawn for a placeholder. *)
Definition creation_failure_recorded (userId : string) (cause : JsThrown)
    (uuid : string) (sw : option ServerWallet) (w1 : World) : World :=
  mkWorld
    (match sw with
     | Some r => patched (sw_id r) marked_failed (serverWallets w1)
     | None => serverWallets w1
                 ++ [mkServerWallet (nextRowId w1) userId ("pending-" ++ uuid)
                                    ZERO_ADDRESS FAILED]
     end)
    (wallets w1)
    (copyProfiles w1)
    (journal w1 ++ [AuditWritten (creation_failed_row userId cause)])
    (match sw with Some _ => nextRowId w1 | None => S (nextRowId w1) end)
    (match sw with Some _ => uuidsDrawn w1 | None => S (uuidsDrawn w1) end)
    (fetchesSent w1).

(** The world after [revoke] has run for the row [r]. *)
Definition revoked (userId : string) (r : ServerWallet) (w : World) : World :=
  mkWorld
    (patched (sw_id r) marked_failed (serverWallets w))
    (wallets w)
    (map (paused_for userId) (copyProfiles w))
    (journal w
       ++ [AuditWritten
             (mkAuditLog userId SERVER_WALLET_FAILED
                [("reason", JStr "Wallet revoked");
                 ("walletId", JStr (sw_dynamicServerWalletId r))])])
    (nextRowId w) (uuidsDrawn w) (fetchesSent w).

(** The four operations of the provider that act on one user. *)
Inductive ProviderCall : Type :=
| GetAddress
| Sign (c : SigningCall)
| Rotate
| Revoke.

Section ProviderCalls.

Variable config : Config.
Variable fetch_outcome : nat -> Request -> FetchOutcome.
Variable uuid_stream : nat -> string.
Variable JSON_stringify : EIP712TypedData -> string.

(** The world a call leaves behind, whatever it returns or throws. *)
Definition world_after (userId : string) (op : ProviderCall) (w : World) : World :=
  match op with
  | GetAddress => snd (getAddress config fetch_outcome uuid_stream userId w)
  | Sign c =>
      snd (perform config fetch_outcome uuid_stream JSON_stringify userId c w)
  | Rotate => snd (rotate config fetch_outcome uuid_stream userId w)
  | Revoke => snd (revoke userId w)
  end.

(** The world after a history of calls, each made for some user. *)
Fixpoint after_calls (history : list (string * ProviderCall)) (w : World) : World :=
  match history with
  | [] => w
  | (userId, op) :: rest => after_calls rest (world_after userId op w)
  end.

End ProviderCalls.

(** Every correlation id in the audit table was drawn from [randomUUID]. *)
Definition correlations_drawn (uuid_stream : nat -> string) (w : World) : Prop :=
  forall row c,
    In row (auditLog w) -> correlation_of row = Some c ->
    exists i, i < uuidsDrawn w /\ c = uuid_stream i.

(** What one call may do to the correlation ids of the audit table: it never
    takes a draw back, and a row it adds carries no correlation id, or the
    identifier the call drew first. *)
Definition correlation_step (uuid_stream : nat -> string) (w w' : World) : Prop :=
  uuidsDrawn w <= uuidsDrawn w' /\
  exists added,
    auditLog w' = (auditLog w ++ added)%list /\
    Forall (fun row => correlation_of row = None \/
                       (correlation_of row = Some (uuid_stream (uuidsDrawn w)) /\
                        uuidsDrawn w < uuidsDrawn w'))
           added.

(** What one call for [userId] may do to the wallet table: nothing, patch
    the row of that user in place, or add a first row for that user under
    the next id. *)
Definition table_step (userId : string) (w w' : World) : Prop :=
  (serverWallets w' = serverWallets w /\ nextRowId w' = nextRowId w) \/
  (exists r patch,
      wallet_of userId w = Some r /\
      (forall x, sw_id (patch x) = sw_id x) /\
      (forall x, sw_userId (patch x) = sw_userId x) /\
      serverWallets w' = patched (sw_id r) patch (serverWallets w) /\
      nextRowId w' = nextRowId w) \/
  (exists row,
      wallet_of userId w = None /\
      sw_userId row = userId /\
      sw_id row = nextRowId w /\
      serverWallets w' = (serverWallets w ++ [row])%list /\
      nextRowId w' = S (nextRowId w)).

(** An event a call for [userId] may journal: a request, a sleep, or an
    audit row attributed to that user. *)
Definition event_of_user (userId : string) (e : Event) : Prop :=
  match e with
  | AuditWritten row => al_userId row = userId
  | FetchSent _ | Slept _ => True
  end.


(** What one call for [userId] may do to the world as a whole: a table step,
    and events of that user appended to the journal. *)
Definition provider_step (userId : string) (w w' : World) : Prop :=
  table_step userId w w' /\
  exists new,
    journal w' = (journal w ++ new)%list /\ Forall (event_of_user userId) new.

(** ** Histories of the factory *)

(** A use of the factory module: a request for the provider, under the
    configuration then in force, or a reset. *)
Inductive FactoryCall : Type :=
| GetProvider (config : Config) (prisma : Factory.PrismaClient)
| ResetProvider.

(** The state of the module after a history of uses. *)
Fixpoint factory_after (history : list FactoryCall) (s : Factory.State)
  : Factory.State :=
  match history with
  | [] => s
  | GetProvider config prisma :: rest =>
      factory_after rest (snd (Factory.getTradingAuthorityProvider config prisma s))
  | ResetProvider :: rest =>
      factory_after rest (Factory.resetTradingAuthorityProvider s)
  end.

(** ** Headers *)

(** A header value that does not begin with a numeral: empty, or starting
    with a character that is neither white space (TAB, LF, VT, FF, CR, SP,
    U+00A0), nor a sign, nor a digit (as every HTTP-date does). *)
Definition not_a_numeral (h : string) : Prop :=
  match h with
  | EmptyString => True
  | String c _ =>
      let n := nat_of_ascii c in
      ~ In n [9; 10; 11; 12; 13; 32; 160] /\ n <> 43 /\ n <> 45 /\
      ~ (48 <= n <= 57)
  end.

(** * The leaderboard route

    The handler of [GET /leaders/leaderboard] in [leaderRoutes]: it fetches
    the leaders, upserts each of them into the [leader] table by address,
    then replies with the fifty best-ranked rows of the table. *)

From Stdlib Require Import Sorting.Sorted Sorting.Permutation.

Module Leaderboard.

Section Route.

(** JavaScript numbers that are only stored and passed on ([pnl], [volume]). *)
Context {Amount : Type}.

(** The clock: what the [n]-th [new Date()] of the run evaluates to. *)
Variable now : nat -> Z.

(** A leader as [PolymarketAdapter.fetchLeaderboard] returns it. *)
Record Leader : Type := mkLeader {
  ld_address : string;
  ld_displayName : option string;
  ld_profileImageUrl : option string;
  ld_pnl : Amount;
  ld_volume : Amount;
  ld_rank : Z
}.

(** A row of [prisma.leader], with the columns the route writes. *)
Record LeaderRow : Type := mkLeaderRow {
  lr_address : string;
  lr_displayName : option string;
  lr_profileImageUrl : option string;
  lr_pnl : Amount;
  lr_volume : Amount;
  lr_rank : Z;
  lr_lastSyncedAt : Z
}.

(** The table, and the number of times the clock has been read. *)
Record Db : Type := mkDb {
  leaders : list LeaderRow;
  clockReads : nat
}.

(** [leader.upsert({ where: { address }, create, update })].  The argument
    object is built before the call, so the clock is read twice: once for
    [create.lastSyncedAt], once for [update.lastSyncedAt]. *)
Definition upsert (leader : Leader) (db : Db) : Db :=
  let createdAt := now (clockReads db) in
  let updatedAt := now (S (clockReads db)) in
  let hit r := String.eqb (lr_address r) (ld_address leader) in
  mkDb
    (if existsb hit (leaders db)
     then map (fun r =>
                 if hit r
                 then mkLeaderRow (lr_address r) (ld_displayName leader)
                                  (ld_profileImageUrl leader) (ld_pnl leader)
                                  (ld_volume leader) (ld_rank leader) updatedAt
                 else r)
              (leaders db)
     else leaders db
            ++ [mkLeaderRow (ld_address leader) (ld_displayName leader)
                            (ld_profileImageUrl leader) (ld_pnl leader)
                            (ld_volume leader) (ld_rank leader) createdAt])
    (S (S (clockReads db))).

(** [for (const leader of leaders) await upsert(leader)] *)
Definition sync (feed : list Leader) (db : Db) : Db :=
  fold_left (fun d leader => upsert leader d) feed db.

(** [orderBy: { rank: 'asc' }]: rows in ascending rank; rows of equal rank
    keep their table order here (the database is free to order them
    otherwise). *)
Fixpoint insert_by_rank (r : LeaderRow) (rows : list LeaderRow) : list LeaderRow :=
  match rows with
  | [] => [r]
  | x :: rest =>
      if (lr_rank r <=? lr_rank x)%Z then r :: x :: rest
      else x :: insert_by_rank r rest
  end.

Fixpoint order_by_rank (rows : list LeaderRow) : list LeaderRow :=
  match rows with
  | [] => []
  | x :: rest => insert_by_rank x (order_by_rank rest)
  end.

(** [leader.findMany({ orderBy: { rank: 'asc' }, take: 50 })] *)
Definition findMany_top50 (db : Db) : list LeaderRow :=
  firstn 50 (order_by_rank (leaders db)).

(** The handler; [fetched] is how [fetchLeaderboard()] settles. *)
Definition leaderboard (fetched : JsThrown + list Leader) (db : Db)
  : Outcome (list LeaderRow) * Db :=
  match fetched with
  | inl error => (Throw error, db)
  | inr feed =>
      let db' := sync feed db in
      (Return (findMany_top50 db'), db')
  end.

(** The row of an address. *)
Definition row_of (address : string) (db : Db) : option LeaderRow :=
  find (fun r => String.eqb (lr_address r) address) (leaders db).

(** A row carries the data of a leader. *)
Definition carries (row : LeaderRow) (leader : Leader) : Prop :=
  lr_address row = ld_address leader /\
  lr_displayName row = ld_displayName leader /\
  lr_profileImageUrl row = ld_profileImageUrl leader /\
  lr_pnl row = ld_pnl leader /\
  lr_volume row = ld_volume leader /\
  lr_rank row = ld_rank leader.

End Route.

End Leaderboard.

(** * More scenarios *)

Module Story.

(** A remote service that answers 429 twice and then 200. *)
Definition remote_flaky (n : nat) (req : Request) : FetchOutcome :=
  if n <? 2 then FetchResolves Scenario.busy else FetchResolves Scenario.ok.

(** A remote service out of reach for the first four requests, then fine. *)
Definition remote_recovering (n : nat) (req : Request) : FetchOutcome :=
  if n <? 4 then FetchRejects Scenario.timeout else FetchResolves Scenario.ok.

(** A 429 whose [Retry-After] is an HTTP-date. *)
Definition busy_until : Response :=
  mkResponse 429 (Some "Wed, 21 Oct 2015 07:28:00 GMT") "" (inr Scenario.decoded).

Definition remote_busy_until (n : nat) (req : Request) : FetchOutcome :=
  FetchResolves busy_until.

(** A history of calls by two users. *)
Definition history : list (string * ProviderCall) :=
  [("user-1", GetAddress); ("user-2", GetAddress); ("user-1", Revoke);
   ("user-2", Rotate); ("user-1", Sign (SignMessage (inl "hello")))].

(** Two signing calls, one by user-1 and one by user-2, and the world they
    leave when user-1 has a READY wallet and user-2 has none. *)
Definition signings : list (string * ProviderCall) :=
  [("user-1", Sign (SignMessage (inl "hello")));
   ("user-2", Sign (SignMessage (inl "hello")))].

Definition after_signings : World :=
  after_calls Scenario.config Scenario.remote_ok Scenario.uuids Scenario.stringify
              signings (Scenario.with_wallet READY).

(** A clock that ticks once per reading. *)
Definition ticks (n : nat) : Z := Z.of_nat n.

(** A feed in which one address comes twice. *)
Definition feed : list (@Leaderboard.Leader Z) :=
  [Leaderboard.mkLeader "0xaaa" (Some "Alice") None 500%Z 1000%Z 2%Z;
   Leaderboard.mkLeader "0xbbb" (Some "Bob") None 300%Z 800%Z 1%Z;
   Leaderboard.mkLeader "0xaaa" (Some "Alice A.") None 700%Z 1200%Z 3%Z].

(** A leader table with one row. *)
Definition board : @Leaderboard.Db Z :=
  Leaderboard.mkDb
    [Leaderboard.mkLeaderRow "0xccc" (Some "Carol") None 10%Z 20%Z 2%Z 0%Z] 0.

End Story.

(** The endpoint of each signing method, under the wallet it signs with. *)
Definition endpoint_of (c : SigningCall) : string :=
  match c with
  | SignTypedData _ => "/sign-typed-data"
  | SignMessage _ => "/sign"
  | ExecuteTransaction _ => "/sign-transaction"
  end.

(** An event that, if it is a request, is a POST to the given URL. *)
Definition posts_to (url : string) (e : Event) : Prop :=
  match e with
  | FetchSent req => rq_method req = POST /\ rq_url req = url
  | Slept _ | AuditWritten _ => True
  end.

(** * Properties *)

(** ** Basic facts *)

Lemma journalled_nil (w : World) : journalled w [] = w.
Proof.
  destruct w; unfold journalled; simpl.
  now rewrite app_nil_r, Nat.add_0_r.
Qed.

Lemma fetches_in_app (a b : list Event) :
  fetches_in (a ++ b) = fetches_in a + fetches_in b.
Proof.
  induction a as [|e a IH]; simpl; [reflexivity|].
  destruct e; simpl; now rewrite IH.
Qed.

Lemma sleeps_in_app (a b : list Event) :
  sleeps_in (a ++ b) = sleeps_in a + sleeps_in b.
Proof.
  induction a as [|e a IH]; simpl; [reflexivity|].
  destruct e; simpl; now rewrite IH.
Qed.

Lemma journalled_app (w : World) (a b : list Event) :
  journalled (journalled w a) b = journalled w (a ++ b).
Proof.
  unfold journalled; simpl.
  now rewrite fetches_in_app, app_assoc, Nat.add_assoc.
Qed.

Lemma audit_rows_app (a b : list Event) :
  audit_rows (a ++ b) = (audit_rows a ++ audit_rows b)%list.
Proof.
  induction a as [|e a IH]; simpl; [reflexivity|].
  destruct e; simpl; now rewrite IH.
Qed.

Lemma audit_rows_remote (evs : list Event) :
  forallb remote_event evs = true -> audit_rows evs = [].
Proof.
  induction evs as [|e evs IH]; simpl; [reflexivity|].
  destruct e; simpl; intros H; try discriminate; now apply IH.
Qed.

Lemma digit_of_digit_char (d : nat) :
  d < 10 -> digit_of_ascii (digit_char d) = Some (Z.of_nat d).
Proof.
  intros H.
  do 10 (destruct d as [|d]; [reflexivity|]).
  lia.
Qed.

Lemma digit_char_not_space (d : nat) :
  d < 10 -> is_js_whitespace (digit_char d) = false.
Proof.
  intros H.
  do 10 (destruct d as [|d]; [reflexivity|]).
  lia.
Qed.

Lemma read_digits_string (ds : list nat) (seen : bool) (acc : Z) :
  Forall (fun d => d < 10) ds ->
  read_digits (digits_string ds) seen acc =
  if seen || negb (Nat.eqb (length ds) 0)
  then Some (fold_left (fun a d => (10 * a + Z.of_nat d)%Z) ds acc)
  else None.
Proof.
  intros Hds. revert seen acc.
  induction Hds as [|d ds Hd _ IH]; intros seen acc;
    cbn [digits_string read_digits fold_left length Nat.eqb negb].
  - now rewrite orb_false_r.
  - rewrite (digit_of_digit_char d Hd), IH.
    now rewrite orb_true_r.
Qed.

(** Below [2^53] every integer is a double. *)
Lemma double_of_Z_exact (z : Z) :
  (Z.abs z < 2 ^ 53)%Z -> double_of_Z z = Num z.
Proof.
  intros H. unfold double_of_Z.
  apply Z.ltb_lt in H. now rewrite H.
Qed.

(** The rounding of [double_of_Z] and of [js_mul] is that of binary64, as
    the Standard Library models it: checked on integers around the
    thresholds of the definition (53 bits, ties, the overflow to infinity)
    and on their products by 1000. *)
Lemma double_of_Z_is_binary64_on_samples :
  forallb
    (fun z =>
       JsNumber_eqb (JsNumber_of_binary64 (binary64_of_Z z)) (double_of_Z z)
       && JsNumber_eqb
            (JsNumber_of_binary64
               (binary64_mul (binary64_of_Z z) (binary64_of_Z 1000)))
            (js_mul (double_of_Z z) (Num 1000)))
    rounding_samples
  = true.
Proof. vm_compute. reflexivity. Qed.

Lemma digits_value_nonneg (ds : list nat) : (0 <= digits_value ds)%Z.
Proof.
  unfold digits_value.
  assert (H : forall acc, (0 <= acc)%Z ->
                (0 <= fold_left (fun a d => (10 * a + Z.of_nat d)%Z) ds acc)%Z).
  { induction ds as [|d ds IH]; intros acc Hacc; cbn [fold_left]; [exact Hacc|].
    apply IH. lia. }
  apply H. lia.
Qed.

(** [parseInt] reads a delta-seconds header as the number it denotes,
    rounded to a double. *)
Lemma parseInt10_digits (ds : list nat) :
  Forall (fun d => d < 10) ds -> ds <> [] ->
  parseInt10 (digits_string ds) = double_of_Z (digits_value ds).
Proof.
  intros Hds Hne.
  destruct ds as [|d ds]; [congruence|].
  pose proof (Forall_inv Hds) as Hd.
  pose proof (read_digits_string (d :: ds) false 0 Hds) as Hread.
  unfold parseInt10.
  cbn [digits_string skip_whitespace] in *.
  rewrite (digit_char_not_space d Hd).
  cbn [length Nat.eqb negb orb] in Hread.
  assert (Hsign : digit_char d <> "-"%char /\ digit_char d <> "+"%char).
  { do 10 (destruct d as [|d]; [split; discriminate|]). lia. }
  destruct Hsign as [Hm Hp].
  unfold digits_value.
  destruct (digit_char d) as [b0 b1 b2 b3 b4 b5 b6 b7].
  destruct b0, b1, b2, b3, b4, b5, b6, b7;
    try (exfalso; apply Hm; reflexivity);
    try (exfalso; apply Hp; reflexivity);
    exact (f_equal (fun o => match o with Some v => double_of_Z v | None => NaN end)
                   Hread).
Qed.

(** [parseInt(s, 10)] on strings whose value ECMAScript fixes: signs, the
    negative zero, trailing text, a leading no-break space, no radix prefix,
    no digit at all. *)
Lemma parseInt10_examples :
  parseInt10 "42" = Num 42 /\
  parseInt10 "+7" = Num 7 /\
  parseInt10 "-12" = Num (-12) /\
  parseInt10 "-0" = NegZero /\
  parseInt10 "3.9" = Num 3 /\
  parseInt10 "1e3" = Num 1 /\
  parseInt10 "0x10" = Num 0 /\
  parseInt10 " 5 seconds" = Num 5 /\
  parseInt10 (String (ascii_of_nat 160) "3") = Num 3 /\
  parseInt10 "" = NaN /\
  parseInt10 "- 1" = NaN /\
  parseInt10 "Wed, 21 Oct 2015 07:28:00 GMT" = NaN /\
  parseInt10 "9007199254740993" = Num 9007199254740992.
Proof. repeat split. Qed.

(** A numeral of seconds whose milliseconds stay below [2^53] is slept
    exactly. *)
Lemma retry_after_delay_digits (ds : list nat) :
  Forall (fun d => d < 10) ds -> ds <> [] ->
  retry_after_delay (Some (digits_string ds))
  = js_mul (double_of_Z (digits_value ds)) (Num 1000) /\
  ((digits_value ds * 1000 < 2 ^ 53)%Z ->
   retry_after_delay (Some (digits_string ds)) = Num (digits_value ds * 1000)).
Proof.
  intros Hds Hne. unfold retry_after_delay.
  rewrite (parseInt10_digits ds Hds Hne).
  split; [reflexivity|]. intros Hsmall.
  pose proof (digits_value_nonneg ds) as Hpos.
  rewrite double_of_Z_exact by lia.
  cbn [js_mul].
  destruct (Z.eqb_spec (digits_value ds * 1000) 0) as [Hz|Hz].
  - assert (Hlt : (digits_value ds <? 0)%Z = false) by (apply Z.ltb_ge; lia).
    rewrite Hlt, Hz. reflexivity.
  - apply double_of_Z_exact. lia.
Qed.

(** The white space [parseInt] skips, by code unit. *)
Lemma is_js_whitespace_codes (c : ascii) :
  is_js_whitespace c = true <-> In (nat_of_ascii c) [9; 10; 11; 12; 13; 32; 160].
Proof.
  unfold is_js_whitespace. cbv zeta.
  rewrite !orb_true_iff, andb_true_iff, !Nat.leb_le, !Nat.eqb_eq.
  cbn [In]. lia.
Qed.

(** Leading white space does not change the delay. *)
Lemma retry_after_delay_skips_space (c : ascii) (h : string) :
  In (nat_of_ascii c) [9; 10; 11; 12; 13; 32; 160] ->
  retry_after_delay (Some (String c h)) = retry_after_delay (Some h).
Proof.
  intros Hc. apply is_js_whitespace_codes in Hc.
  unfold retry_after_delay, parseInt10. cbn [skip_whitespace].
  now rewrite Hc.
Qed.

Ltac world_eq :=
  unfold journalled, record_event; cbn [serverWallets wallets copyProfiles journal
    nextRowId uuidsDrawn fetchesSent fetches_in];
  f_equal; rewrite <- ?app_assoc; try reflexivity; try lia.

(** ** The remote-call client *)

Section RemoteCallClient.

Variable config : Config.
Variable fetch_outcome : nat -> Request -> FetchOutcome.
Variables (path : string) (method : HttpMethod) (body : option JsonValue).

Let req : Request := request_of config path method body.
Let attempt_at := callDynamic_attempt config fetch_outcome path method body.
Let loop := callDynamic_loop config fetch_outcome path method body.

(** A 429 on an attempt that is not the last: sleep as the header says, then
    go round the loop again. *)
Lemma attempt_429_retry (attempt : nat) (w : World) (res : Response) :
  fetch_outcome (fetchesSent w) req = FetchResolves res ->
  rs_status res = 429%Z ->
  attempt < MAX_RETRIES ->
  attempt_at attempt w =
  (Return Continue,
   journalled w [FetchSent req; Slept (retry_after_delay (rs_retry_after res))]).
Proof.
  intros Hout Hst Hlt.
  unfold attempt_at, callDynamic_attempt, try_catch, bind, fetch.
  fold (request_of config path method body). fold req. rewrite Hout, Hst.
  cbn [Z.eqb Pos.eqb].
  apply Nat.ltb_lt in Hlt. rewrite Hlt.
  unfold sleep, ret. f_equal. world_eq.
Qed.

(** A 429 on the last attempt: the typed error, and no further sleep. *)
Lemma attempt_429_exhausted (attempt : nat) (w : World) (res : Response) :
  fetch_outcome (fetchesSent w) req = FetchResolves res ->
  rs_status res = 429%Z ->
  MAX_RETRIES <= attempt ->
  attempt_at attempt w =
  (Throw (AppError RATE_LIMITED "Dynamic API rate limited" 429),
   journalled w [FetchSent req]).
Proof.
  intros Hout Hst Hge.
  unfold attempt_at, callDynamic_attempt, try_catch, bind, fetch.
  fold (request_of config path method body). fold req. rewrite Hout, Hst.
  cbn [Z.eqb Pos.eqb].
  apply Nat.ltb_ge in Hge. rewrite Hge.
  unfold throw. cbn [instanceof_AppError]. f_equal. world_eq.
Qed.

(** What the [try] block does with an outcome that is a failure other than a
    429: it throws the error of [attempt_error]. *)
Lemma attempt_failure_caught (attempt : nat) (w : World) (error : JsThrown) :
  attempt_error path method (fetch_outcome (fetchesSent w) req) = Some error ->
  instanceof_AppError error = false ->
  attempt_at attempt w =
  if attempt <? MAX_RETRIES
  then (Return Continue,
        journalled w [FetchSent req;
                      Slept (Num (BASE_DELAY_MS * 2 ^ Z.of_nat attempt))])
  else (Throw error, journalled w [FetchSent req]).
Proof.
  intros Herr Hnot.
  unfold attempt_at, callDynamic_attempt, try_catch, bind, fetch.
  fold (request_of config path method body). fold req.
  unfold attempt_error in Herr.
  destruct (fetch_outcome (fetchesSent w) req) as [reason|res].
  - injection Herr as ->. rewrite Hnot.
    destruct (attempt <? MAX_RETRIES); unfold sleep, ret, throw; f_equal; world_eq.
  - destruct (rs_status res =? 429)%Z; [discriminate|].
    destruct (negb (rs_ok res)).
    + injection Herr as <-. unfold throw. cbn [instanceof_AppError].
      destruct (attempt <? MAX_RETRIES); unfold sleep, ret, throw; f_equal; world_eq.
    + unfold res_json. destruct (rs_json res) as [e|decoded]; [|discriminate].
      injection Herr as ->. unfold throw. rewrite Hnot.
      destruct (attempt <? MAX_RETRIES); unfold sleep, ret, throw; f_equal; world_eq.
Qed.

(** A success response ends the loop with the decoded body. *)
Lemma attempt_success (attempt : nat) (w : World) (res : Response)
    (decoded : ResponseBody) :
  fetch_outcome (fetchesSent w) req = FetchResolves res ->
  rs_ok res = true ->
  rs_json res = inr decoded ->
  attempt_at attempt w = (Return (Finish decoded), journalled w [FetchSent req]).
Proof.
  intros Hout Hok Hjson.
  unfold attempt_at, callDynamic_attempt, try_catch, bind, fetch.
  fold (request_of config path method body). fold req. rewrite Hout.
  assert (Hne : (rs_status res =? 429)%Z = false).
  { unfold rs_ok in Hok. apply andb_true_iff in Hok as [_ Hok].
    apply Z.leb_le in Hok. apply Z.eqb_neq. lia. }
  rewrite Hne, Hok. cbn [negb]. unfold res_json. rewrite Hjson.
  unfold ret. f_equal. world_eq.
Qed.

(** Every pass of the loop sends one request; it sleeps at most once, only
    to go round again, and only while retries remain. *)
Lemma attempt_shape (attempt : nat) (w : World) :
  exists evs,
    snd (attempt_at attempt w) = journalled w (FetchSent req :: evs) /\
    ((evs = [] /\ fst (attempt_at attempt w) <> Return Continue) \/
     (exists ms, evs = [Slept ms] /\
                 fst (attempt_at attempt w) = Return Continue /\
                 attempt < MAX_RETRIES)).
Proof.
  unfold attempt_at, callDynamic_attempt, try_catch, bind, fetch.
  fold (request_of config path method body). fold req.
  destruct (fetch_outcome (fetchesSent w) req) as [reason|res].
  - destruct (instanceof_AppError reason).
    + exists []. split; [unfold throw; cbn [snd]; world_eq|].
      left. split; [reflexivity|discriminate].
    + destruct (attempt <? MAX_RETRIES) eqn:Hlt.
      * eexists [Slept _]. split; [unfold sleep, ret; cbn [snd]; world_eq|].
        right. eexists. repeat split. now apply Nat.ltb_lt.
      * exists []. split; [unfold throw; cbn [snd]; world_eq|].
        left. split; [reflexivity|discriminate].
  - destruct (rs_status res =? 429)%Z.
    + destruct (attempt <? MAX_RETRIES) eqn:Hlt.
      * eexists [Slept _]. split; [unfold sleep, ret; cbn [snd]; world_eq|].
        right. eexists. repeat split. now apply Nat.ltb_lt.
      * exists []. unfold throw. cbn [instanceof_AppError snd fst].
        split; [world_eq|]. left. split; [reflexivity|discriminate].
    + destruct (negb (rs_ok res)).
      * unfold throw. cbn [instanceof_AppError].
        destruct (attempt <? MAX_RETRIES) eqn:Hlt.
        -- eexists [Slept _]. split; [unfold sleep, ret; cbn [snd]; world_eq|].
           right. eexists. repeat split. now apply Nat.ltb_lt.
        -- exists []. split; [cbn [snd]; world_eq|].
           left. split; [reflexivity|discriminate].
      * unfold res_json. destruct (rs_json res) as [e|decoded].
        -- unfold throw. destruct (instanceof_AppError e).
           ++ exists []. split; [cbn [snd]; world_eq|].
              left. split; [reflexivity|discriminate].
           ++ destruct (attempt <? MAX_RETRIES) eqn:Hlt.
              ** eexists [Slept _].
                 split; [unfold sleep, ret; cbn [snd]; world_eq|].
                 right. eexists. repeat split. now apply Nat.ltb_lt.
              ** exists []. split; [cbn [snd]; world_eq|].
                 left. split; [reflexivity|discriminate].
        -- exists []. unfold ret. split; [cbn [snd]; world_eq|].
           left. split; [reflexivity|discriminate].
Qed.

(** [continue] starts the next iteration in the world the attempt left. *)
Lemma loop_continue (n attempt : nat) (w w1 : World) :
  attempt_at attempt w = (Return Continue, w1) ->
  loop (S n) attempt w = loop n (S attempt) w1.
Proof.
  intros H. unfold loop. cbn [callDynamic_loop]. unfold bind.
  fold attempt_at. now rewrite H.
Qed.

Lemma loop_throw (n attempt : nat) (w w1 : World) (error : JsThrown) :
  attempt_at attempt w = (Throw error, w1) ->
  loop (S n) attempt w = (Throw error, w1).
Proof.
  intros H. unfold loop. cbn [callDynamic_loop]. unfold bind.
  fold attempt_at. now rewrite H.
Qed.

Lemma loop_finish (n attempt : nat) (w w1 : World) (decoded : ResponseBody) :
  attempt_at attempt w = (Return (Finish decoded), w1) ->
  loop (S n) attempt w = (Return decoded, w1).
Proof.
  intros H. unfold loop. cbn [callDynamic_loop]. unfold bind.
  fold attempt_at. now rewrite H.
Qed.

(** The client touches nothing but the network and the clock: it leaves the
    tables alone, writes no audit row, sends at most one request per
    iteration, and sleeps only between attempts. *)
Lemma loop_frame (n attempt : nat) (w : World) :
  exists evs,
    snd (loop n attempt w) = journalled w evs /\
    forallb remote_event evs = true /\
    fetches_in evs <= n /\
    (0 < n -> 1 <= fetches_in evs) /\
    sleeps_in evs <= MAX_RETRIES - attempt /\
    sleeps_in evs <= fetches_in evs.
Proof.
  revert attempt w.
  induction n as [|n IH]; intros attempt w.
  - exists []. unfold loop. cbn [callDynamic_loop]. unfold throw. cbn.
    rewrite journalled_nil. repeat split; lia.
  - destruct (attempt_shape attempt w) as (evs & Hsnd & Hcase).
    destruct (attempt_at attempt w) as [r w1] eqn:Hat. cbn [fst snd] in *.
    destruct Hcase as [[-> Hnc] | (ms & -> & -> & Hlt)].
    + exists [FetchSent req].
      assert (Hsame : snd (loop (S n) attempt w) = w1).
      { destruct r as [[|decoded]|error].
        - congruence.
        - now rewrite (loop_finish n attempt w w1 decoded Hat).
        - now rewrite (loop_throw n attempt w w1 error Hat). }
      rewrite Hsame, Hsnd. cbn. repeat split; lia.
    + rewrite (loop_continue n attempt w w1 Hat).
      destruct (IH (S attempt) w1) as (evs & Hrest & Hrem & Hf & _ & Hs & Hsf).
      exists ([FetchSent req; Slept ms] ++ evs)%list.
      rewrite Hrest, Hsnd, journalled_app.
      rewrite fetches_in_app, sleeps_in_app.
      cbn [fetches_in sleeps_in forallb remote_event app andb].
      repeat split; try assumption; try lia.
Qed.

End RemoteCallClient.

(** ** Rate limiting *)

(** C5.  When the remote service answers HTTP 429 on an attempt that is not
    the last, the client sleeps for the seconds of the [Retry-After] header
    times 1000 ms and only then makes the next attempt: 2 s when the header
    is absent, 3 s for [Retry-After: 3], [n] s for any header that is the
    decimal numeral of [n] as long as [n * 1000] is below [2^53] (beyond
    that the product is the nearest double), leading white space not
    counting.  A 429 on the last attempt fails with [RATE_LIMITED] without
    sleeping; and when every attempt is answered 429 the call makes four
    attempts separated by three such sleeps and fails with [RATE_LIMITED]. *)
Theorem rate_limit_honours_retry_after :
  forall (config : Config) (fetch_outcome : nat -> Request -> FetchOutcome)
         (path : string) (method : HttpMethod) (body : option JsonValue),
    let req := request_of config path method body in
    let loop := callDynamic_loop config fetch_outcome path method body in
    (forall n attempt w res,
        fetch_outcome (fetchesSent w) req = FetchResolves res ->
        rs_status res = 429%Z ->
        attempt < MAX_RETRIES ->
        loop (S n) attempt w =
        loop n (S attempt)
             (journalled w [FetchSent req;
                            Slept (retry_after_delay (rs_retry_after res))])) /\
    (forall n w res,
        fetch_outcome (fetchesSent w) req = FetchResolves res ->
        rs_status res = 429%Z ->
        loop (S n) MAX_RETRIES w =
        (Throw (AppError RATE_LIMITED "Dynamic API rate limited" 429),
         journalled w [FetchSent req])) /\
    retry_after_delay None = Num 2000 /\
    retry_after_delay (Some "3") = Num 3000 /\
    (forall ds, Forall (fun d => d < 10) ds -> ds <> [] ->
                retry_after_delay (Some (digits_string ds))
                = js_mul (double_of_Z (digits_value ds)) (Num 1000) /\
                ((digits_value ds * 1000 < 2 ^ 53)%Z ->
                 retry_after_delay (Some (digits_string ds))
                 = Num (digits_value ds * 1000))) /\
    (forall c h, In (nat_of_ascii c) [9; 10; 11; 12; 13; 32; 160] ->
                 retry_after_delay (Some (String c h))
                 = retry_after_delay (Some h)) /\
    (forall w (header : nat -> option string),
        (forall k, k <= MAX_RETRIES ->
                   exists res,
                     fetch_outcome (fetchesSent w + k) req = FetchResolves res /\
                     rs_status res = 429%Z /\
                     rs_retry_after res = header k) ->
        callDynamicWithRetry config fetch_outcome path method body w =
        (Throw (AppError RATE_LIMITED "Dynamic API rate limited" 429),
         journalled w [FetchSent req; Slept (retry_after_delay (header 0));
                       FetchSent req; Slept (retry_after_delay (header 1));
                       FetchSent req; Slept (retry_after_delay (header 2));
                       FetchSent req])).
Proof.
  intros config fetch_outcome path method body req loop.
  assert (Hstep : forall n attempt w res,
             fetch_outcome (fetchesSent w) req = FetchResolves res ->
             rs_status res = 429%Z ->
             attempt < MAX_RETRIES ->
             loop (S n) attempt w =
             loop n (S attempt)
                  (journalled w [FetchSent req;
                                 Slept (retry_after_delay (rs_retry_after res))])).
  { intros n attempt w res Hout Hst Hlt.
    apply loop_continue.
    exact (attempt_429_retry config fetch_outcome path method body
                             attempt w res Hout Hst Hlt). }
  assert (Hlast : forall n w res,
             fetch_outcome (fetchesSent w) req = FetchResolves res ->
             rs_status res = 429%Z ->
             loop (S n) MAX_RETRIES w =
             (Throw (AppError RATE_LIMITED "Dynamic API rate limited" 429),
              journalled w [FetchSent req])).
  { intros n w res Hout Hst.
    apply loop_throw.
    exact (attempt_429_exhausted config fetch_outcome path method body
                                 MAX_RETRIES w res Hout Hst (le_n _)). }
  split; [exact Hstep|]. split; [exact Hlast|].
  split; [reflexivity|]. split; [reflexivity|].
  split; [exact retry_after_delay_digits|].
  split; [exact retry_after_delay_skips_space|].
  intros w header Hall.
  unfold callDynamicWithRetry. fold loop.
  unfold MAX_RETRIES in Hlast |- *.
  destruct (Hall 0) as (r0 & H0 & S0 & A0); [unfold MAX_RETRIES; lia|].
  destruct (Hall 1) as (r1 & H1 & S1 & A1); [unfold MAX_RETRIES; lia|].
  destruct (Hall 2) as (r2 & H2 & S2 & A2); [unfold MAX_RETRIES; lia|].
  destruct (Hall 3) as (r3 & H3 & S3 & A3); [unfold MAX_RETRIES; lia|].
  rewrite Nat.add_0_r in H0.
  rewrite (Hstep _ 0 w r0 H0 S0) by (unfold MAX_RETRIES; lia).
  rewrite (Hstep _ 1 _ r1) by
      (try (unfold MAX_RETRIES; lia); try assumption;
       cbn [journalled fetchesSent fetches_in]; exact H1).
  rewrite journalled_app.
  rewrite (Hstep _ 2 _ r2) by
      (try (unfold MAX_RETRIES; lia); try assumption;
       cbn [journalled fetchesSent fetches_in app]; exact H2).
  rewrite journalled_app.
  rewrite (Hlast _ _ r3) by
      (try assumption; cbn [journalled fetchesSent fetches_in app]; exact H3).
  rewrite journalled_app. rewrite A0, A1, A2. reflexivity.
Qed.

(** ** Backoff *)

(** C6.  When an attempt fails in any way other than a 429 (rejected
    [fetch], non-success status, or undecodable body) and retries remain, the
    client sleeps [BASE_DELAY_MS * 2^attempt] ms, with base 500, and tries
    again; on the last attempt the error of that attempt is thrown as it is.
    No call makes more than four requests or sleeps more than three times,
    and when all four attempts fail the delays are 500, 1000 and 2000 ms and
    the error thrown is that of the fourth attempt. *)
Theorem backoff_retries_then_rethrows :
  forall (config : Config) (fetch_outcome : nat -> Request -> FetchOutcome)
         (path : string) (method : HttpMethod) (body : option JsonValue),
    let req := request_of config path method body in
    let loop := callDynamic_loop config fetch_outcome path method body in
    (forall n attempt w error,
        attempt_error path method (fetch_outcome (fetchesSent w) req) = Some error ->
        instanceof_AppError error = false ->
        attempt < MAX_RETRIES ->
        loop (S n) attempt w =
        loop n (S attempt)
             (journalled w [FetchSent req;
                            Slept (Num (500 * 2 ^ Z.of_nat attempt))])) /\
    (forall n w error,
        attempt_error path method (fetch_outcome (fetchesSent w) req) = Some error ->
        instanceof_AppError error = false ->
        loop (S n) MAX_RETRIES w = (Throw error, journalled w [FetchSent req])) /\
    (forall w,
        exists evs,
          snd (callDynamicWithRetry config fetch_outcome path method body w)
          = journalled w evs /\
          forallb remote_event evs = true /\
          1 <= fetches_in evs <= 4 /\
          sleeps_in evs <= 3 /\
          sleeps_in evs <= fetches_in evs) /\
    (forall w (error : nat -> JsThrown),
        (forall k, k <= MAX_RETRIES ->
                   attempt_error path method
                                 (fetch_outcome (fetchesSent w + k) req)
                   = Some (error k) /\
                   instanceof_AppError (error k) = false) ->
        callDynamicWithRetry config fetch_outcome path method body w =
        (Throw (error 3),
         journalled w [FetchSent req; Slept (Num 500);
                       FetchSent req; Slept (Num 1000);
                       FetchSent req; Slept (Num 2000);
                       FetchSent req])).
Proof.
  intros config fetch_outcome path method body req loop.
  assert (Hstep : forall n attempt w error,
             attempt_error path method (fetch_outcome (fetchesSent w) req)
             = Some error ->
             instanceof_AppError error = false ->
             attempt < MAX_RETRIES ->
             loop (S n) attempt w =
             loop n (S attempt)
                  (journalled w [FetchSent req;
                                 Slept (Num (500 * 2 ^ Z.of_nat attempt))])).
  { intros n attempt w error Herr Hnot Hlt.
    apply loop_continue.
    rewrite (attempt_failure_caught config fetch_outcome path method body
                                    attempt w error Herr Hnot).
    apply Nat.ltb_lt in Hlt. now rewrite Hlt. }
  assert (Hlast : forall n w error,
             attempt_error path method (fetch_outcome (fetchesSent w) req)
             = Some error ->
             instanceof_AppError error = false ->
             loop (S n) MAX_RETRIES w
             = (Throw error, journalled w [FetchSent req])).
  { intros n w error Herr Hnot.
    apply loop_throw.
    now rewrite (attempt_failure_caught config fetch_outcome path method body
                                        MAX_RETRIES w error Herr Hnot). }
  split; [exact Hstep|]. split; [exact Hlast|]. split.
  { intros w. unfold callDynamicWithRetry.
    destruct (loop_frame config fetch_outcome path method body
                         (S MAX_RETRIES) 0 w)
      as (evs & Hsnd & Hrem & Hle & Hge & Hsl & Hsf).
    exists evs. unfold MAX_RETRIES in *.
    repeat split; try assumption; try lia. }
  intros w error Hall.
  unfold callDynamicWithRetry. fold loop.
  unfold MAX_RETRIES in Hlast |- *.
  destruct (Hall 0) as (E0 & N0); [unfold MAX_RETRIES; lia|].
  destruct (Hall 1) as (E1 & N1); [unfold MAX_RETRIES; lia|].
  destruct (Hall 2) as (E2 & N2); [unfold MAX_RETRIES; lia|].
  destruct (Hall 3) as (E3 & N3); [unfold MAX_RETRIES; lia|].
  rewrite Nat.add_0_r in E0.
  rewrite (Hstep _ 0 w (error 0) E0 N0) by (unfold MAX_RETRIES; lia).
  rewrite (Hstep _ 1 _ (error 1)) by
      (try (unfold MAX_RETRIES; lia); try assumption;
       cbn [journalled fetchesSent fetches_in]; exact E1).
  rewrite journalled_app.
  rewrite (Hstep _ 2 _ (error 2)) by
      (try (unfold MAX_RETRIES; lia); try assumption;
       cbn [journalled fetchesSent fetches_in app]; exact E2).
  rewrite journalled_app.
  rewrite (Hlast _ _ (error 3)) by
      (try assumption; cbn [journalled fetchesSent fetches_in app]; exact E3).
  rewrite journalled_app. reflexivity.
Qed.

(** ** The signing envelope *)

Section SigningEnvelope.

Variable config : Config.
Variable fetch_outcome : nat -> Request -> FetchOutcome.
Variable uuid_stream : nat -> string.
Variable JSON_stringify : EIP712TypedData -> string.

Lemma bind_ret_envelope {A B : Type} (f : A -> B) (userId operation : string)
    (call : ServerWallet -> M ResponseBody) (result : ResponseBody -> A) (w : World) :
  bind (envelope uuid_stream userId operation call result) (fun a => ret (f a)) w =
  envelope uuid_stream userId operation call (fun decoded => f (result decoded)) w.
Proof.
  cbv beta iota zeta delta
      [envelope bind try_catch ret throw randomUUID requireReadyWallet
       prisma.serverWallet_findUnique auditSigningRequest auditSigningComplete
       auditSigningFailed prisma.auditLog_create].
  cbn [serverWallets].
  destruct (find _ (serverWallets w)) as [sw|]; [|reflexivity].
  destruct (negb _); [reflexivity|].
  destruct (call sw _) as [[decoded|error] w1]; reflexivity.
Qed.

(** Each method is an instance of the envelope. *)
Lemma perform_envelope (userId : string) (c : SigningCall) (w : World) :
  perform config fetch_outcome uuid_stream JSON_stringify userId c w =
  envelope uuid_stream userId (operation_of c)
           (remote_call config fetch_outcome JSON_stringify c) (result_of c) w.
Proof.
  destruct c; unfold perform;
    [ unfold signTypedData | unfold signMessage | unfold executeTransaction ];
    exact (bind_ret_envelope _ userId _ _ _ w).
Qed.

(** Without a ready wallet the envelope throws before it writes anything. *)
Lemma envelope_not_ready {A : Type} (userId operation : string)
    (call : ServerWallet -> M ResponseBody) (result : ResponseBody -> A) (w : World) :
  (forall sw, wallet_of userId w = Some sw -> sw_status sw <> READY) ->
  envelope uuid_stream userId operation call result w =
  (Throw (AppError SERVER_WALLET_NOT_READY
                   "Server wallet is not ready for signing" 503),
   uuid_drawn w).
Proof.
  intros Hnot.
  unfold wallet_of in Hnot.
  cbv beta iota zeta delta
      [envelope bind randomUUID requireReadyWallet
       prisma.serverWallet_findUnique throw].
  cbn [serverWallets].
  destruct (find _ (serverWallets w)) as [sw|] eqn:Hw; [|reflexivity].
  specialize (Hnot sw eq_refl).
  destruct (sw_status sw); try reflexivity. congruence.
Qed.

(** With a ready wallet: the request row, then the remote call, then the
    outcome row. *)
Lemma envelope_ready {A : Type} (userId operation : string)
    (call : ServerWallet -> M ResponseBody) (result : ResponseBody -> A)
    (w : World) (sw : ServerWallet) :
  wallet_of userId w = Some sw ->
  sw_status sw = READY ->
  let correlationId := uuid_stream (uuidsDrawn w) in
  let w1 := record_event
              (AuditWritten (signing_requested userId correlationId operation))
              (uuid_drawn w) in
  envelope uuid_stream userId operation call result w =
  match call sw w1 with
  | (Return decoded, w2) =>
      (Return (result decoded),
       record_event (AuditWritten (signing_completed userId correlationId)) w2)
  | (Throw error, w2) =>
      (Throw (wrapSigningError error),
       record_event (AuditWritten (signing_failed userId correlationId error)) w2)
  end.
Proof.
  intros Hw Hready correlationId w1.
  unfold wallet_of in Hw.
  cbv beta iota zeta delta
      [envelope bind try_catch randomUUID requireReadyWallet
       prisma.serverWallet_findUnique throw ret auditSigningRequest
       auditSigningComplete auditSigningFailed prisma.auditLog_create].
  cbn [serverWallets]. rewrite Hw, Hready.
  cbv beta iota zeta delta [WalletStatus_eqb negb bind ret].
  fold (uuid_drawn w). fold correlationId. fold w1.
  destruct (call sw w1) as [[decoded|error] w2]; reflexivity.
Qed.

End SigningEnvelope.

Lemma callDynamicWithRetry_frame (config : Config)
    (fetch_outcome : nat -> Request -> FetchOutcome)
    (path : string) (method : HttpMethod) (body : option JsonValue) (w : World) :
  exists evs,
    snd (callDynamicWithRetry config fetch_outcome path method body w)
    = journalled w evs /\
    forallb remote_event evs = true /\
    1 <= fetches_in evs.
Proof.
  destruct (loop_frame config fetch_outcome path method body (S MAX_RETRIES) 0 w)
    as (evs & Hsnd & Hrem & _ & Hge & _).
  exists evs. repeat split; try assumption. apply Hge. lia.
Qed.

Lemma remote_call_frame (config : Config)
    (fetch_outcome : nat -> Request -> FetchOutcome)
    (JSON_stringify : EIP712TypedData -> string)
    (c : SigningCall) (sw : ServerWallet) (w : World) :
  exists evs,
    snd (remote_call config fetch_outcome JSON_stringify c sw w) = journalled w evs /\
    forallb remote_event evs = true /\
    1 <= fetches_in evs.
Proof.
  destruct c; apply callDynamicWithRetry_frame.
Qed.

(** Where a row sits in [request :: evs ++ [terminal]] when [evs] holds no
    audit row and the row is not the request: at the end. *)
Lemma completed_row_is_terminal (requested terminal row : AuditLog)
    (evs pre post : list Event) :
  forallb remote_event evs = true ->
  ([AuditWritten requested] ++ evs ++ [AuditWritten terminal])%list
  = (pre ++ AuditWritten row :: post)%list ->
  al_action requested <> al_action row ->
  In (AuditWritten requested) pre /\ row = terminal.
Proof.
  intros Hrem Heq Hact.
  destruct pre as [|e pre]; cbn [app] in Heq.
  - injection Heq as Hrow _. subst row. congruence.
  - injection Heq as <- Hrest. split; [now left|].
    assert (Hin : In (AuditWritten row) (evs ++ [AuditWritten terminal])).
    { rewrite Hrest. apply in_elt. }
    apply in_app_or in Hin as [Hin|[Hin|[]]].
    + rewrite forallb_forall in Hrem. specialize (Hrem _ Hin). discriminate.
    + now injection Hin.
Qed.

(** C3 (amended).  A signing method that throws has either passed the
    ready-wallet check, and then it wrote its [SIGNING_REQUESTED] row and,
    after the remote call and before throwing, one [SIGNING_FAILED] row with
    the same correlation id and the message of the cause (or "Unknown"), the
    error thrown being the cause itself when it is an [AppError] and a
    [SIGNING_UNAVAILABLE] error with its message otherwise, and these two
    rows are all it added to the audit table; or the user's wallet record is
    absent or not READY, and then it throws [SERVER_WALLET_NOT_READY] having
    written no audit row and sent no request. *)
Theorem signing_failure_audited_once_ready :
  forall (config : Config) (fetch_outcome : nat -> Request -> FetchOutcome)
         (uuid_stream : nat -> string)
         (JSON_stringify : EIP712TypedData -> string)
         (userId : string) (c : SigningCall) (w : World) (error : JsThrown),
    let run := perform config fetch_outcome uuid_stream JSON_stringify userId c w in
    let correlationId := uuid_stream (uuidsDrawn w) in
    let requested :=
      mkAuditLog userId SIGNING_REQUESTED
                 [("correlationId", JStr correlationId);
                  ("operation", JStr (operation_of c))] in
    let failed_with (message : string) :=
      mkAuditLog userId SIGNING_FAILED
                 [("correlationId", JStr correlationId);
                  ("error", JStr message)] in
    fst run = Throw error ->
    (forall sw,
        wallet_of userId w = Some sw ->
        sw_status sw = READY ->
        exists evs cause,
          error = match cause with
                  | AppError _ _ _ => cause
                  | Error message => AppError SIGNING_UNAVAILABLE message 503
                  | NonError _ =>
                      AppError SIGNING_UNAVAILABLE "Unknown signing error" 503
                  end /\
          forallb remote_event evs = true /\
          1 <= fetches_in evs /\
          journal (snd run)
          = (journal w
               ++ [AuditWritten requested]
               ++ evs
               ++ [AuditWritten
                     (failed_with match cause with
                                  | AppError _ message _ | Error message => message
                                  | NonError _ => "Unknown"
                                  end)])%list /\
          auditLog (snd run)
          = (auditLog w
               ++ [requested;
                   failed_with match cause with
                               | AppError _ message _ | Error message => message
                               | NonError _ => "Unknown"
                               end])%list) /\
    ((forall sw, wallet_of userId w = Some sw -> sw_status sw <> READY) ->
     error = AppError SERVER_WALLET_NOT_READY
                      "Server wallet is not ready for signing" 503 /\
     snd run = uuid_drawn w /\
     journal (snd run) = journal w /\
     auditLog (snd run) = auditLog w).
Proof.
  intros config fetch_outcome uuid_stream JSON_stringify userId c w error
         run correlationId requested failed_with Hthrow.
  split.
  - intros sw Hw Hst. unfold run in *.
    rewrite perform_envelope in *.
    rewrite (envelope_ready uuid_stream userId (operation_of c) _ _ w sw Hw Hst)
      in *.
    fold correlationId in Hthrow |- *.
    change (signing_requested userId correlationId (operation_of c))
      with requested in *.
    set (w1 := record_event _ (uuid_drawn w)) in *.
    destruct (remote_call_frame config fetch_outcome JSON_stringify c sw w1)
      as (evs & Hsnd & Hrem & Hone).
    destruct (remote_call config fetch_outcome JSON_stringify c sw w1)
      as [[decoded|cause] w2]; cbn [fst snd] in *; [discriminate|].
    injection Hthrow as <-. subst w2.
    assert (Hrow : signing_failed userId correlationId cause
                   = failed_with match cause with
                                 | AppError _ message _ | Error message => message
                                 | NonError _ => "Unknown"
                                 end)
      by (now destruct cause).
    rewrite Hrow.
    assert (Hj : journal (record_event (AuditWritten (failed_with
                             match cause with
                             | AppError _ message _ | Error message => message
                             | NonError _ => "Unknown"
                             end)) (journalled w1 evs))
                 = (journal w ++ [AuditWritten requested] ++ evs
                      ++ [AuditWritten (failed_with
                             match cause with
                             | AppError _ message _ | Error message => message
                             | NonError _ => "Unknown"
                             end)])%list).
    { unfold w1. cbn [journal record_event journalled uuid_drawn].
      now rewrite <- !app_assoc. }
    exists evs, cause. repeat split; try assumption.
    + now destruct cause.
    + unfold auditLog. rewrite Hj, !audit_rows_app.
      now rewrite (audit_rows_remote evs Hrem).
  - intros Hnot. unfold run in *.
    rewrite perform_envelope in *.
    rewrite envelope_not_ready in * by assumption.
    cbn [fst snd] in *. injection Hthrow as <-.
    repeat split.
Qed.

(** C10.  [executeTransaction] never returns the status [failed].  For a
    user with a READY wallet and a remote call that returns a decoded
    response, it returns the hash of that response with the status
    [confirmed] when the remote status is the string "confirmed" and
    [submitted] for every other remote status; and whenever it returns, it
    does so in that way, so that its status is [confirmed] exactly when the
    remote status is "confirmed". *)
Theorem executeTransaction_never_failed :
  forall (config : Config) (fetch_outcome : nat -> Request -> FetchOutcome)
         (uuid_stream : nat -> string)
         (JSON_stringify : EIP712TypedData -> string)
         (userId : string) (tx : TransactionRequest) (w : World),
    let run := executeTransaction config fetch_outcome uuid_stream userId tx w in
    let remote sw :=
      remote_call config fetch_outcome JSON_stringify (ExecuteTransaction tx) sw
        (record_event
           (AuditWritten
              (signing_requested userId (uuid_stream (uuidsDrawn w))
                                 "executeTransaction"))
           (uuid_drawn w)) in
    (forall sw decoded,
        wallet_of userId w = Some sw ->
        sw_status sw = READY ->
        fst (remote sw) = Return decoded ->
        fst run
        = Return (mkTransactionResult
                    (rb_hash decoded)
                    (if String.eqb (rb_status decoded) "confirmed" then confirmed
                     else submitted))) /\
    (forall result,
        fst run = Return result ->
        tr_status result <> failed /\
        exists sw decoded,
          wallet_of userId w = Some sw /\
          sw_status sw = READY /\
          fst (remote sw) = Return decoded /\
          tr_hash result = rb_hash decoded /\
          (tr_status result = confirmed <-> rb_status decoded = "confirmed") /\
          (tr_status result = submitted <-> rb_status decoded <> "confirmed")).
Proof.
  intros config fetch_outcome uuid_stream JSON_stringify userId tx w run remote.
  assert (Henv : run =
                 envelope uuid_stream userId "executeTransaction"
                   (remote_call config fetch_outcome JSON_stringify
                                (ExecuteTransaction tx))
                   (fun decoded =>
                      mkTransactionResult
                        (rb_hash decoded)
                        (if String.eqb (rb_status decoded) "confirmed"
                         then confirmed else submitted)) w)
    by reflexivity.
  split.
  - intros sw decoded Hw Hst Hcall. rewrite Henv.
    rewrite (envelope_ready uuid_stream userId _ _ _ w sw Hw Hst).
    cbv beta delta [remote] in Hcall.
    destruct (remote_call _ _ _ _ sw _) as [[d|cause] w2];
      cbn [fst] in *; [now injection Hcall as ->|discriminate Hcall].
  - intros result Hret. rewrite Henv in Hret.
    destruct (wallet_of userId w) as [sw|] eqn:Hw.
    2:{ rewrite envelope_not_ready in Hret
          by (intros sw Hsw; rewrite Hw in Hsw; discriminate).
        discriminate. }
    destruct (sw_status sw) eqn:Hst.
    1,3: rewrite envelope_not_ready in Hret
      by (intros sw' Hsw; rewrite Hw in Hsw; injection Hsw as <-; congruence);
      discriminate.
    rewrite (envelope_ready uuid_stream userId _ _ _ w sw Hw Hst) in Hret.
    cbv beta delta [remote].
    destruct (remote_call _ _ _ _ sw _) as [[decoded|cause] w2] eqn:Hcall;
      cbn [fst] in Hret; [|discriminate].
    injection Hret as <-. cbn [tr_status tr_hash].
    split.
    + destruct (String.eqb_spec (rb_status decoded) "confirmed"); discriminate.
    + exists sw, decoded. repeat split; try reflexivity;
        try (now rewrite Hcall);
        destruct (String.eqb_spec (rb_status decoded) "confirmed");
        intros; congruence.
Qed.

(** ** The wallet record *)

Section WalletTable.

Variable userId : string.

Let mine (r : ServerWallet) : bool := String.eqb (sw_userId r) userId.

(** Updating by the id of the row found for a user leaves that user with the
    patched row, as long as the patch keeps the user. *)
Lemma find_after_update (patch : ServerWallet -> ServerWallet)
    (rows : list ServerWallet) (r : ServerWallet) :
  (forall x, sw_userId (patch x) = sw_userId x) ->
  find mine rows = Some r ->
  find mine (map (fun x => if Nat.eqb (sw_id x) (sw_id r) then patch x else x) rows)
  = Some (patch r).
Proof.
  intros Hkeep.
  induction rows as [|x rows IH]; cbn [find map]; [discriminate|].
  intros Hfind.
  destruct (mine x) eqn:Hx.
  - injection Hfind as ->. rewrite Nat.eqb_refl.
    unfold mine in *. now rewrite Hkeep, Hx.
  - assert (Hsame : mine (if Nat.eqb (sw_id x) (sw_id r) then patch x else x) = false).
    { destruct (Nat.eqb (sw_id x) (sw_id r)); unfold mine in *; now rewrite ?Hkeep. }
    rewrite Hsame. now apply IH.
Qed.

Lemma found_row_has_id (rows : list ServerWallet) (r : ServerWallet) :
  find mine rows = Some r ->
  existsb (fun x => Nat.eqb (sw_id x) (sw_id r)) rows = true.
Proof.
  induction rows as [|x rows IH]; cbn [find existsb]; [discriminate|].
  destruct (mine x).
  - intros [= ->]. now rewrite Nat.eqb_refl.
  - intros H. rewrite (IH H). apply orb_true_r.
Qed.

Lemma not_found_not_taken (rows : list ServerWallet) :
  find mine rows = None -> existsb mine rows = false.
Proof.
  induction rows as [|x rows IH]; cbn [find existsb]; [reflexivity|].
  destruct (mine x); [discriminate|]. exact IH.
Qed.

Lemma find_after_create (rows : list ServerWallet) (row : ServerWallet) :
  find mine rows = None ->
  sw_userId row = userId ->
  find mine (rows ++ [row]) = Some row.
Proof.
  intros Hnone Hrow.
  induction rows as [|x rows IH]; cbn [find app] in *.
  - unfold mine. now rewrite Hrow, String.eqb_refl.
  - destruct (mine x); [discriminate|]. now apply IH.
Qed.

End WalletTable.

Lemma audit_rows_snoc_audit (j : list Event) (row : AuditLog) :
  audit_rows (j ++ [AuditWritten row]) = (audit_rows j ++ [row])%list.
Proof. now rewrite audit_rows_app. Qed.

Lemma audit_rows_journalled (w : World) (evs : list Event) :
  forallb remote_event evs = true ->
  audit_rows (journal w ++ evs) = audit_rows (journal w).
Proof.
  intros H. now rewrite audit_rows_app, (audit_rows_remote evs H), app_nil_r.
Qed.

Section ServerWalletCreation.

Variable config : Config.
Variable fetch_outcome : nat -> Request -> FetchOutcome.
Variable uuid_stream : nat -> string.
Variable userId : string.

Let create_call :=
  callDynamicWithRetry config fetch_outcome "server-wallets" POST
                       (Some (create_wallet_body userId)).

(** When the remote creation call throws, the [catch] block leaves a FAILED
    row for the user, one [SERVER_WALLET_FAILED] audit row, and throws the
    creation error built from the cause. *)
Lemma createServerWallet_attempt_throws (isRotation : bool) (w w1 : World)
    (cause : JsThrown) :
  create_call w = (Throw cause, w1) ->
  let run := createServerWallet_attempt config fetch_outcome uuid_stream
               userId isRotation (wallet_of userId w) w in
  fst run = Throw (AppError SERVER_WALLET_CREATION_FAILED
                            ("Failed to create server wallet: "
                             ++ error_message_or_Unknown cause) 503) /\
  wallet_of userId (snd run)
  = Some (match wallet_of userId w with
          | Some sw => marked_failed sw
          | None => mkServerWallet (nextRowId w) userId
                                   ("pending-" ++ uuid_stream (uuidsDrawn w))
                                   ZERO_ADDRESS FAILED
          end) /\
  auditLog (snd run) = (auditLog w ++ [creation_failed_row userId cause])%list.
Proof.
  intros Hcall run.
  destruct (callDynamicWithRetry_frame config fetch_outcome "server-wallets" POST
              (Some (create_wallet_body userId)) w) as (evs & Hsnd & Hrem & _).
  fold create_call in Hsnd. rewrite Hcall in Hsnd. cbn [snd] in Hsnd. subst w1.
  unfold run, createServerWallet_attempt, try_catch, bind.
  fold (create_wallet_body userId). fold create_call. rewrite Hcall.
  unfold wallet_of.
  destruct (find _ (serverWallets w)) as [sw|] eqn:Hfind.
  - unfold prisma.serverWallet_update.
    cbn [journalled serverWallets].
    rewrite (found_row_has_id userId _ sw Hfind).
    unfold prisma.auditLog_create, throw, auditLog.
    cbn [fst snd set_serverWallets record_event serverWallets journal].
    repeat split.
    + exact (find_after_update userId marked_failed _ sw (fun x => eq_refl) Hfind).
    + cbn [journalled journal].
      now rewrite audit_rows_snoc_audit, audit_rows_journalled.
  - unfold randomUUID, prisma.serverWallet_create.
    cbn [journalled serverWallets uuidsDrawn nextRowId].
    rewrite (not_found_not_taken userId _ Hfind).
    unfold prisma.auditLog_create, throw, auditLog.
    cbn [fst snd record_event serverWallets journal].
    repeat split.
    + now apply find_after_create.
    + cbn [journalled journal].
      now rewrite audit_rows_snoc_audit, audit_rows_journalled.
Qed.

(** When the remote creation call returns, the user is left with a READY row
    holding the id and the address returned, one [SERVER_WALLET_CREATED]
    audit row is written, and the address is returned. *)
Lemma createServerWallet_attempt_returns (isRotation : bool) (w w1 : World)
    (created : ResponseBody) :
  create_call w = (Return created, w1) ->
  let run := createServerWallet_attempt config fetch_outcome uuid_stream
               userId isRotation (wallet_of userId w) w in
  fst run = Return (rb_address created) /\
  wallet_of userId (snd run)
  = Some (match wallet_of userId w with
          | Some sw => made_ready (rb_id created) (rb_address created) sw
          | None => mkServerWallet (nextRowId w) userId (rb_id created)
                                   (rb_address created) READY
          end) /\
  auditLog (snd run)
  = (auditLog w ++ [creation_succeeded_row userId created isRotation])%list.
Proof.
  intros Hcall run.
  destruct (callDynamicWithRetry_frame config fetch_outcome "server-wallets" POST
              (Some (create_wallet_body userId)) w) as (evs & Hsnd & Hrem & _).
  fold create_call in Hsnd. rewrite Hcall in Hsnd. cbn [snd] in Hsnd. subst w1.
  unfold run, createServerWallet_attempt, try_catch, bind.
  fold (create_wallet_body userId). fold create_call. rewrite Hcall.
  unfold wallet_of.
  destruct (find _ (serverWallets w)) as [sw|] eqn:Hfind.
  - assert (Hupd : forall b : bool,
               (if b
                then prisma.serverWallet_update (sw_id sw)
                       (made_ready (rb_id created) (rb_address created))
                else prisma.serverWallet_update (sw_id sw)
                       (made_ready (rb_id created) (rb_address created)))
               = prisma.serverWallet_update (sw_id sw)
                   (made_ready (rb_id created) (rb_address created)))
      by (now intros []).
    unfold made_ready in Hupd at 1 2. rewrite Hupd. clear Hupd.
    unfold prisma.serverWallet_update.
    cbn [journalled serverWallets].
    rewrite (found_row_has_id userId _ sw Hfind).
    unfold prisma.wallet_upsert.
    destruct (existsb _ (wallets _));
      unfold prisma.auditLog_create, ret, auditLog;
      cbn [fst snd set_serverWallets set_wallets record_event serverWallets journal];
      (repeat split;
       [ exact (find_after_update userId
                  (made_ready (rb_id created) (rb_address created)) _ sw
                  (fun x => eq_refl) Hfind)
       | cbn [journalled journal];
         now rewrite audit_rows_snoc_audit, audit_rows_journalled ]).
  - unfold prisma.serverWallet_create.
    cbn [journalled serverWallets uuidsDrawn nextRowId].
    rewrite (not_found_not_taken userId _ Hfind).
    unfold prisma.wallet_upsert.
    destruct (existsb _ (wallets _));
      unfold prisma.auditLog_create, ret, auditLog;
      cbn [fst snd set_serverWallets set_wallets record_event serverWallets journal];
      (repeat split;
       [ now apply find_after_create
       | cbn [journalled journal];
         now rewrite audit_rows_snoc_audit, audit_rows_journalled ]).
Qed.

End ServerWalletCreation.

Section Lifecycle.

Variable config : Config.
Variable fetch_outcome : nat -> Request -> FetchOutcome.
Variable uuid_stream : nat -> string.
Variable userId : string.

(** [getAddress] goes on to create a wallet when the user has no row, or a
    FAILED one. *)
Lemma getAddress_creates (w : World) :
  (forall sw, wallet_of userId w = Some sw -> sw_status sw = FAILED) ->
  getAddress config fetch_outcome uuid_stream userId w =
  createServerWallet_attempt config fetch_outcome uuid_stream userId false
                             (wallet_of userId w) w.
Proof.
  intros Hst.
  cbv beta iota zeta delta
      [getAddress createServerWallet bind prisma.serverWallet_findUnique].
  unfold wallet_of in *.
  destruct (find _ (serverWallets w)) as [sw|] eqn:Hfind.
  - rewrite (Hst sw eq_refl). cbv beta iota delta [WalletStatus_eqb].
    now rewrite Hfind, (Hst sw eq_refl).
  - cbv beta. now rewrite Hfind.
Qed.

(** A rotation always attempts a creation, whatever the status of the row. *)
Lemma createServerWallet_rotation (w : World) (old : ServerWallet) :
  wallet_of userId w = Some old ->
  createServerWallet config fetch_outcome uuid_stream userId true w =
  createServerWallet_attempt config fetch_outcome uuid_stream userId true
                             (wallet_of userId w) w.
Proof.
  intros Hold.
  cbv beta iota zeta delta
      [createServerWallet bind prisma.serverWallet_findUnique].
  unfold wallet_of in *. rewrite Hold.
  now rewrite andb_false_r.
Qed.

End Lifecycle.

(** C4.  When [getAddress] reaches wallet creation (the user has no wallet
    record, or a FAILED one) and the remote creation call throws, as it does
    once its retries are exhausted, [getAddress] throws
    [SERVER_WALLET_CREATION_FAILED] with the message of the cause in its own;
    the user's record ends FAILED, a fresh placeholder with the zero address
    (0x followed by forty zeros) if there was none and the previous record
    with its address untouched otherwise; and the audit table gains exactly
    one row, a [SERVER_WALLET_FAILED] one. *)
Theorem creation_failure_marks_wallet_failed :
  forall (config : Config) (fetch_outcome : nat -> Request -> FetchOutcome)
         (uuid_stream : nat -> string) (userId : string) (w w1 : World)
         (cause : JsThrown),
    (forall sw, wallet_of userId w = Some sw -> sw_status sw = FAILED) ->
    callDynamicWithRetry config fetch_outcome "server-wallets" POST
                         (Some (create_wallet_body userId)) w
    = (Throw cause, w1) ->
    let run := getAddress config fetch_outcome uuid_stream userId w in
    let message :=
      match cause with
      | AppError _ message _ | Error message => message
      | NonError _ => "Unknown"
      end in
    fst run = Throw (AppError SERVER_WALLET_CREATION_FAILED
                              ("Failed to create server wallet: " ++ message) 503) /\
    (exists row,
        wallet_of userId (snd run) = Some row /\
        sw_status row = FAILED /\
        match wallet_of userId w with
        | None => sw_address row = "0x0000000000000000000000000000000000000000"
        | Some sw => sw_address row = sw_address sw
        end) /\
    auditLog (snd run)
    = (auditLog w
         ++ [mkAuditLog userId SERVER_WALLET_FAILED [("error", JStr message)]])%list.
Proof.
  intros config fetch_outcome uuid_stream userId w w1 cause Hst Hcall run message.
  assert (Hmessage : message = error_message_or_Unknown cause)
    by (now destruct cause).
  rewrite Hmessage.
  unfold run. rewrite (getAddress_creates _ _ _ _ w Hst).
  destruct (createServerWallet_attempt_throws config fetch_outcome uuid_stream
              userId false w w1 cause Hcall) as (Hfst & Hrow & Haudit).
  split; [exact Hfst|]. split; [|exact Haudit].
  eexists. split; [exact Hrow|].
  destruct (wallet_of userId w); split; reflexivity.
Qed.

(** C9.  [rotate] for a user without a wallet record throws [NOT_FOUND] and
    changes nothing.  For a user with a record it attempts a creation: when
    the remote call returns, the record becomes READY with the new id and
    address and the audit table gains a [SERVER_WALLET_CREATED] row and then
    an [OWNERSHIP_TRANSFERRED] row carrying the old and the new address;
    when the remote call throws, no [OWNERSHIP_TRANSFERRED] row is written. *)
Theorem rotate_requires_existing_wallet :
  forall (config : Config) (fetch_outcome : nat -> Request -> FetchOutcome)
         (uuid_stream : nat -> string) (userId : string) (w : World),
    let run := rotate config fetch_outcome uuid_stream userId w in
    let create :=
      callDynamicWithRetry config fetch_outcome "server-wallets" POST
                           (Some (create_wallet_body userId)) w in
    (wallet_of userId w = None ->
     run = (Throw (AppError NOT_FOUND "No server wallet to rotate" 404), w)) /\
    (forall old created,
        wallet_of userId w = Some old ->
        fst create = Return created ->
        fst run = Return tt /\
        wallet_of userId (snd run)
        = Some (mkServerWallet (sw_id old) (sw_userId old) (rb_id created)
                               (rb_address created) READY) /\
        auditLog (snd run)
        = (auditLog w
             ++ [creation_succeeded_row userId created true;
                 mkAuditLog userId OWNERSHIP_TRANSFERRED
                   [("oldAddress", JStr (sw_address old));
                    ("newAddress", JStr (rb_address created));
                    ("note",
                     JStr "Server wallet rotated — Proxy/Safe ownership transfer required")]])%list) /\
    (forall old cause,
        wallet_of userId w = Some old ->
        fst create = Throw cause ->
        fst run = Throw (AppError SERVER_WALLET_CREATION_FAILED
                                  ("Failed to create server wallet: "
                                   ++ error_message_or_Unknown cause) 503) /\
        auditLog (snd run)
        = (auditLog w ++ [creation_failed_row userId cause])%list).
Proof.
  intros config fetch_outcome uuid_stream userId w run create.
  split; [|split].
  - intros Hnone. unfold run.
    cbv beta iota zeta delta [rotate bind prisma.serverWallet_findUnique].
    unfold wallet_of in Hnone. now rewrite Hnone.
  - intros old created Hold Hcreate.
    destruct create as [r w1] eqn:Hcall. cbn [fst] in Hcreate. subst r.
    destruct (createServerWallet_attempt_returns config fetch_outcome uuid_stream
                userId true w w1 created Hcall) as (Hfst & Hrow & Haudit).
    rewrite <- (createServerWallet_rotation _ _ _ _ w old Hold) in Hfst, Hrow, Haudit.
    unfold run.
    cbv beta iota zeta delta [rotate bind prisma.serverWallet_findUnique].
    pose proof Hold as Hfind. unfold wallet_of in Hfind. rewrite Hfind.
    destruct (createServerWallet config fetch_outcome uuid_stream userId true w)
      as [r w2].
    cbn [fst snd] in *. subst r.
    unfold prisma.auditLog_create. cbn [fst snd].
    rewrite Hold in Hrow.
    repeat split.
    + exact Hrow.
    + unfold auditLog in *. cbn [record_event journal].
      rewrite audit_rows_snoc_audit, Haudit, <- app_assoc. reflexivity.
  - intros old cause Hold Hcreate.
    destruct create as [r w1] eqn:Hcall. cbn [fst] in Hcreate. subst r.
    destruct (createServerWallet_attempt_throws config fetch_outcome uuid_stream
                userId true w w1 cause Hcall) as (Hfst & _ & Haudit).
    rewrite <- (createServerWallet_rotation _ _ _ _ w old Hold) in Hfst, Haudit.
    unfold run.
    cbv beta iota zeta delta [rotate bind prisma.serverWallet_findUnique].
    pose proof Hold as Hfind. unfold wallet_of in Hfind. rewrite Hfind.
    destruct (createServerWallet config fetch_outcome uuid_stream userId true w)
      as [r w2].
    cbn [fst snd] in *. subst r. split; [reflexivity|exact Haudit].
Qed.

(** C2.  [getAddress] on a READY record returns its address and leaves the
    world as it was: no request, no write.  On a CREATING record it makes one
    call to the wallet-lookup endpoint through the remote-call client (one to
    four requests); when that call returns a body whose status is "active" or
    "ready" the record becomes READY with the address of the body, which is
    returned, and when it returns any other status [getAddress] throws
    [SERVER_WALLET_NOT_READY] and writes nothing.  Without a record it runs
    the wallet creation, and returns the created address when the remote
    creation call returns. *)
Theorem getAddress_resolves :
  forall (config : Config) (fetch_outcome : nat -> Request -> FetchOutcome)
         (uuid_stream : nat -> string) (userId : string) (w : World),
    let run := getAddress config fetch_outcome uuid_stream userId w in
    (forall sw,
        wallet_of userId w = Some sw ->
        sw_status sw = READY ->
        run = (Return (sw_address sw), w)) /\
    (forall sw,
        wallet_of userId w = Some sw ->
        sw_status sw = CREATING ->
        let poll := fetchWalletFromDynamic config fetch_outcome
                      (sw_dynamicServerWalletId sw) w in
        (exists evs,
            snd poll = journalled w evs /\
            forallb remote_event evs = true /\
            1 <= fetches_in evs <= 4) /\
        (forall fresh,
            fst poll = Return fresh ->
            rb_status fresh = "active" \/ rb_status fresh = "ready" ->
            fst run = Return (rb_address fresh) /\
            wallet_of userId (snd run) = Some (promoted (rb_address fresh) sw) /\
            journal (snd run) = journal (snd poll) /\
            fetchesSent (snd run) = fetchesSent (snd poll)) /\
        (forall fresh,
            fst poll = Return fresh ->
            rb_status fresh <> "active" ->
            rb_status fresh <> "ready" ->
            run = (Throw (AppError SERVER_WALLET_NOT_READY
                                   "Server wallet is still being created" 503),
                   snd poll))) /\
    (wallet_of userId w = None ->
     run = createServerWallet config fetch_outcome uuid_stream userId false w /\
     forall created,
       fst (callDynamicWithRetry config fetch_outcome "server-wallets" POST
                                 (Some (create_wallet_body userId)) w)
       = Return created ->
       fst run = Return (rb_address created) /\
       wallet_of userId (snd run)
       = Some (mkServerWallet (nextRowId w) userId (rb_id created)
                              (rb_address created) READY) /\
       auditLog (snd run)
       = (auditLog w ++ [creation_succeeded_row userId created false])%list).
Proof.
  intros config fetch_outcome uuid_stream userId w run.
  split; [|split].
  - intros sw Hw Hst. unfold run.
    cbv beta iota zeta delta [getAddress bind prisma.serverWallet_findUnique].
    unfold wallet_of in Hw. now rewrite Hw, Hst.
  - intros sw Hw Hst poll.
    assert (Hframe : exists evs,
               snd poll = journalled w evs /\
               forallb remote_event evs = true /\
               1 <= fetches_in evs <= 4).
    { destruct (loop_frame config fetch_outcome
                  ("server-wallets/" ++ sw_dynamicServerWalletId sw) GET None
                  (S MAX_RETRIES) 0 w) as (evs & Hsnd & Hrem & Hle & Hge & _).
      exists evs. unfold MAX_RETRIES in *. repeat split; try assumption; lia. }
    assert (Hrun : run =
                   match poll with
                   | (Return fresh, w1) =>
                       if String.eqb (rb_status fresh) "active"
                          || String.eqb (rb_status fresh) "ready"
                       then
                         (_ <- prisma.serverWallet_update
                                 (sw_id sw) (promoted (rb_address fresh)) ;;
                          ret (rb_address fresh))%js w1
                       else (Throw (AppError SERVER_WALLET_NOT_READY
                                      "Server wallet is still being created" 503),
                             w1)
                   | (Throw error, w1) => (Throw error, w1)
                   end).
    { unfold run.
      cbv beta iota zeta delta [getAddress bind prisma.serverWallet_findUnique].
      pose proof Hw as Hfind. unfold wallet_of in Hfind. rewrite Hfind, Hst.
      cbv beta iota delta [WalletStatus_eqb]. fold poll.
      destruct poll as [[fresh|error] w1]; [|reflexivity].
      destruct (_ || _); reflexivity. }
    split; [exact Hframe|].
    destruct Hframe as (evs & Hsnd & Hrem & _).
    destruct poll as [[fresh|error] w1]; cbn [fst snd] in *; subst w1.
    + split.
      * intros fresh' [= <-] Hready.
        assert (Hor : String.eqb (rb_status fresh) "active"
                      || String.eqb (rb_status fresh) "ready" = true).
        { apply orb_true_iff.
          destruct Hready as [H|H]; [left|right]; now apply String.eqb_eq. }
        rewrite Hrun, Hor.
        unfold bind, prisma.serverWallet_update, ret.
        cbn [journalled serverWallets].
        pose proof Hw as Hfind. unfold wallet_of in Hfind.
        rewrite (found_row_has_id userId _ sw Hfind).
        cbn [fst snd set_serverWallets journal fetchesSent serverWallets].
        repeat split.
        exact (find_after_update userId (promoted (rb_address fresh)) _ sw
                                 (fun x => eq_refl) Hfind).
      * intros fresh' [= <-] Hna Hnr.
        apply String.eqb_neq in Hna, Hnr.
        now rewrite Hrun, Hna, Hnr.
    + split; intros fresh' Hf; discriminate Hf.
  - intros Hnone.
    assert (Hst : forall sw, wallet_of userId w = Some sw -> sw_status sw = FAILED)
      by (intros sw Hsw; rewrite Hnone in Hsw; discriminate).
    split.
    + unfold run.
      cbv beta iota zeta delta [getAddress bind prisma.serverWallet_findUnique].
      unfold wallet_of in Hnone. now rewrite Hnone.
    + intros created Hcreated. unfold run.
      rewrite (getAddress_creates _ _ _ _ w Hst).
      destruct (callDynamicWithRetry config fetch_outcome "server-wallets" POST
                  (Some (create_wallet_body userId)) w) as [r w1] eqn:Hcall.
      cbn [fst] in Hcreated. subst r.
      destruct (createServerWallet_attempt_returns config fetch_outcome uuid_stream
                  userId false w w1 created Hcall) as (Hfst & Hrow & Haudit).
      split; [exact Hfst|]. split; [|exact Haudit].
      rewrite Hrow. now rewrite Hnone.
Qed.

(** C7 (amended).  [revoke] for a user without a wallet record returns
    without touching anything.  For a user with a record, whatever its
    status, it returns after leaving that record FAILED (address and wallet
    id kept), turning every ENABLED copy-trading profile of the user into a
    PAUSED one (all other profiles untouched), and adding one
    [SERVER_WALLET_FAILED] row to the audit table. *)
Theorem revoke_marks_failed_and_pauses :
  forall (userId : string) (w : World),
    let run := revoke userId w in
    (wallet_of userId w = None -> run = (Return tt, w)) /\
    (forall sw,
        wallet_of userId w = Some sw ->
        fst run = Return tt /\
        wallet_of userId (snd run) = Some (marked_failed sw) /\
        copyProfiles (snd run) = map (paused_for userId) (copyProfiles w) /\
        (forall p, In p (copyProfiles (snd run)) ->
                   cp_userId p = userId -> cp_status p <> "ENABLED") /\
        auditLog (snd run)
        = (auditLog w
             ++ [mkAuditLog userId SERVER_WALLET_FAILED
                   [("reason", JStr "Wallet revoked");
                    ("walletId", JStr (sw_dynamicServerWalletId sw))]])%list).
Proof.
  intros userId w run. split.
  - intros Hnone. unfold run.
    cbv beta iota zeta delta [revoke bind prisma.serverWallet_findUnique].
    unfold wallet_of in Hnone. now rewrite Hnone.
  - intros sw Hw. unfold run.
    cbv beta iota zeta delta [revoke bind prisma.serverWallet_findUnique].
    pose proof Hw as Hfind. unfold wallet_of in Hfind. rewrite Hfind.
    cbv beta iota zeta delta
        [bind prisma.serverWallet_update prisma.copyProfile_updateMany
         prisma.auditLog_create].
    rewrite (found_row_has_id userId _ sw Hfind).
    cbn [fst snd set_serverWallets set_copyProfiles record_event serverWallets
         copyProfiles journal].
    split; [reflexivity|]. split.
    { exact (find_after_update userId marked_failed _ sw (fun x => eq_refl) Hfind). }
    split; [reflexivity|]. split.
    { intros p Hin Hmine.
      apply in_map_iff in Hin as (q & <- & _).
      destruct (String.eqb (cp_userId q) userId) eqn:Hu;
        destruct (String.eqb (cp_status q) "ENABLED") eqn:Hs;
        cbn [andb cp_status cp_userId] in *.
      - discriminate.
      - now apply String.eqb_neq.
      - apply String.eqb_neq in Hu. contradiction.
      - now apply String.eqb_neq. }
    unfold auditLog.
    cbn [journal record_event set_copyProfiles set_serverWallets].
    now rewrite audit_rows_snoc_audit.
Qed.

(** ** The factory *)

Lemma calls_after_first (p : Factory.Provider) (s : Factory.State)
    (later : list (Config * Factory.PrismaClient)) :
  Factory._provider s = Some p ->
  Factory.calls later s = (repeat p (length later), s).
Proof.
  intros Hp.
  induction later as [|[config prisma] later IH]; cbn [Factory.calls length repeat].
  - reflexivity.
  - unfold Factory.getTradingAuthorityProvider. rewrite Hp. now rewrite IH.
Qed.

(** C8.  Once [getTradingAuthorityProvider] has been called, every later
    call returns the very object the first call returned, whatever
    configuration is then in force and whatever client is passed, and
    constructs nothing.  When the first call finds no provider cached, the
    object it constructs is the remote-backed provider exactly when the API
    key is set and non-empty and [NODE_ENV] is "production", and the mock
    provider otherwise; it holds the client of that first call. *)
Theorem factory_returns_singleton :
  forall (config : Config) (prisma : Factory.PrismaClient) (s : Factory.State),
    let first := Factory.getTradingAuthorityProvider config prisma s in
    (forall later : list (Config * Factory.PrismaClient),
        Factory.calls later (snd first) = (repeat (fst first) (length later), snd first) /\
        forall p, In p (fst (Factory.calls later (snd first))) ->
                  p = fst first /\ Factory.pv_ref p = Factory.pv_ref (fst first)) /\
    (Factory._provider s = None ->
     Factory.pv_ref (fst first) = Factory.constructed s /\
     Factory.pv_prisma (fst first) = prisma /\
     (Factory.pv_class (fst first) = Factory.DynamicServerWalletProvider <->
      (exists key, DYNAMIC_API_KEY config = Some key /\ key <> "") /\
      NODE_ENV config = "production") /\
     (Factory.pv_class (fst first) = Factory.MockDynamicServerWalletProvider <->
      ~ ((exists key, DYNAMIC_API_KEY config = Some key /\ key <> "") /\
         NODE_ENV config = "production"))).
Proof.
  intros config prisma s first.
  assert (Hcached : Factory._provider (snd first) = Some (fst first)).
  { unfold first, Factory.getTradingAuthorityProvider.
    destruct (Factory._provider s) as [p|] eqn:Hp; cbn [fst snd]; [exact Hp|].
    reflexivity. }
  split.
  - intros later.
    rewrite (calls_after_first (fst first) (snd first) later Hcached).
    split; [reflexivity|].
    cbn [fst]. intros p Hin. apply repeat_spec in Hin. now subst p.
  - intros Hnone.
    assert (Htruthy : Factory.truthy (DYNAMIC_API_KEY config) = true <->
                      exists key, DYNAMIC_API_KEY config = Some key /\ key <> "").
    { unfold Factory.truthy. destruct (DYNAMIC_API_KEY config) as [key|].
      - rewrite negb_true_iff, String.eqb_neq. split.
        + intros H. now exists key.
        + now intros (k & [= <-] & H).
      - split; [discriminate|]. now intros (k & H & _). }
    assert (Hprod : String.eqb (NODE_ENV config) "production" = true <->
                    NODE_ENV config = "production") by apply String.eqb_eq.
    unfold first, Factory.getTradingAuthorityProvider. rewrite Hnone.
    destruct (Factory.truthy (DYNAMIC_API_KEY config));
      destruct (String.eqb (NODE_ENV config) "production");
      cbn [andb fst Factory.pv_ref Factory.pv_prisma Factory.pv_class];
      (split; [reflexivity|]); (split; [reflexivity|]).
    + assert (HA : exists key, DYNAMIC_API_KEY config = Some key /\ key <> "")
        by now apply Htruthy.
      assert (HB : NODE_ENV config = "production") by now apply Hprod.
      split; split; intros H; try reflexivity; try discriminate; tauto.
    + assert (HB : NODE_ENV config <> "production")
        by (intros H; apply Hprod in H; discriminate).
      split; split; intros H; try reflexivity; try discriminate; tauto.
    + assert (HA : ~ exists key, DYNAMIC_API_KEY config = Some key /\ key <> "")
        by (intros H; apply Htruthy in H; discriminate).
      split; split; intros H; try reflexivity; try discriminate; tauto.
    + assert (HB : NODE_ENV config <> "production")
        by (intros H; apply Hprod in H; discriminate).
      split; split; intros H; try reflexivity; try discriminate; tauto.
Qed.

(** ** The scenarios, run *)

Lemma strokes_injective (i j : nat) :
  Scenario.strokes i = Scenario.strokes j -> i = j.
Proof.
  revert j. induction i as [|i IH]; intros [|j]; cbn; try discriminate.
  - reflexivity.
  - intros [= H]. now rewrite (IH j H).
Qed.

Lemma uuids_injective (i j : nat) : Scenario.uuids i = Scenario.uuids j -> i = j.
Proof.
  unfold Scenario.uuids. cbn. intros [= H]. now apply strokes_injective.
Qed.

(** The rate-limit policy on a service that always answers 429 with
    [Retry-After: 3]; on the header "120"; on "9007199254740993", which
    [parseInt] rounds to the double below it; and on "3" behind a no-break
    space. *)
Lemma rate_limit_honours_retry_after_witness :
  callDynamic_loop Scenario.config Scenario.remote_busy
                   "server-wallets/dw-0" GET None 4 0 Scenario.empty
  = callDynamic_loop Scenario.config Scenario.remote_busy
                     "server-wallets/dw-0" GET None 3 1
                     (journalled Scenario.empty
                                 [FetchSent Scenario.lookup; Slept (Num 3000)]) /\
  callDynamic_loop Scenario.config Scenario.remote_busy
                   "server-wallets/dw-0" GET None 1 MAX_RETRIES Scenario.empty
  = (Throw (AppError RATE_LIMITED "Dynamic API rate limited" 429),
     journalled Scenario.empty [FetchSent Scenario.lookup]) /\
  retry_after_delay (Some (digits_string [1; 2; 0])) = Num 120000 /\
  retry_after_delay
    (Some (digits_string [9; 0; 0; 7; 1; 9; 9; 2; 5; 4; 7; 4; 0; 9; 9; 3]))
  = Num 9007199254740992000 /\
  retry_after_delay (Some (String (ascii_of_nat 160) "3")) = Num 3000 /\
  callDynamicWithRetry Scenario.config Scenario.remote_busy
                       "server-wallets/dw-0" GET None Scenario.empty
  = (Throw (AppError RATE_LIMITED "Dynamic API rate limited" 429),
     journalled Scenario.empty
       [FetchSent Scenario.lookup; Slept (Num 3000);
        FetchSent Scenario.lookup; Slept (Num 3000);
        FetchSent Scenario.lookup; Slept (Num 3000);
        FetchSent Scenario.lookup]).
Proof.
  destruct (rate_limit_honours_retry_after
              Scenario.config Scenario.remote_busy "server-wallets/dw-0" GET None)
    as (Hstep & Hlast & _ & Hthree & Hdigits & Hspace & Hall).
  split; [|split; [|split; [|split; [|split]]]].
  - apply (Hstep 3 0 Scenario.empty Scenario.busy).
    + reflexivity.
    + reflexivity.
    + unfold MAX_RETRIES. lia.
  - apply (Hlast 0 Scenario.empty Scenario.busy); reflexivity.
  - apply (Hdigits [1; 2; 0]).
    + repeat constructor.
    + discriminate.
    + vm_compute. reflexivity.
  - rewrite (proj1 (Hdigits [9; 0; 0; 7; 1; 9; 9; 2; 5; 4; 7; 4; 0; 9; 9; 3]
                            ltac:(repeat constructor) ltac:(discriminate))).
    vm_compute. reflexivity.
  - rewrite (Hspace (ascii_of_nat 160) "3") by (vm_compute; tauto).
    exact Hthree.
  - apply (Hall Scenario.empty (fun _ => Some "3")).
    intros k Hk. exists Scenario.busy. repeat split.
Defined.

(** The backoff policy on a service that never answers in time. *)
Lemma backoff_retries_then_rethrows_witness :
  callDynamic_loop Scenario.config Scenario.remote_down
                   "server-wallets/dw-0" GET None 3 1 Scenario.empty
  = callDynamic_loop Scenario.config Scenario.remote_down
                     "server-wallets/dw-0" GET None 2 2
                     (journalled Scenario.empty
                                 [FetchSent Scenario.lookup; Slept (Num 1000)]) /\
  callDynamic_loop Scenario.config Scenario.remote_down
                   "server-wallets/dw-0" GET None 1 MAX_RETRIES Scenario.empty
  = (Throw Scenario.timeout, journalled Scenario.empty [FetchSent Scenario.lookup]) /\
  callDynamicWithRetry Scenario.config Scenario.remote_down
                       "server-wallets/dw-0" GET None Scenario.empty
  = (Throw Scenario.timeout,
     journalled Scenario.empty
       [FetchSent Scenario.lookup; Slept (Num 500);
        FetchSent Scenario.lookup; Slept (Num 1000);
        FetchSent Scenario.lookup; Slept (Num 2000);
        FetchSent Scenario.lookup]).
Proof.
  destruct (backoff_retries_then_rethrows
              Scenario.config Scenario.remote_down "server-wallets/dw-0" GET None)
    as (Hstep & Hlast & _ & Hall).
  split; [|split].
  - apply (Hstep 2 1 Scenario.empty Scenario.timeout).
    + reflexivity.
    + reflexivity.
    + unfold MAX_RETRIES. lia.
  - apply (Hlast 0 Scenario.empty Scenario.timeout); reflexivity.
  - apply (Hall Scenario.empty (fun _ => Scenario.timeout)).
    intros k Hk. split; reflexivity.
Defined.

(** [getAddress] on a READY row, on a CREATING row that the service reports
    active or still pending, and without a row. *)
Lemma getAddress_resolves_witness :
  getAddress Scenario.config Scenario.remote_down Scenario.uuids "user-1"
             (Scenario.with_wallet READY)
  = (Return "0xB0B", Scenario.with_wallet READY) /\
  (fst (getAddress Scenario.config Scenario.remote_ok Scenario.uuids "user-1"
                   (Scenario.with_wallet CREATING))
   = Return "0xA11CE" /\
   wallet_of "user-1"
             (snd (getAddress Scenario.config Scenario.remote_ok Scenario.uuids
                              "user-1" (Scenario.with_wallet CREATING)))
   = Some (mkServerWallet 0 "user-1" "dw-0" "0xA11CE" READY)) /\
  getAddress Scenario.config Scenario.remote_pending Scenario.uuids "user-1"
             (Scenario.with_wallet CREATING)
  = (Throw (AppError SERVER_WALLET_NOT_READY
                     "Server wallet is still being created" 503),
     journalled (Scenario.with_wallet CREATING) [FetchSent Scenario.lookup]) /\
  (fst (getAddress Scenario.config Scenario.remote_ok Scenario.uuids "user-1"
                   Scenario.empty)
   = Return "0xA11CE" /\
   wallet_of "user-1"
             (snd (getAddress Scenario.config Scenario.remote_ok Scenario.uuids
                              "user-1" Scenario.empty))
   = Some (mkServerWallet 0 "user-1" "dw-1" "0xA11CE" READY)).
Proof.
  split; [|split; [|split]].
  - destruct (getAddress_resolves Scenario.config Scenario.remote_down
                Scenario.uuids "user-1" (Scenario.with_wallet READY))
      as (Hready & _ & _).
    exact (Hready (Scenario.row READY) eq_refl eq_refl).
  - destruct (getAddress_resolves Scenario.config Scenario.remote_ok
                Scenario.uuids "user-1" (Scenario.with_wallet CREATING))
      as (_ & Hcreating & _).
    destruct (Hcreating (Scenario.row CREATING) eq_refl eq_refl)
      as (_ & Hpromote & _).
    destruct (Hpromote Scenario.decoded eq_refl (or_introl eq_refl))
      as (Hfst & Hrow & _).
    split; [exact Hfst|exact Hrow].
  - destruct (getAddress_resolves Scenario.config Scenario.remote_pending
                Scenario.uuids "user-1" (Scenario.with_wallet CREATING))
      as (_ & Hcreating & _).
    destruct (Hcreating (Scenario.row CREATING) eq_refl eq_refl)
      as (_ & _ & Hpending).
    apply (Hpending (mkResponseBody "dw-0" "" "EVM" "mirror-user-1" "pending" "" ""));
      [reflexivity|discriminate|discriminate].
  - destruct (getAddress_resolves Scenario.config Scenario.remote_ok
                Scenario.uuids "user-1" Scenario.empty)
      as (_ & _ & Hnone).
    destruct (Hnone eq_refl) as (_ & Hcreated).
    destruct (Hcreated Scenario.decoded eq_refl) as (Hfst & Hrow & _).
    split; [exact Hfst|exact Hrow].
Defined.

(** C3, as stated, fails: [signMessage] for a user without a wallet record
    throws [SERVER_WALLET_NOT_READY] and leaves the journal, and with it the
    audit table, empty. *)
Lemma signer_not_ready_writes_no_audit_row :
  fst (signMessage Scenario.config Scenario.remote_ok Scenario.uuids
                   "user-1" (inl "hello") Scenario.empty)
  = Throw (AppError SERVER_WALLET_NOT_READY
                    "Server wallet is not ready for signing" 503) /\
  journal (snd (signMessage Scenario.config Scenario.remote_ok Scenario.uuids
                            "user-1" (inl "hello") Scenario.empty))
  = [] /\
  auditLog (snd (signMessage Scenario.config Scenario.remote_ok Scenario.uuids
                             "user-1" (inl "hello") Scenario.empty))
  = [].
Proof. repeat split. Qed.

(** Failing signing calls: behind a READY wallet with the service down, and
    without a wallet. *)
Lemma signing_failure_audited_once_ready_witness :
  auditLog (snd (perform Scenario.config Scenario.remote_down Scenario.uuids
                         Scenario.stringify "user-1"
                         (SignMessage (inl "hello"))
                         (Scenario.with_wallet READY)))
  = [mkAuditLog "user-1" SIGNING_REQUESTED
                [("correlationId", JStr "uuid-");
                 ("operation", JStr "signMessage")];
     mkAuditLog "user-1" SIGNING_FAILED
                [("correlationId", JStr "uuid-");
                 ("error", JStr "The operation was aborted due to timeout")]] /\
  (AppError SERVER_WALLET_NOT_READY "Server wallet is not ready for signing" 503
   = AppError SERVER_WALLET_NOT_READY "Server wallet is not ready for signing" 503 /\
   snd (perform Scenario.config Scenario.remote_ok Scenario.uuids
                Scenario.stringify "user-1" (SignMessage (inl "hello"))
                (Scenario.with_wallet FAILED))
   = uuid_drawn (Scenario.with_wallet FAILED) /\
   journal (snd (perform Scenario.config Scenario.remote_ok Scenario.uuids
                         Scenario.stringify "user-1" (SignMessage (inl "hello"))
                         (Scenario.with_wallet FAILED)))
   = journal (Scenario.with_wallet FAILED) /\
   auditLog (snd (perform Scenario.config Scenario.remote_ok Scenario.uuids
                          Scenario.stringify "user-1" (SignMessage (inl "hello"))
                          (Scenario.with_wallet FAILED)))
   = auditLog (Scenario.with_wallet FAILED)).
Proof.
  split.
  - destruct (signing_failure_audited_once_ready
                Scenario.config Scenario.remote_down Scenario.uuids
                Scenario.stringify "user-1" (SignMessage (inl "hello"))
                (Scenario.with_wallet READY)
                (AppError SIGNING_UNAVAILABLE
                          "The operation was aborted due to timeout" 503)
                eq_refl) as (Hready & _).
    destruct (Hready (Scenario.row READY) eq_refl eq_refl)
      as (evs & cause & Herr & _ & _ & _ & Haudit).
    rewrite Haudit.
    destruct cause as [code message status|message|shown];
      cbn in Herr;
      first [discriminate Herr | injection Herr; intros; subst; reflexivity].
  - destruct (signing_failure_audited_once_ready
                Scenario.config Scenario.remote_ok Scenario.uuids
                Scenario.stringify "user-1" (SignMessage (inl "hello"))
                (Scenario.with_wallet FAILED)
                (AppError SERVER_WALLET_NOT_READY
                          "Server wallet is not ready for signing" 503)
                eq_refl) as (_ & Hnot).
    apply Hnot. intros sw [= <-]. discriminate.
Defined.

(** Creation failing for a user without a row, the service being down. *)
Lemma creation_failure_marks_wallet_failed_witness :
  fst (getAddress Scenario.config Scenario.remote_down Scenario.uuids
                  "user-1" Scenario.empty)
  = Throw (AppError SERVER_WALLET_CREATION_FAILED
                    "Failed to create server wallet: The operation was aborted due to timeout"
                    503) /\
  (exists row,
      wallet_of "user-1"
                (snd (getAddress Scenario.config Scenario.remote_down Scenario.uuids
                                 "user-1" Scenario.empty))
      = Some row /\
      sw_status row = FAILED /\
      sw_address row = "0x0000000000000000000000000000000000000000") /\
  auditLog (snd (getAddress Scenario.config Scenario.remote_down Scenario.uuids
                            "user-1" Scenario.empty))
  = [mkAuditLog "user-1" SERVER_WALLET_FAILED
                [("error", JStr "The operation was aborted due to timeout")]].
Proof.
  refine (creation_failure_marks_wallet_failed
            Scenario.config Scenario.remote_down Scenario.uuids "user-1"
            Scenario.empty
            (journalled Scenario.empty
               [FetchSent Scenario.creation; Slept (Num 500);
                FetchSent Scenario.creation; Slept (Num 1000);
                FetchSent Scenario.creation; Slept (Num 2000);
                FetchSent Scenario.creation])
            Scenario.timeout _ _).
  - intros sw H. discriminate H.
  - reflexivity.
Defined.

(** C7, as stated, fails: revoking a wallet that is already FAILED writes an
    audit row and pauses the user's enabled profile. *)
Lemma revoke_on_failed_wallet_is_not_a_noop :
  wallet_of "user-1" (Scenario.with_wallet FAILED) = Some (Scenario.row FAILED) /\
  auditLog (Scenario.with_wallet FAILED) = [] /\
  auditLog (snd (revoke "user-1" (Scenario.with_wallet FAILED)))
  = [mkAuditLog "user-1" SERVER_WALLET_FAILED
                [("reason", JStr "Wallet revoked"); ("walletId", JStr "dw-0")]] /\
  copyProfiles (Scenario.with_wallet FAILED)
  = [mkCopyProfile 0 "user-1" "ENABLED"; mkCopyProfile 1 "user-2" "ENABLED"] /\
  copyProfiles (snd (revoke "user-1" (Scenario.with_wallet FAILED)))
  = [mkCopyProfile 0 "user-1" "PAUSED"; mkCopyProfile 1 "user-2" "ENABLED"] /\
  revoke "user-1" (Scenario.with_wallet FAILED)
  <> (Return tt, Scenario.with_wallet FAILED).
Proof. repeat split. discriminate. Qed.

(** [revoke] without a row, and on a READY row. *)
Lemma revoke_marks_failed_and_pauses_witness :
  revoke "user-1" Scenario.empty = (Return tt, Scenario.empty) /\
  fst (revoke "user-1" (Scenario.with_wallet READY)) = Return tt /\
  wallet_of "user-1" (snd (revoke "user-1" (Scenario.with_wallet READY)))
  = Some (Scenario.row FAILED) /\
  copyProfiles (snd (revoke "user-1" (Scenario.with_wallet READY)))
  = [mkCopyProfile 0 "user-1" "PAUSED"; mkCopyProfile 1 "user-2" "ENABLED"] /\
  cp_status (mkCopyProfile 0 "user-1" "PAUSED") <> "ENABLED" /\
  auditLog (snd (revoke "user-1" (Scenario.with_wallet READY)))
  = [mkAuditLog "user-1" SERVER_WALLET_FAILED
                [("reason", JStr "Wallet revoked"); ("walletId", JStr "dw-0")]].
Proof.
  split.
  - destruct (revoke_marks_failed_and_pauses "user-1" Scenario.empty) as (Hnone & _).
    exact (Hnone eq_refl).
  - destruct (revoke_marks_failed_and_pauses "user-1" (Scenario.with_wallet READY))
      as (_ & Hsome).
    destruct (Hsome (Scenario.row READY) eq_refl)
      as (Hfst & Hrow & Hprofiles & Hpaused & Haudit).
    split; [exact Hfst|]. split; [exact Hrow|]. split; [exact Hprofiles|].
    split; [|exact Haudit].
    apply (Hpaused (mkCopyProfile 0 "user-1" "PAUSED")).
    + rewrite Hprofiles. left. reflexivity.
    + reflexivity.
Defined.

(** The factory on a fresh module: a production call, then two calls under
    a development configuration and with other clients. *)
Lemma factory_returns_singleton_witness :
  Factory.calls [(mkConfig None "development", 7); (mkConfig None "test", 8)]
                (snd (Factory.getTradingAuthorityProvider
                        Scenario.config 5 Factory.initial))
  = ([Factory.mkProvider 0 Factory.DynamicServerWalletProvider 5;
      Factory.mkProvider 0 Factory.DynamicServerWalletProvider 5],
     Factory.mkState
       (Some (Factory.mkProvider 0 Factory.DynamicServerWalletProvider 5)) 1) /\
  Factory.pv_class (fst (Factory.getTradingAuthorityProvider
                           Scenario.config 5 Factory.initial))
  = Factory.DynamicServerWalletProvider /\
  Factory.pv_class (fst (Factory.getTradingAuthorityProvider
                           (mkConfig (Some "dyn_live_key") "development") 5
                           Factory.initial))
  = Factory.MockDynamicServerWalletProvider.
Proof.
  split; [|split].
  - destruct (factory_returns_singleton Scenario.config 5 Factory.initial)
      as (Hlater & _).
    exact (proj1 (Hlater [(mkConfig None "development", 7);
                          (mkConfig None "test", 8)])).
  - destruct (factory_returns_singleton Scenario.config 5 Factory.initial)
      as (_ & Hfirst).
    destruct (Hfirst eq_refl) as (_ & _ & Hdyn & _).
    apply Hdyn. split; [|reflexivity].
    exists "dyn_live_key". split; [reflexivity|discriminate].
  - destruct (factory_returns_singleton
                (mkConfig (Some "dyn_live_key") "development") 5 Factory.initial)
      as (_ & Hfirst).
    destruct (Hfirst eq_refl) as (_ & _ & _ & Hmock).
    apply Hmock. intros [_ H]. discriminate H.
Defined.

(** [rotate] without a row, with a row and the service up, and with a row
    and the service down. *)
Lemma rotate_requires_existing_wallet_witness :
  rotate Scenario.config Scenario.remote_ok Scenario.uuids "user-1" Scenario.empty
  = (Throw (AppError NOT_FOUND "No server wallet to rotate" 404), Scenario.empty) /\
  (fst (rotate Scenario.config Scenario.remote_ok Scenario.uuids "user-1"
               (Scenario.with_wallet READY))
   = Return tt /\
   wallet_of "user-1"
             (snd (rotate Scenario.config Scenario.remote_ok Scenario.uuids "user-1"
                          (Scenario.with_wallet READY)))
   = Some (mkServerWallet 0 "user-1" "dw-1" "0xA11CE" READY) /\
   auditLog (snd (rotate Scenario.config Scenario.remote_ok Scenario.uuids "user-1"
                         (Scenario.with_wallet READY)))
   = [creation_succeeded_row "user-1" Scenario.decoded true;
      mkAuditLog "user-1" OWNERSHIP_TRANSFERRED
        [("oldAddress", JStr "0xB0B");
         ("newAddress", JStr "0xA11CE");
         ("note",
          JStr "Server wallet rotated — Proxy/Safe ownership transfer required")]]) /\
  (fst (rotate Scenario.config Scenario.remote_down Scenario.uuids "user-1"
               (Scenario.with_wallet READY))
   = Throw (AppError SERVER_WALLET_CREATION_FAILED
                     "Failed to create server wallet: The operation was aborted due to timeout"
                     503) /\
   auditLog (snd (rotate Scenario.config Scenario.remote_down Scenario.uuids "user-1"
                         (Scenario.with_wallet READY)))
   = [creation_failed_row "user-1" Scenario.timeout]).
Proof.
  split; [|split].
  - destruct (rotate_requires_existing_wallet
                Scenario.config Scenario.remote_ok Scenario.uuids "user-1"
                Scenario.empty) as (Hnone & _).
    exact (Hnone eq_refl).
  - destruct (rotate_requires_existing_wallet
                Scenario.config Scenario.remote_ok Scenario.uuids "user-1"
                (Scenario.with_wallet READY)) as (_ & Hok & _).
    exact (Hok (Scenario.row READY) Scenario.decoded eq_refl eq_refl).
  - destruct (rotate_requires_existing_wallet
                Scenario.config Scenario.remote_down Scenario.uuids "user-1"
                (Scenario.with_wallet READY)) as (_ & _ & Hdown).
    exact (Hdown (Scenario.row READY) Scenario.timeout eq_refl eq_refl).
Defined.

(** [executeTransaction] behind a READY wallet, the service answering with
    the status "active": the result is [submitted]. *)
Lemma executeTransaction_never_failed_witness :
  fst (executeTransaction Scenario.config Scenario.remote_ok Scenario.uuids
                          "user-1" (mkTransactionRequest "0xC0DE" "0x" None None)
                          (Scenario.with_wallet READY))
  = Return (mkTransactionResult "0x7A5B" submitted) /\
  tr_status (mkTransactionResult "0x7A5B" submitted) <> failed.
Proof.
  destruct (executeTransaction_never_failed
              Scenario.config Scenario.remote_ok Scenario.uuids Scenario.stringify
              "user-1" (mkTransactionRequest "0xC0DE" "0x" None None)
              (Scenario.with_wallet READY)) as (Hforward & Hback).
  split.
  - exact (Hforward (Scenario.row READY) Scenario.decoded eq_refl eq_refl eq_refl).
  - exact (proj1 (Hback (mkTransactionResult "0x7A5B" submitted) eq_refl)).
Defined.

(** * Further properties *)

(** ** More on the remote-call client *)

Section RemoteCallClientMore.

Variable config : Config.
Variable fetch_outcome : nat -> Request -> FetchOutcome.
Variables (path : string) (method : HttpMethod) (body : option JsonValue).

Let req : Request := request_of config path method body.
Let attempt_at := callDynamic_attempt config fetch_outcome path method body.
Let loop := callDynamic_loop config fetch_outcome path method body.

(** An attempt that throws was answered 429 on the last round, or throws the
    error of its outcome. *)
Lemma attempt_throws_cases (attempt : nat) (w w1 : World) (error : JsThrown) :
  attempt_at attempt w = (Throw error, w1) ->
  (error = AppError RATE_LIMITED "Dynamic API rate limited" 429 /\
   MAX_RETRIES <= attempt /\
   exists res, fetch_outcome (fetchesSent w) req = FetchResolves res /\
               rs_status res = 429%Z) \/
  (attempt_error path method (fetch_outcome (fetchesSent w) req) = Some error /\
   (instanceof_AppError error = true \/ MAX_RETRIES <= attempt)).
Proof.
  unfold attempt_at, callDynamic_attempt, try_catch, bind, fetch, attempt_error.
  fold (request_of config path method body). fold req.
  destruct (fetch_outcome (fetchesSent w) req) as [reason|res].
  - destruct (instanceof_AppError reason) eqn:Hi.
    + unfold throw. intros [= <- _]. right. split; [reflexivity|now left].
    + destruct (attempt <? MAX_RETRIES) eqn:Hlt; unfold sleep, ret, throw.
      * discriminate.
      * intros [= <- _]. right. split; [reflexivity|].
        right. now apply Nat.ltb_ge.
  - destruct (rs_status res =? 429)%Z eqn:Hst.
    + destruct (attempt <? MAX_RETRIES) eqn:Hlt; unfold sleep, ret, throw;
        cbn [instanceof_AppError].
      * discriminate.
      * intros [= <- _]. left. split; [reflexivity|].
        split; [now apply Nat.ltb_ge|].
        exists res. split; [reflexivity|now apply Z.eqb_eq].
    + destruct (negb (rs_ok res)).
      * unfold throw. cbn [instanceof_AppError].
        destruct (attempt <? MAX_RETRIES) eqn:Hlt; unfold sleep, ret.
        -- discriminate.
        -- intros [= <- _]. right. split; [reflexivity|].
           right. now apply Nat.ltb_ge.
      * unfold res_json. destruct (rs_json res) as [e|decoded];
          unfold throw, ret; [|discriminate].
        destruct (instanceof_AppError e) eqn:Hi.
        -- intros [= <- _]. right. split; [reflexivity|now left].
        -- destruct (attempt <? MAX_RETRIES) eqn:Hlt; unfold sleep, ret.
           ++ discriminate.
           ++ intros [= <- _]. right. split; [reflexivity|].
              right. now apply Nat.ltb_ge.
Qed.

(** An attempt that returns a body was answered with a success. *)
Lemma attempt_finishes_cases (attempt : nat) (w w1 : World)
    (decoded : ResponseBody) :
  attempt_at attempt w = (Return (Finish decoded), w1) ->
  succeeds (fetch_outcome (fetchesSent w) req) decoded.
Proof.
  unfold attempt_at, callDynamic_attempt, try_catch, bind, fetch, succeeds.
  fold (request_of config path method body). fold req.
  destruct (fetch_outcome (fetchesSent w) req) as [reason|res].
  - destruct (instanceof_AppError reason); unfold throw; [discriminate|].
    destruct (attempt <? MAX_RETRIES); unfold sleep, ret; discriminate.
  - destruct (rs_status res =? 429)%Z.
    + destruct (attempt <? MAX_RETRIES); unfold sleep, ret, throw;
        cbn [instanceof_AppError]; discriminate.
    + destruct (negb (rs_ok res)) eqn:Hok.
      * unfold throw. cbn [instanceof_AppError].
        destruct (attempt <? MAX_RETRIES); unfold sleep, ret; discriminate.
      * unfold res_json. destruct (rs_json res) as [e|d] eqn:Hjson;
          unfold throw, ret.
        -- destruct (instanceof_AppError e); [discriminate|].
           destruct (attempt <? MAX_RETRIES); unfold sleep, ret; discriminate.
        -- intros [= <- _]. exists res.
           apply negb_false_iff in Hok. now repeat split.
Qed.

(** What a retryable outcome does to an attempt that is not the last. *)
Lemma attempt_retryable (attempt : nat) (w : World) :
  retryable path method (fetch_outcome (fetchesSent w) req) ->
  attempt < MAX_RETRIES ->
  exists ms,
    attempt_at attempt w = (Return Continue, journalled w [FetchSent req; Slept ms]).
Proof.
  intros [(res & Hout & Hst) | (error & Herr & Hnot)] Hlt; unfold attempt_at.
  - eexists.
    exact (attempt_429_retry config fetch_outcome path method body
                             attempt w res Hout Hst Hlt).
  - eexists.
    rewrite (attempt_failure_caught config fetch_outcome path method body
                                    attempt w error Herr Hnot).
    apply Nat.ltb_lt in Hlt. now rewrite Hlt.
Qed.

(** The events of the loop are the same request, over and over, and sleeps;
    starting from an iteration count that matches the attempt, the loop never
    falls through to the [throw] placed after it: what it returns or throws
    comes from its last request. *)
Lemma loop_events (n attempt : nat) (w : World) :
  attempt + n = S MAX_RETRIES ->
  0 < n ->
  exists evs,
    snd (loop n attempt w) = journalled w evs /\
    Forall (call_event req) evs /\
    match fst (loop n attempt w) with
    | Return decoded =>
        succeeds (fetch_outcome (fetchesSent w + (fetches_in evs - 1)) req) decoded
    | Throw error =>
        (error = AppError RATE_LIMITED "Dynamic API rate limited" 429 /\
         exists res,
           fetch_outcome (fetchesSent w + (fetches_in evs - 1)) req
           = FetchResolves res /\ rs_status res = 429%Z) \/
        attempt_error path method
                      (fetch_outcome (fetchesSent w + (fetches_in evs - 1)) req)
        = Some error
    end.
Proof.
  revert attempt w.
  induction n as [|n IH]; intros attempt w Hsum Hn; [lia|].
  - destruct (attempt_shape config fetch_outcome path method body attempt w)
      as (evs & Hsnd & Hcase).
    fold attempt_at req in Hsnd, Hcase.
    destruct (attempt_at attempt w) as [r w1] eqn:Hat. cbn [fst snd] in *.
    destruct Hcase as [[-> Hnc] | (ms & -> & -> & Hlt)].
    + exists [FetchSent req]. subst w1.
      destruct r as [[|decoded]|error]; [congruence| |].
      * unfold loop in *.
        rewrite (loop_finish config fetch_outcome path method body
                             n attempt w _ decoded Hat).
        cbn [fst snd fetches_in]. split; [reflexivity|].
        split; [repeat constructor|].
        cbn [Nat.sub]. rewrite Nat.add_0_r.
        exact (attempt_finishes_cases attempt w _ decoded Hat).
      * unfold loop in *.
        rewrite (loop_throw config fetch_outcome path method body
                            n attempt w _ error Hat).
        cbn [fst snd fetches_in]. split; [reflexivity|].
        split; [repeat constructor|].
        cbn [Nat.sub]. rewrite Nat.add_0_r.
        destruct (attempt_throws_cases attempt w _ error Hat)
          as [(-> & _ & Hres) | (Herr & _)]; [left|right]; auto.
    + destruct n as [|n]; [unfold MAX_RETRIES in *; lia|].
      unfold loop in *.
      rewrite (loop_continue config fetch_outcome path method body
                             (S n) attempt w w1 Hat).
      destruct (IH (S attempt) w1 ltac:(lia) ltac:(lia))
        as (evs & Hrest & Hcall & Hout).
      assert (Hpos : 1 <= fetches_in evs).
      { destruct (loop_frame config fetch_outcome path method body
                             (S n) (S attempt) w1)
          as (evs' & Hsnd' & _ & _ & Hge & _).
        rewrite Hrest in Hsnd'. subst w1.
        unfold journalled in Hsnd'. injection Hsnd' as Hj Hf.
        apply app_inv_head in Hj. subst evs'. apply Hge. lia. }
      exists ([FetchSent req; Slept ms] ++ evs)%list.
      rewrite Hrest, Hsnd, journalled_app. split; [reflexivity|].
      split.
      { apply Forall_app. split; [repeat constructor|exact Hcall]. }
      rewrite fetches_in_app. cbn [fetches_in].
      subst w1. cbn [journalled fetchesSent fetches_in] in Hout.
      replace (fetchesSent w + (1 + fetches_in evs - 1))
        with (fetchesSent w + 1 + (fetches_in evs - 1)) by lia.
      exact Hout.
Qed.

End RemoteCallClientMore.

(** X1.  The client masks transient failures: when the first [k] requests
    of a call ([k] at most 3) are answered 429 or fail with an error that is
    not an [AppError], and the next one succeeds, the call returns the body
    of that success after [k + 1] requests and [k] sleeps. *)
Theorem client_recovers_within_retry_budget :
  forall (config : Config) (fetch_outcome : nat -> Request -> FetchOutcome)
         (path : string) (method : HttpMethod) (body : option JsonValue)
         (w : World) (k : nat) (decoded : ResponseBody),
    let req := request_of config path method body in
    k <= MAX_RETRIES ->
    (forall i, i < k ->
               retryable path method (fetch_outcome (fetchesSent w + i) req)) ->
    succeeds (fetch_outcome (fetchesSent w + k) req) decoded ->
    exists evs,
      callDynamicWithRetry config fetch_outcome path method body w
      = (Return decoded, journalled w evs) /\
      fetches_in evs = S k /\
      sleeps_in evs = k.
Proof.
  intros config fetch_outcome path method body w k decoded req Hk Hfail Hok.
  set (r := request_of config path method body) in *. subst req.
  unfold callDynamicWithRetry.
  assert (Hgen : forall k n attempt w,
             attempt + k <= MAX_RETRIES ->
             k < n ->
             (forall i, i < k ->
                        retryable path method
                                  (fetch_outcome (fetchesSent w + i) r)) ->
             succeeds (fetch_outcome (fetchesSent w + k) r) decoded ->
             exists evs,
               callDynamic_loop config fetch_outcome path method body n attempt w
               = (Return decoded, journalled w evs) /\
               fetches_in evs = S k /\
               sleeps_in evs = k).
  { clear. subst r. intros k.
    induction k as [|k IH]; intros n attempt w Hle Hlt Hfail Hok.
    - destruct n as [|n]; [lia|].
      rewrite Nat.add_0_r in Hok. destruct Hok as (res & Hout & Hres & Hjson).
      eexists [FetchSent _]. split; [|split; reflexivity].
      apply loop_finish.
      exact (attempt_success config fetch_outcome path method body
                             attempt w res decoded Hout Hres Hjson).
    - destruct n as [|n]; [lia|].
      destruct (attempt_retryable config fetch_outcome path method body attempt w)
        as (ms & Hat).
      { specialize (Hfail 0 ltac:(lia)). now rewrite Nat.add_0_r in Hfail. }
      { lia. }
      rewrite (loop_continue config fetch_outcome path method body
                             n attempt w _ Hat).
      destruct (IH n (S attempt)
                   (journalled w [FetchSent (request_of config path method body);
                                  Slept ms])) as (evs & Hrun & Hf & Hs).
      + lia.
      + lia.
      + intros i Hi. cbn [journalled fetchesSent fetches_in].
        replace (fetchesSent w + 1 + i) with (fetchesSent w + S i) by lia.
        apply Hfail. lia.
      + cbn [journalled fetchesSent fetches_in].
        now replace (fetchesSent w + 1 + k) with (fetchesSent w + S k) by lia.
      + exists ([FetchSent (request_of config path method body); Slept ms]
                  ++ evs)%list.
        rewrite Hrun, journalled_app, fetches_in_app, sleeps_in_app.
        cbn [fetches_in sleeps_in]. repeat split; lia. }
  apply Hgen; try assumption; lia.
Qed.

(** X2.  Whatever the remote service does, one call to the client sends the
    same request each time (same URL, method, bearer and content-type
    headers, body and 15 s timeout), between one and four times, and does
    nothing else but sleep: it writes no audit row and leaves every table as
    it was. *)
Theorem client_resends_the_same_request :
  forall (config : Config) (fetch_outcome : nat -> Request -> FetchOutcome)
         (path : string) (method : HttpMethod) (body : option JsonValue)
         (w : World),
    exists evs,
      snd (callDynamicWithRetry config fetch_outcome path method body w)
      = journalled w evs /\
      Forall (call_event
                (mkRequest ("https://app.dynamicauth.com/api/v0/" ++ path) method
                           [("Authorization",
                             "Bearer " ++ template_of (DYNAMIC_API_KEY config));
                            ("Content-Type", "application/json")]
                           body 15000))
             evs /\
      1 <= fetches_in evs <= 4.
Proof.
  intros config fetch_outcome path method body w.
  unfold callDynamicWithRetry.
  destruct (loop_events config fetch_outcome path method body
                        (S MAX_RETRIES) 0 w eq_refl ltac:(lia))
    as (evs & Hsnd & Hall & _).
  destruct (loop_frame config fetch_outcome path method body (S MAX_RETRIES) 0 w)
    as (evs' & Hsnd' & _ & Hle & Hge & _).
  rewrite Hsnd in Hsnd'. unfold journalled in Hsnd'. injection Hsnd' as Hj _.
  apply app_inv_head in Hj. subst evs'.
  exists evs. split; [exact Hsnd|]. split; [exact Hall|].
  unfold MAX_RETRIES in *. lia.
Qed.

(** X3.  What a call to the client returns or throws is decided by its last
    request: it returns the body of that request's success, throws
    [RATE_LIMITED] when that request was answered 429, and otherwise throws
    the error of that attempt.  The [throw] placed after the loop is never
    reached. *)
Theorem client_result_comes_from_last_request :
  forall (config : Config) (fetch_outcome : nat -> Request -> FetchOutcome)
         (path : string) (method : HttpMethod) (body : option JsonValue)
         (w : World),
    let req := request_of config path method body in
    let run := callDynamicWithRetry config fetch_outcome path method body w in
    let last := fetch_outcome (fetchesSent (snd run) - 1) req in
    fetchesSent w < fetchesSent (snd run) /\
    match fst run with
    | Return decoded => succeeds last decoded
    | Throw error =>
        (error = AppError RATE_LIMITED "Dynamic API rate limited" 429 /\
         exists res, last = FetchResolves res /\ rs_status res = 429%Z) \/
        attempt_error path method last = Some error
    end.
Proof.
  intros config fetch_outcome path method body w req run last.
  subst last run req. unfold callDynamicWithRetry.
  destruct (loop_events config fetch_outcome path method body
                        (S MAX_RETRIES) 0 w eq_refl ltac:(lia))
    as (evs & Hsnd & _ & Hout).
  destruct (loop_frame config fetch_outcome path method body (S MAX_RETRIES) 0 w)
    as (evs' & Hsnd' & _ & _ & Hge & _).
  assert (Hpos : 1 <= fetches_in evs).
  { rewrite Hsnd in Hsnd'. unfold journalled in Hsnd'. injection Hsnd' as Hj _.
    apply app_inv_head in Hj. subst evs'. apply Hge. lia. }
  rewrite Hsnd. cbn [journalled fetchesSent].
  split; [lia|].
  replace (fetchesSent w + fetches_in evs - 1)
    with (fetchesSent w + (fetches_in evs - 1)) by lia.
  exact Hout.
Qed.

(** ** The operations, run symbolically *)

Section ProviderRuns.

Variable config : Config.
Variable fetch_outcome : nat -> Request -> FetchOutcome.
Variable uuid_stream : nat -> string.
Variable userId : string.

Let create_call :=
  callDynamicWithRetry config fetch_outcome "server-wallets" POST
                       (Some (create_wallet_body userId)).

(** The [try]/[catch] of [createServerWallet], from the outcome of the
    remote call. *)
Lemma createServerWallet_attempt_run (isRotation : bool) (w : World) :
  createServerWallet_attempt config fetch_outcome uuid_stream userId isRotation
                             (wallet_of userId w) w =
  match create_call w with
  | (Return created, w1) =>
      (Return (rb_address created),
       creation_recorded userId isRotation created (wallet_of userId w) w1)
  | (Throw cause, w1) =>
      (Throw (AppError SERVER_WALLET_CREATION_FAILED
                       ("Failed to create server wallet: "
                        ++ error_message_or_Unknown cause) 503),
       creation_failure_recorded userId cause (uuid_stream (uuidsDrawn w1))
                                 (wallet_of userId w) w1)
  end.
Proof.
  destruct (callDynamicWithRetry_frame config fetch_outcome "server-wallets" POST
              (Some (create_wallet_body userId)) w) as (evs & Hsnd & _).
  fold create_call in Hsnd.
  unfold createServerWallet_attempt, try_catch, bind.
  fold (create_wallet_body userId). fold create_call.
  destruct (create_call w) as [[created|cause] w1]; cbn [snd] in Hsnd; subst w1;
    unfold wallet_of;
    destruct (find _ (serverWallets w)) as [sw|] eqn:Hfind.
  - assert (Hupd : forall b : bool,
               (if b
                then prisma.serverWallet_update (sw_id sw)
                       (made_ready (rb_id created) (rb_address created))
                else prisma.serverWallet_update (sw_id sw)
                       (made_ready (rb_id created) (rb_address created)))
               = prisma.serverWallet_update (sw_id sw)
                   (made_ready (rb_id created) (rb_address created)))
      by (now intros []).
    unfold made_ready in Hupd at 1 2. rewrite Hupd. clear Hupd.
    unfold prisma.serverWallet_update. cbn [journalled serverWallets].
    rewrite (found_row_has_id userId _ sw Hfind).
    unfold prisma.wallet_upsert, creation_recorded, upserted.
    cbn [set_serverWallets wallets serverWallets journalled].
    destruct (existsb _ (wallets w)); reflexivity.
  - unfold prisma.serverWallet_create. cbn [journalled serverWallets].
    rewrite (not_found_not_taken userId _ Hfind).
    unfold prisma.wallet_upsert, creation_recorded, upserted.
    cbn [wallets journalled].
    destruct (existsb _ (wallets w)); reflexivity.
  - unfold prisma.serverWallet_update. cbn [journalled serverWallets].
    rewrite (found_row_has_id userId _ sw Hfind). reflexivity.
  - unfold randomUUID, prisma.serverWallet_create.
    cbn [journalled serverWallets].
    rewrite (not_found_not_taken userId _ Hfind). reflexivity.
Qed.

(** [getAddress], path by path. *)
Lemma getAddress_run (w : World) :
  getAddress config fetch_outcome uuid_stream userId w =
  match wallet_of userId w with
  | Some r =>
      match sw_status r with
      | READY => (Return (sw_address r), w)
      | CREATING =>
          match fetchWalletFromDynamic config fetch_outcome
                                       (sw_dynamicServerWalletId r) w with
          | (Return fresh, w1) =>
              if String.eqb (rb_status fresh) "active"
                 || String.eqb (rb_status fresh) "ready"
              then (Return (rb_address fresh),
                    set_serverWallets
                      (patched (sw_id r) (promoted (rb_address fresh))
                               (serverWallets w1)) w1)
              else (Throw (AppError SERVER_WALLET_NOT_READY
                                    "Server wallet is still being created" 503),
                    w1)
          | (Throw error, w1) => (Throw error, w1)
          end
      | FAILED =>
          createServerWallet_attempt config fetch_outcome uuid_stream userId false
                                     (wallet_of userId w) w
      end
  | None =>
      createServerWallet_attempt config fetch_outcome uuid_stream userId false
                                 (wallet_of userId w) w
  end.
Proof.
  destruct (wallet_of userId w) as [r|] eqn:Hw.
  2:{ rewrite <- Hw. apply getAddress_creates. intros sw Hsw. congruence. }
  destruct (sw_status r) eqn:Hst.
  - cbv beta iota zeta delta [getAddress bind prisma.serverWallet_findUnique].
    pose proof Hw as Hfind. unfold wallet_of in Hfind. rewrite Hfind, Hst.
    cbv beta iota delta [WalletStatus_eqb].
    destruct (callDynamicWithRetry_frame config fetch_outcome
                ("server-wallets/" ++ sw_dynamicServerWalletId r) GET None w)
      as (evs & Hsnd & _).
    fold (fetchWalletFromDynamic config fetch_outcome
                                 (sw_dynamicServerWalletId r)) in Hsnd.
    destruct (fetchWalletFromDynamic config fetch_outcome
                                     (sw_dynamicServerWalletId r) w)
      as [[fresh|error] w1]; [|reflexivity].
    cbn [snd] in Hsnd. subst w1.
    destruct (_ || _); [|reflexivity].
    unfold prisma.serverWallet_update, ret. cbn [journalled serverWallets].
    now rewrite (found_row_has_id userId _ r Hfind).
  - cbv beta iota zeta delta [getAddress bind prisma.serverWallet_findUnique].
    pose proof Hw as Hfind. unfold wallet_of in Hfind. now rewrite Hfind, Hst.
  - rewrite <- Hw. apply getAddress_creates. intros sw Hsw. congruence.
Qed.

Lemma rotate_run (w : World) :
  rotate config fetch_outcome uuid_stream userId w =
  match wallet_of userId w with
  | None => (Throw (AppError NOT_FOUND "No server wallet to rotate" 404), w)
  | Some old =>
      match createServerWallet_attempt config fetch_outcome uuid_stream userId true
                                       (wallet_of userId w) w with
      | (Return newAddress, w1) =>
          (Return tt,
           record_event
             (AuditWritten
                (mkAuditLog userId OWNERSHIP_TRANSFERRED
                   [("oldAddress", JStr (sw_address old));
                    ("newAddress", JStr newAddress);
                    ("note",
                     JStr "Server wallet rotated — Proxy/Safe ownership transfer required")]))
             w1)
      | (Throw error, w1) => (Throw error, w1)
      end
  end.
Proof.
  destruct (wallet_of userId w) as [old|] eqn:Hw.
  - rewrite <- Hw.
    rewrite <- (createServerWallet_rotation config fetch_outcome uuid_stream
                                            userId w old Hw).
    cbv beta iota zeta delta [rotate bind prisma.serverWallet_findUnique].
    pose proof Hw as Hfind. unfold wallet_of in Hfind. rewrite Hfind.
    destruct (createServerWallet config fetch_outcome uuid_stream userId true w)
      as [[a|e] w1]; reflexivity.
  - cbv beta iota zeta delta [rotate bind prisma.serverWallet_findUnique].
    unfold wallet_of in Hw. now rewrite Hw.
Qed.

Lemma revoke_run (w : World) :
  revoke userId w =
  match wallet_of userId w with
  | None => (Return tt, w)
  | Some r => (Return tt, revoked userId r w)
  end.
Proof.
  cbv beta iota zeta delta [revoke bind prisma.serverWallet_findUnique].
  unfold wallet_of.
  destruct (find _ (serverWallets w)) as [r|] eqn:Hfind; [|reflexivity].
  cbv beta iota zeta delta
      [bind prisma.serverWallet_update prisma.copyProfile_updateMany
       prisma.auditLog_create].
  now rewrite (found_row_has_id userId _ r Hfind).
Qed.

End ProviderRuns.

(** ** Wallet tables under the operations *)

Section TableSteps.

Variable userId : string.

Lemma patched_keeps_ids (id : nat) (patch : ServerWallet -> ServerWallet)
    (rows : list ServerWallet) :
  (forall x, sw_id (patch x) = sw_id x) ->
  map sw_id (patched id patch rows) = map sw_id rows.
Proof.
  intros Hid. unfold patched. rewrite map_map. apply map_ext.
  intros x. now destruct (Nat.eqb (sw_id x) id).
Qed.

Lemma patched_keeps_users (id : nat) (patch : ServerWallet -> ServerWallet)
    (rows : list ServerWallet) :
  (forall x, sw_userId (patch x) = sw_userId x) ->
  map sw_userId (patched id patch rows) = map sw_userId rows.
Proof.
  intros Hu. unfold patched. rewrite map_map. apply map_ext.
  intros x. now destruct (Nat.eqb (sw_id x) id).
Qed.

(** Patching the row with a given id leaves the row of another user alone,
    as long as no row of that user carries the id. *)
Lemma other_row_after_patch (other : string) (id : nat)
    (patch : ServerWallet -> ServerWallet) (rows : list ServerWallet) :
  (forall x, sw_userId (patch x) = sw_userId x) ->
  (forall x, In x rows -> sw_id x = id -> sw_userId x <> other) ->
  find (fun r => String.eqb (sw_userId r) other) (patched id patch rows)
  = find (fun r => String.eqb (sw_userId r) other) rows.
Proof.
  intros Hu Hfree.
  induction rows as [|x rows IH]; [reflexivity|].
  cbn [patched map find]. fold (patched id patch rows).
  rewrite IH by (intros y Hy; apply Hfree; now right).
  destruct (Nat.eqb_spec (sw_id x) id) as [Hid|Hid]; [|reflexivity].
  rewrite Hu.
  assert (Hx : String.eqb (sw_userId x) other = false).
  { apply String.eqb_neq. apply Hfree; [now left|exact Hid]. }
  now rewrite Hx.
Qed.

Lemma other_row_after_create (other : string) (rows : list ServerWallet)
    (row : ServerWallet) :
  sw_userId row <> other ->
  find (fun r => String.eqb (sw_userId r) other) (rows ++ [row])
  = find (fun r => String.eqb (sw_userId r) other) rows.
Proof.
  intros Hrow.
  induction rows as [|x rows IH]; cbn [app find].
  - apply String.eqb_neq in Hrow. now rewrite Hrow.
  - now rewrite IH.
Qed.

Lemma unique_id_means_same_row (rows : list ServerWallet) (a b : ServerWallet) :
  NoDup (map sw_id rows) -> In a rows -> In b rows -> sw_id a = sw_id b -> a = b.
Proof.
  induction rows as [|x rows IH]; cbn [map]; [intros _ []|].
  intros Hnd [->|Ha] [->|Hb] Hid; inversion Hnd as [|? ? Hnot Hrest]; subst.
  - reflexivity.
  - exfalso. apply Hnot. rewrite Hid. now apply in_map.
  - exfalso. apply Hnot. rewrite <- Hid. now apply in_map.
  - now apply IH.
Qed.

Lemma no_row_no_user (rows : list ServerWallet) :
  find (fun r => String.eqb (sw_userId r) userId) rows = None ->
  ~ In userId (map sw_userId rows).
Proof.
  intros Hnone Hin. apply in_map_iff in Hin as (x & Hx & Hin).
  apply (find_none _ _ Hnone) in Hin. apply String.eqb_neq in Hin. congruence.
Qed.

(** A table step keeps the table well formed. *)
Lemma table_step_keeps_ok (w w' : World) :
  table_step userId w w' -> table_ok w -> table_ok w'.
Proof.
  unfold table_ok.
  intros [(Hrows & Hnext) | [(r & patch & Hr & Hid & Hu & Hrows & Hnext)
                            | (row & Hnone & Hu & Hid & Hrows & Hnext)]]
         (Hids & Husers & Hbound); rewrite Hrows, Hnext.
  - now repeat split.
  - rewrite (patched_keeps_ids _ _ _ Hid), (patched_keeps_users _ _ _ Hu).
    repeat split; try assumption.
    rewrite Forall_forall in *. intros x Hin.
    unfold patched in Hin. apply in_map_iff in Hin as (y & <- & Hy).
    destruct (Nat.eqb (sw_id y) (sw_id r)); rewrite ?Hid; now apply Hbound.
  - rewrite !map_app. cbn [map]. rewrite Hid, Hu.
    repeat split.
    + apply NoDup_app; [exact Hids|repeat constructor; intros []|].
      intros x Hin [<-|[]].
      apply in_map_iff in Hin as (y & Hy & Hin).
      rewrite Forall_forall in Hbound. specialize (Hbound y Hin). lia.
    + apply NoDup_app; [exact Husers|repeat constructor; intros []|].
      intros x Hin [<-|[]].
      exact (no_row_no_user _ Hnone Hin).
    + apply Forall_app. split.
      * rewrite Forall_forall in *. intros x Hin. specialize (Hbound x Hin).
        cbv beta in *. lia.
      * apply Forall_cons; [cbv beta; lia|apply Forall_nil].
Qed.

(** A table step for one user keeps the row of every other user, when ids
    are unique. *)
Lemma table_step_keeps_others (w w' : World) (other : string) :
  table_step userId w w' ->
  NoDup (map sw_id (serverWallets w)) ->
  other <> userId ->
  wallet_of other w' = wallet_of other w.
Proof.
  unfold wallet_of.
  intros [(Hrows & _) | [(r & patch & Hr & _ & Hu & Hrows & _)
                        | (row & _ & Hu & _ & Hrows & _)]]
         Hids Hother; rewrite Hrows.
  - reflexivity.
  - apply other_row_after_patch; [exact Hu|].
    intros x Hin Hid.
    unfold wallet_of in Hr. apply find_some in Hr as [Hrin Hmine].
    apply String.eqb_eq in Hmine.
    rewrite (unique_id_means_same_row _ x r Hids Hin Hrin Hid). congruence.
  - apply other_row_after_create. congruence.
Qed.

End TableSteps.

Lemma remote_events_are_anyones (userId : string) (evs : list Event) :
  forallb remote_event evs = true -> Forall (event_of_user userId) evs.
Proof.
  induction evs as [|e evs IH]; cbn [forallb]; [constructor|].
  intros H. apply andb_true_iff in H as [He Hrest].
  constructor; [|now apply IH].
  destruct e; [discriminate| |]; exact I.
Qed.

Section ProviderSteps.

Variable config : Config.
Variable fetch_outcome : nat -> Request -> FetchOutcome.
Variable uuid_stream : nat -> string.
Variable JSON_stringify : EIP712TypedData -> string.
Variable userId : string.

Lemma createServerWallet_attempt_step (isRotation : bool) (w : World) :
  provider_step userId w
    (snd (createServerWallet_attempt config fetch_outcome uuid_stream userId
                                     isRotation (wallet_of userId w) w)).
Proof.
  rewrite createServerWallet_attempt_run.
  destruct (callDynamicWithRetry_frame config fetch_outcome "server-wallets" POST
              (Some (create_wallet_body userId)) w) as (evs & Hsnd & Hrem & _).
  destruct (callDynamicWithRetry config fetch_outcome "server-wallets" POST
              (Some (create_wallet_body userId)) w) as [[created|cause] w1];
    cbn [snd] in *; subst w1; split.
  - destruct (wallet_of userId w) as [r|] eqn:Hw.
    + right. left. exists r, (made_ready (rb_id created) (rb_address created)).
      now repeat split.
    + right. right. eexists. now repeat split.
  - eexists. split.
    + cbn [journal creation_recorded journalled]. rewrite <- app_assoc. reflexivity.
    + apply Forall_app. split; [now apply remote_events_are_anyones|].
      now repeat constructor.
  - destruct (wallet_of userId w) as [r|] eqn:Hw.
    + right. left. exists r, marked_failed. now repeat split.
    + right. right. eexists. now repeat split.
  - eexists. split.
    + cbn [journal creation_failure_recorded journalled].
      rewrite <- app_assoc. reflexivity.
    + apply Forall_app. split; [now apply remote_events_are_anyones|].
      now repeat constructor.
Qed.

Lemma provider_step_refl (w : World) : provider_step userId w w.
Proof.
  split; [now left|]. exists []. split; [now rewrite app_nil_r|constructor].
Qed.

Lemma provider_step_then_audit (w w1 : World) (row : AuditLog) :
  provider_step userId w w1 ->
  al_userId row = userId ->
  provider_step userId w (record_event (AuditWritten row) w1).
Proof.
  intros [Htable (new & Hj & Hall)] Hrow. split.
  - destruct Htable as [(Hrows & Hnext) | [(r & patch & H) | (x & H)]].
    + now left.
    + right. left. now exists r, patch.
    + right. right. now exists x.
  - exists (new ++ [AuditWritten row])%list. split.
    + cbn [journal record_event]. now rewrite Hj, app_assoc.
    + apply Forall_app. split; [exact Hall|now repeat constructor].
Qed.

(** Every call for a user is a step of that user. *)
Lemma world_after_step (op : ProviderCall) (w : World) :
  provider_step userId w
    (world_after config fetch_outcome uuid_stream JSON_stringify userId op w).
Proof.
  destruct op as [|c| |]; cbn [world_after].
  - rewrite getAddress_run.
    destruct (wallet_of userId w) as [r|] eqn:Hw.
    2:{ rewrite <- Hw. apply createServerWallet_attempt_step. }
    destruct (sw_status r) eqn:Hst.
    + destruct (callDynamicWithRetry_frame config fetch_outcome
                  ("server-wallets/" ++ sw_dynamicServerWalletId r) GET None w)
        as (evs & Hsnd & Hrem & _).
      fold (fetchWalletFromDynamic config fetch_outcome
                                   (sw_dynamicServerWalletId r)) in Hsnd.
      destruct (fetchWalletFromDynamic config fetch_outcome
                                       (sw_dynamicServerWalletId r) w)
        as [[fresh|error] w1]; cbn [snd] in *; subst w1.
      * destruct (_ || _); cbn [snd]; split.
        -- right. left. exists r, (promoted (rb_address fresh)). now repeat split.
        -- exists evs. split; [reflexivity|now apply remote_events_are_anyones].
        -- now left.
        -- exists evs. split; [reflexivity|now apply remote_events_are_anyones].
      * split; [now left|].
        exists evs. split; [reflexivity|now apply remote_events_are_anyones].
    + apply provider_step_refl.
    + rewrite <- Hw. apply createServerWallet_attempt_step.
  - rewrite perform_envelope.
    destruct (wallet_of userId w) as [sw|] eqn:Hw.
    2:{ rewrite envelope_not_ready
          by (intros sw Hsw; rewrite Hw in Hsw; discriminate).
        split; [now left|]. exists []. split; [cbn; now rewrite app_nil_r|constructor]. }
    destruct (sw_status sw) eqn:Hst.
    1,3: rewrite envelope_not_ready
      by (intros sw' Hsw; rewrite Hw in Hsw; injection Hsw as <-; congruence);
      (split; [now left|]); exists [];
      (split; [cbn; now rewrite app_nil_r|constructor]).
    rewrite (envelope_ready uuid_stream userId _ _ _ w sw Hw Hst).
    set (w1 := record_event _ (uuid_drawn w)).
    destruct (remote_call_frame config fetch_outcome JSON_stringify c sw w1)
      as (evs & Hsnd & Hrem & _).
    destruct (remote_call config fetch_outcome JSON_stringify c sw w1)
      as [[decoded|cause] w2]; cbn [snd] in *; subst w2;
      (split; [now left|]);
      eexists (_ :: evs ++ [_])%list;
      (split;
       [ cbn [journal record_event journalled w1 uuid_drawn];
         rewrite <- !app_assoc; reflexivity
       | constructor; [reflexivity|];
         apply Forall_app; split; [now apply remote_events_are_anyones|];
         now repeat constructor ]).
  - rewrite rotate_run.
    destruct (wallet_of userId w) as [old|] eqn:Hw; [|apply provider_step_refl].
    rewrite <- Hw.
    pose proof (createServerWallet_attempt_step true w) as Hstep.
    destruct (createServerWallet_attempt config fetch_outcome uuid_stream userId
                                         true (wallet_of userId w) w)
      as [[a|e] w1]; cbn [snd] in *; [|exact Hstep].
    now apply provider_step_then_audit.
  - rewrite revoke_run.
    destruct (wallet_of userId w) as [r|] eqn:Hw; [|apply provider_step_refl].
    cbn [snd]. split.
    + right. left. exists r, marked_failed. now repeat split.
    + eexists [_]. split; [reflexivity|]. now repeat constructor.
Qed.

End ProviderSteps.

(** ** Invariants of the provider *)

(** X4.  No history of provider calls, made for whatever users and answered
    by the remote service in whatever way, breaks the wallet table: starting
    from a table with unique row ids below the id counter and at most one
    row per user, the table stays so.  In particular no user ever gets a
    second wallet row. *)
Theorem calls_keep_one_wallet_row_per_user :
  forall (config : Config) (fetch_outcome : nat -> Request -> FetchOutcome)
         (uuid_stream : nat -> string)
         (JSON_stringify : EIP712TypedData -> string)
         (history : list (string * ProviderCall)) (w : World),
    table_ok w ->
    table_ok (after_calls config fetch_outcome uuid_stream JSON_stringify history w).
Proof.
  intros config fetch_outcome uuid_stream JSON_stringify history.
  induction history as [|[userId op] rest IH]; intros w Hok; cbn [after_calls].
  - exact Hok.
  - apply IH.
    apply (table_step_keeps_ok userId w); [|exact Hok].
    apply world_after_step.
Qed.

(** X5.  A call made for one user never changes the wallet row of another
    user (given unique row ids): whatever [getAddress], a signing method,
    [rotate] or [revoke] does for [userId], the row of any other user is
    afterwards what it was before. *)
Theorem calls_leave_other_users_wallets_alone :
  forall (config : Config) (fetch_outcome : nat -> Request -> FetchOutcome)
         (uuid_stream : nat -> string)
         (JSON_stringify : EIP712TypedData -> string)
         (userId other : string) (op : ProviderCall) (w : World),
    NoDup (map sw_id (serverWallets w)) ->
    other <> userId ->
    wallet_of other
              (world_after config fetch_outcome uuid_stream JSON_stringify
                           userId op w)
    = wallet_of other w.
Proof.
  intros config fetch_outcome uuid_stream JSON_stringify userId other op w
         Hids Hother.
  apply (table_step_keeps_others userId); [|exact Hids|exact Hother].
  apply world_after_step.
Qed.

(** X6.  The audit table is append-only under every provider call, and every
    row a call adds is attributed to the user the call was made for. *)
Theorem calls_only_append_own_audit_rows :
  forall (config : Config) (fetch_outcome : nat -> Request -> FetchOutcome)
         (uuid_stream : nat -> string)
         (JSON_stringify : EIP712TypedData -> string)
         (userId : string) (op : ProviderCall) (w : World),
    exists added,
      auditLog (world_after config fetch_outcome uuid_stream JSON_stringify
                            userId op w)
      = (auditLog w ++ added)%list /\
      Forall (fun row => al_userId row = userId) added.
Proof.
  intros config fetch_outcome uuid_stream JSON_stringify userId op w.
  destruct (world_after_step config fetch_outcome uuid_stream JSON_stringify
                             userId op w) as [_ (new & Hj & Hall)].
  exists (audit_rows new). unfold auditLog. rewrite Hj, audit_rows_app.
  split; [reflexivity|].
  clear Hj. induction Hall as [|e new He _ IH]; cbn [audit_rows]; [constructor|].
  destruct e; [constructor; assumption|exact IH|exact IH].
Qed.

(** ** Correlation identifiers over histories *)

Section CorrelationSteps.

Variable config : Config.
Variable fetch_outcome : nat -> Request -> FetchOutcome.
Variable uuid_stream : nat -> string.
Variable JSON_stringify : EIP712TypedData -> string.
Variable userId : string.

Lemma correlation_step_refl (w : World) : correlation_step uuid_stream w w.
Proof.
  split; [lia|]. exists []. split; [now rewrite app_nil_r|constructor].
Qed.

(** Requests and sleeps add no audit row and draw nothing. *)
Lemma correlation_step_remote (w : World) (evs : list Event) :
  forallb remote_event evs = true ->
  correlation_step uuid_stream w (journalled w evs).
Proof.
  intros Hrem. split; [cbn [journalled uuidsDrawn]; lia|].
  exists []. split; [|constructor].
  unfold auditLog. cbn [journalled journal].
  now rewrite audit_rows_app, (audit_rows_remote evs Hrem).
Qed.

(** A row without a correlation id may follow any step. *)
Lemma correlation_step_then_audit (w w1 : World) (row : AuditLog) :
  correlation_step uuid_stream w w1 ->
  correlation_of row = None ->
  correlation_step uuid_stream w (record_event (AuditWritten row) w1).
Proof.
  intros (Hle & added & Haudit & Hall) Hrow.
  split; [exact Hle|].
  exists (added ++ [row])%list. split.
  - unfold auditLog in *. cbn [record_event journal].
    now rewrite audit_rows_snoc_audit, Haudit, app_assoc.
  - apply Forall_app. split; [exact Hall|].
    constructor; [now left|constructor].
Qed.

Lemma createServerWallet_attempt_correlation_step (isRotation : bool) (w : World) :
  correlation_step uuid_stream w
    (snd (createServerWallet_attempt config fetch_outcome uuid_stream userId
                                     isRotation (wallet_of userId w) w)).
Proof.
  rewrite createServerWallet_attempt_run.
  destruct (callDynamicWithRetry_frame config fetch_outcome "server-wallets" POST
              (Some (create_wallet_body userId)) w) as (evs & Hsnd & Hrem & _).
  destruct (callDynamicWithRetry config fetch_outcome "server-wallets" POST
              (Some (create_wallet_body userId)) w) as [[created|cause] w1];
    cbn [snd] in *; subst w1; split.
  - cbn [creation_recorded uuidsDrawn journalled]. lia.
  - exists [creation_succeeded_row userId created isRotation]. split.
    + unfold auditLog. cbn [creation_recorded journal journalled].
      now rewrite !audit_rows_app, (audit_rows_remote evs Hrem), app_nil_r.
    + constructor; [now left|constructor].
  - cbn [creation_failure_recorded uuidsDrawn journalled].
    destruct (wallet_of userId w); lia.
  - exists [creation_failed_row userId cause]. split.
    + unfold auditLog. cbn [creation_failure_recorded journal journalled].
      now rewrite !audit_rows_app, (audit_rows_remote evs Hrem), app_nil_r.
    + constructor; [now left|constructor].
Qed.

(** Every call is a correlation step. *)
Lemma world_after_correlation_step (op : ProviderCall) (w : World) :
  correlation_step uuid_stream w
    (world_after config fetch_outcome uuid_stream JSON_stringify userId op w).
Proof.
  destruct op as [|c| |]; cbn [world_after].
  - rewrite getAddress_run.
    destruct (wallet_of userId w) as [r|] eqn:Hw.
    2:{ rewrite <- Hw. apply createServerWallet_attempt_correlation_step. }
    destruct (sw_status r) eqn:Hst.
    + destruct (callDynamicWithRetry_frame config fetch_outcome
                  ("server-wallets/" ++ sw_dynamicServerWalletId r) GET None w)
        as (evs & Hsnd & Hrem & _).
      fold (fetchWalletFromDynamic config fetch_outcome
                                   (sw_dynamicServerWalletId r)) in Hsnd.
      destruct (fetchWalletFromDynamic config fetch_outcome
                                       (sw_dynamicServerWalletId r) w)
        as [[fresh|error] w1]; cbn [snd] in *; subst w1.
      * destruct (_ || _); cbn [snd];
          exact (correlation_step_remote w evs Hrem).
      * exact (correlation_step_remote w evs Hrem).
    + apply correlation_step_refl.
    + rewrite <- Hw. apply createServerWallet_attempt_correlation_step.
  - rewrite perform_envelope.
    destruct (wallet_of userId w) as [sw|] eqn:Hw.
    2:{ rewrite envelope_not_ready
          by (intros sw Hsw; rewrite Hw in Hsw; discriminate).
        split; [cbn; lia|]. exists []. split; [cbn; now rewrite app_nil_r|constructor]. }
    destruct (sw_status sw) eqn:Hst.
    1,3: rewrite envelope_not_ready
      by (intros sw' Hsw; rewrite Hw in Hsw; injection Hsw as <-; congruence);
      (split; [cbn; lia|]); exists [];
      (split; [cbn; now rewrite app_nil_r|constructor]).
    rewrite (envelope_ready uuid_stream userId _ _ _ w sw Hw Hst).
    set (w1 := record_event _ (uuid_drawn w)).
    destruct (remote_call_frame config fetch_outcome JSON_stringify c sw w1)
      as (evs & Hsnd & Hrem & _).
    destruct (remote_call config fetch_outcome JSON_stringify c sw w1)
      as [[decoded|cause] w2]; cbn [snd] in *; subst w2;
      (split; [cbn; lia|]);
      eexists [_; _];
      (split;
       [ unfold auditLog; cbn [journal record_event journalled w1 uuid_drawn];
         rewrite !audit_rows_app, (audit_rows_remote evs Hrem), app_nil_r;
         rewrite <- !app_assoc; reflexivity
       | constructor; [right; split; [reflexivity|cbn; lia]|];
         constructor; [right; split; [reflexivity|cbn; lia]|constructor] ]).
  - rewrite rotate_run.
    destruct (wallet_of userId w) as [old|] eqn:Hw; [|apply correlation_step_refl].
    rewrite <- Hw.
    pose proof (createServerWallet_attempt_correlation_step true w) as Hstep.
    destruct (createServerWallet_attempt config fetch_outcome uuid_stream userId
                                         true (wallet_of userId w) w)
      as [[a|e] w1]; cbn [snd] in *; [|exact Hstep].
    now apply correlation_step_then_audit.
  - rewrite revoke_run.
    destruct (wallet_of userId w) as [r|] eqn:Hw; [|apply correlation_step_refl].
    cbn [snd]. split; [cbn; lia|].
    eexists [_]. split.
    + unfold auditLog. cbn [revoked journal].
      now rewrite audit_rows_snoc_audit.
    + constructor; [now left|constructor].
Qed.

(** A correlation step keeps every correlation id among the draws. *)
Lemma correlation_step_keeps_drawn (w w' : World) :
  correlation_step uuid_stream w w' ->
  correlations_drawn uuid_stream w -> correlations_drawn uuid_stream w'.
Proof.
  intros (Hle & added & Haudit & Hall) Hinv row c Hin Hc.
  rewrite Haudit in Hin. apply in_app_or in Hin as [Hin|Hin].
  - destruct (Hinv row c Hin Hc) as (i & Hi & ->). exists i. split; [lia|reflexivity].
  - rewrite Forall_forall in Hall.
    destruct (Hall row Hin) as [Hnone|[Hsome Hlt]]; [congruence|].
    exists (uuidsDrawn w). split; [exact Hlt|congruence].
Qed.

End CorrelationSteps.

(** After any history of calls on a database whose audit table was empty,
    every correlation id in the audit table is one of the draws made. *)
Lemma after_calls_correlations_drawn (config : Config)
    (fetch_outcome : nat -> Request -> FetchOutcome) (uuid_stream : nat -> string)
    (JSON_stringify : EIP712TypedData -> string)
    (history : list (string * ProviderCall)) (w0 : World) :
  correlations_drawn uuid_stream w0 ->
  correlations_drawn uuid_stream
    (after_calls config fetch_outcome uuid_stream JSON_stringify history w0).
Proof.
  revert w0.
  induction history as [|[userId op] rest IH]; intros w0 Hinv; cbn [after_calls].
  - exact Hinv.
  - apply IH.
    apply (correlation_step_keeps_drawn uuid_stream w0); [|exact Hinv].
    apply world_after_correlation_step.
Qed.

(** C1.  A signing method called for a user whose wallet record is READY
    journals, in this order: a [SIGNING_REQUESTED] row naming the operation,
    then the requests and sleeps of the remote call (at least one request),
    then one terminal row, [SIGNING_COMPLETED] when the method returns and
    [SIGNING_FAILED], with the message of the cause, when it throws (the
    cause itself if it is an [AppError], a [SIGNING_UNAVAILABLE] error with
    its message otherwise).  These two rows are all it adds to the audit
    table, and both carry the identifier this very call drew from
    [randomUUID].  That identifier is fresh: when draws never repeat, then
    after any history of provider calls on a database whose audit table was
    empty, no row written before the call carries it, while every row the
    call adds does.  Whatever the state of the wallet, a [SIGNING_COMPLETED]
    row written by the call is preceded, within the call, by a
    [SIGNING_REQUESTED] row with the same correlation id. *)
Theorem signing_audit_envelope :
  forall (config : Config) (fetch_outcome : nat -> Request -> FetchOutcome)
         (uuid_stream : nat -> string)
         (JSON_stringify : EIP712TypedData -> string)
         (userId : string) (c : SigningCall) (w : World),
    let run := perform config fetch_outcome uuid_stream JSON_stringify userId c w in
    let correlationId := uuid_stream (uuidsDrawn w) in
    let requested :=
      mkAuditLog userId SIGNING_REQUESTED
                 [("correlationId", JStr correlationId);
                  ("operation", JStr (operation_of c))] in
    let completed :=
      mkAuditLog userId SIGNING_COMPLETED [("correlationId", JStr correlationId)] in
    let failed_with (message : string) :=
      mkAuditLog userId SIGNING_FAILED
                 [("correlationId", JStr correlationId);
                  ("error", JStr message)] in
    (forall sw,
        wallet_of userId w = Some sw ->
        sw_status sw = READY ->
        exists evs terminal,
          journal (snd run)
          = (journal w ++ [AuditWritten requested] ++ evs
                       ++ [AuditWritten terminal])%list /\
          forallb remote_event evs = true /\
          1 <= fetches_in evs /\
          auditLog (snd run) = (auditLog w ++ [requested; terminal])%list /\
          uuidsDrawn (snd run) = S (uuidsDrawn w) /\
          match fst run with
          | Return _ => terminal = completed
          | Throw error =>
              exists cause,
                error = match cause with
                        | AppError _ _ _ => cause
                        | Error message =>
                            AppError SIGNING_UNAVAILABLE message 503
                        | NonError _ =>
                            AppError SIGNING_UNAVAILABLE
                                     "Unknown signing error" 503
                        end /\
                terminal = failed_with match cause with
                                       | AppError _ message _
                                       | Error message => message
                                       | NonError _ => "Unknown"
                                       end
          end) /\
    ((forall i j, uuid_stream i = uuid_stream j -> i = j) ->
     forall (history : list (string * ProviderCall)) (w0 : World),
       auditLog w0 = [] ->
       w = after_calls config fetch_outcome uuid_stream JSON_stringify history w0 ->
       exists added,
         auditLog (snd run) = (auditLog w ++ added)%list /\
         (forall row, In row added -> correlation_of row = Some correlationId) /\
         (forall row, In row (auditLog w) ->
                      correlation_of row <> Some correlationId)) /\
    (exists new,
        journal (snd run) = (journal w ++ new)%list /\
        forall pre row post,
          new = (pre ++ AuditWritten row :: post)%list ->
          al_action row = SIGNING_COMPLETED ->
          exists row0,
            In (AuditWritten row0) pre /\
            al_action row0 = SIGNING_REQUESTED /\
            correlation_of row0 = Some correlationId /\
            correlation_of row = Some correlationId).
Proof.
  intros config fetch_outcome uuid_stream JSON_stringify userId c w
         run correlationId requested completed failed_with.
  assert (Hready : forall sw,
             wallet_of userId w = Some sw ->
             sw_status sw = READY ->
             exists evs terminal,
               journal (snd run)
               = (journal w ++ [AuditWritten requested] ++ evs
                            ++ [AuditWritten terminal])%list /\
               forallb remote_event evs = true /\
               1 <= fetches_in evs /\
               uuidsDrawn (snd run) = S (uuidsDrawn w) /\
               correlation_of terminal = Some correlationId /\
               match fst run with
               | Return _ => terminal = completed
               | Throw error =>
                   exists cause,
                     error = match cause with
                             | AppError _ _ _ => cause
                             | Error message =>
                                 AppError SIGNING_UNAVAILABLE message 503
                             | NonError _ =>
                                 AppError SIGNING_UNAVAILABLE
                                          "Unknown signing error" 503
                             end /\
                     terminal = failed_with match cause with
                                            | AppError _ message _
                                            | Error message => message
                                            | NonError _ => "Unknown"
                                            end
               end).
  { intros sw Hw Hst. unfold run.
    rewrite perform_envelope.
    rewrite (envelope_ready uuid_stream userId (operation_of c) _ _ w sw Hw Hst).
    fold correlationId.
    change (signing_requested userId correlationId (operation_of c))
      with requested.
    destruct (remote_call_frame config fetch_outcome JSON_stringify c sw
                (record_event (AuditWritten requested) (uuid_drawn w)))
      as (evs & Hsnd & Hrem & Hone).
    destruct (remote_call config fetch_outcome JSON_stringify c sw _)
      as [[decoded|cause] w2]; cbn [snd fst] in *; subst w2;
      eexists evs, _; cbn [journal record_event journalled uuid_drawn uuidsDrawn];
      rewrite <- !app_assoc;
      (split; [reflexivity|]); repeat split; try assumption; try reflexivity.
    exists cause. split; now destruct cause. }
  assert (Haudit : forall sw,
             wallet_of userId w = Some sw ->
             sw_status sw = READY ->
             exists terminal,
               auditLog (snd run) = (auditLog w ++ [requested; terminal])%list /\
               correlation_of terminal = Some correlationId).
  { intros sw Hw Hst.
    destruct (Hready sw Hw Hst) as (evs & terminal & Hj & Hrem & _ & _ & Hc & _).
    exists terminal. split; [|exact Hc].
    unfold auditLog. rewrite Hj, !audit_rows_app.
    now rewrite (audit_rows_remote evs Hrem). }
  assert (Hidle : (forall sw, wallet_of userId w = Some sw -> sw_status sw <> READY) ->
                  snd run = uuid_drawn w).
  { intros Hnot. unfold run. rewrite perform_envelope.
    now rewrite envelope_not_ready by assumption. }
  split; [|split].
  - intros sw Hw Hst.
    destruct (Hready sw Hw Hst) as (evs & terminal & Hj & Hrem & Hone & Hu & Hc & Ht).
    exists evs, terminal. repeat split; try assumption.
    unfold auditLog. rewrite Hj, !audit_rows_app.
    now rewrite (audit_rows_remote evs Hrem).
  - intros Hinj history w0 Hempty Hw.
    assert (Hinv : correlations_drawn uuid_stream w).
    { rewrite Hw. apply after_calls_correlations_drawn.
      intros row c0 Hin. rewrite Hempty in Hin. destruct Hin. }
    assert (Hold : forall row, In row (auditLog w) ->
                               correlation_of row <> Some correlationId).
    { intros row Hin Hcorr.
      destruct (Hinv row correlationId Hin Hcorr) as (i & Hlt & Heq).
      apply Hinj in Heq. lia. }
    destruct (wallet_of userId w) as [sw|] eqn:Hsw.
    + destruct (sw_status sw) eqn:Hst.
      2:{ destruct (Haudit sw eq_refl Hst) as (terminal & Hrows & Hc).
          exists [requested; terminal]. repeat split; try assumption.
          intros row [<-|[<-|[]]]; [reflexivity|exact Hc]. }
      all: exists []; rewrite Hidle
          by (intros sw' Hsw'; injection Hsw' as <-; congruence);
        (repeat split; [cbn; now rewrite app_nil_r|intros row []|exact Hold]).
    + exists []. rewrite Hidle by (intros sw' Hsw'; discriminate).
      repeat split; [cbn; now rewrite app_nil_r|intros row []|exact Hold].
  - destruct (wallet_of userId w) as [sw|] eqn:Hw.
    + destruct (sw_status sw) eqn:Hst.
      2:{ destruct (Hready sw eq_refl Hst)
            as (evs & terminal & Hj & Hrem & _ & _ & Hc & _).
          eexists. split; [exact Hj|].
          intros pre row post Heq Hact.
          destruct (completed_row_is_terminal requested terminal row evs pre post
                      Hrem Heq) as [Hin ->].
          { rewrite Hact. discriminate. }
          exists requested. repeat split; assumption. }
      all: exists []; rewrite Hidle
          by (intros sw' Hsw'; injection Hsw' as <-; congruence);
        (split; [cbn; now rewrite app_nil_r|]);
        intros [|? ?] ? ? ?; discriminate.
    + exists []. rewrite Hidle by (intros sw' Hsw'; discriminate).
      split; [cbn; now rewrite app_nil_r|].
      intros [|? ?] ? ? ?; discriminate.
Qed.

(** The signing envelope on a second [signMessage] of user-1, who has a READY
    wallet, with a service that answers at once: the audit table already
    holds the two rows of the first call, under the first identifier drawn;
    the call adds its two rows under the third. *)
Lemma signing_audit_envelope_witness :
  auditLog Story.after_signings
  = [mkAuditLog "user-1" SIGNING_REQUESTED
                [("correlationId", JStr "uuid-"); ("operation", JStr "signMessage")];
     mkAuditLog "user-1" SIGNING_COMPLETED [("correlationId", JStr "uuid-")]] /\
  (exists evs terminal,
      journal (snd (perform Scenario.config Scenario.remote_ok Scenario.uuids
                            Scenario.stringify "user-1"
                            (SignMessage (inl "again")) Story.after_signings))
      = (journal Story.after_signings
           ++ [AuditWritten
                 (mkAuditLog "user-1" SIGNING_REQUESTED
                             [("correlationId", JStr "uuid-ii");
                              ("operation", JStr "signMessage")])]
           ++ evs ++ [AuditWritten terminal])%list /\
      forallb remote_event evs = true /\
      1 <= fetches_in evs /\
      terminal = mkAuditLog "user-1" SIGNING_COMPLETED
                            [("correlationId", JStr "uuid-ii")]) /\
  (exists added,
      auditLog (snd (perform Scenario.config Scenario.remote_ok Scenario.uuids
                             Scenario.stringify "user-1"
                             (SignMessage (inl "again")) Story.after_signings))
      = (auditLog Story.after_signings ++ added)%list /\
      (forall row, In row added -> correlation_of row = Some "uuid-ii") /\
      (forall row, In row (auditLog Story.after_signings) ->
                   correlation_of row <> Some "uuid-ii")) /\
  (exists row0,
      In (AuditWritten row0)
         [AuditWritten
            (mkAuditLog "user-1" SIGNING_REQUESTED
                        [("correlationId", JStr "uuid-ii");
                         ("operation", JStr "signMessage")]);
          FetchSent (request_of Scenario.config "server-wallets/dw-0/sign" POST
                       (Some (JObj [("message", JStr "again");
                                    ("encoding", JStr "utf8");
                                    ("chain", JStr "EVM")])))] /\
      al_action row0 = SIGNING_REQUESTED /\
      correlation_of row0 = Some "uuid-ii").
Proof.
  destruct (signing_audit_envelope
              Scenario.config Scenario.remote_ok Scenario.uuids Scenario.stringify
              "user-1" (SignMessage (inl "again")) Story.after_signings)
    as (Hready & Hfresh & new & Hnew & Horder).
  split; [reflexivity|]. split; [|split].
  - destruct (Hready (Scenario.row READY) eq_refl eq_refl)
      as (evs & terminal & Hj & Hrem & Hone & _ & _ & Hterm).
    exists evs, terminal. repeat split; assumption.
  - exact (Hfresh uuids_injective Story.signings (Scenario.with_wallet READY)
                  eq_refl eq_refl).
  - destruct (Horder
                [AuditWritten
                   (mkAuditLog "user-1" SIGNING_REQUESTED
                               [("correlationId", JStr "uuid-ii");
                                ("operation", JStr "signMessage")]);
                 FetchSent (request_of Scenario.config "server-wallets/dw-0/sign"
                              POST
                              (Some (JObj [("message", JStr "again");
                                           ("encoding", JStr "utf8");
                                           ("chain", JStr "EVM")])))]
                (mkAuditLog "user-1" SIGNING_COMPLETED
                            [("correlationId", JStr "uuid-ii")]) [])
      as (row0 & Hin & Hact & Hcorr & _).
    + apply (app_inv_head (journal Story.after_signings)).
      rewrite <- Hnew. reflexivity.
    + reflexivity.
    + exists row0. repeat split; assumption.
Defined.

(** ** Address resolution, end to end *)

Lemma patched_row_of_user (userId : string) (patch : ServerWallet -> ServerWallet)
    (rows : list ServerWallet) (r : ServerWallet) :
  (forall x, sw_userId (patch x) = sw_userId x) ->
  find (fun x => String.eqb (sw_userId x) userId) rows = Some r ->
  find (fun x => String.eqb (sw_userId x) userId) (patched (sw_id r) patch rows)
  = Some (patch r).
Proof. exact (find_after_update userId patch rows r). Qed.

(** Whenever [getAddress] returns, the user's row is READY and holds the
    address returned. *)
Lemma getAddress_returns_ready_row (config : Config)
    (fetch_outcome : nat -> Request -> FetchOutcome) (uuid_stream : nat -> string)
    (userId : string) (w : World) (address : string) :
  fst (getAddress config fetch_outcome uuid_stream userId w) = Return address ->
  exists row,
    wallet_of userId (snd (getAddress config fetch_outcome uuid_stream userId w))
    = Some row /\
    sw_status row = READY /\
    sw_address row = address.
Proof.
  assert (Hcreate :
            fst (createServerWallet_attempt config fetch_outcome uuid_stream userId
                   false (wallet_of userId w) w) = Return address ->
            exists row,
              wallet_of userId
                (snd (createServerWallet_attempt config fetch_outcome uuid_stream
                        userId false (wallet_of userId w) w))
              = Some row /\
              sw_status row = READY /\ sw_address row = address).
  { intros Hret.
    destruct (callDynamicWithRetry config fetch_outcome "server-wallets" POST
                (Some (create_wallet_body userId)) w) as [[created|cause] w1] eqn:Hcall.
    - destruct (createServerWallet_attempt_returns config fetch_outcome uuid_stream
                  userId false w w1 created Hcall) as (Hfst & Hrow & _).
      rewrite Hfst in Hret. injection Hret as <-.
      eexists. split; [exact Hrow|].
      destruct (wallet_of userId w); split; reflexivity.
    - destruct (createServerWallet_attempt_throws config fetch_outcome uuid_stream
                  userId false w w1 cause Hcall) as (Hfst & _).
      rewrite Hfst in Hret. discriminate. }
  rewrite getAddress_run.
  destruct (wallet_of userId w) as [r|] eqn:Hw; [|exact Hcreate].
  destruct (sw_status r) eqn:Hst; [| |exact Hcreate].
  - destruct (callDynamicWithRetry_frame config fetch_outcome
                ("server-wallets/" ++ sw_dynamicServerWalletId r) GET None w)
      as (evs & Hsnd & _).
    fold (fetchWalletFromDynamic config fetch_outcome
                                 (sw_dynamicServerWalletId r)) in Hsnd.
    destruct (fetchWalletFromDynamic config fetch_outcome
                                     (sw_dynamicServerWalletId r) w)
      as [[fresh|error] w1]; cbn [snd] in *; [|discriminate]. subst w1.
    destruct (_ || _); cbn [fst snd]; [|discriminate].
    intros [= <-]. exists (promoted (rb_address fresh) r).
    split; [|split; reflexivity].
    unfold wallet_of in *. cbn [set_serverWallets serverWallets journalled].
    now apply patched_row_of_user.
  - cbn [fst snd]. intros [= <-]. exists r. now repeat split.
Qed.

(** X7.  Whenever [getAddress] returns an address, on whichever path, the
    user's wallet record is afterwards READY and holds exactly that
    address. *)
Theorem getAddress_returns_address_of_ready_record :
  forall (config : Config) (fetch_outcome : nat -> Request -> FetchOutcome)
         (uuid_stream : nat -> string) (userId : string) (w : World)
         (address : string),
    fst (getAddress config fetch_outcome uuid_stream userId w) = Return address ->
    exists row,
      wallet_of userId (snd (getAddress config fetch_outcome uuid_stream userId w))
      = Some row /\
      sw_status row = READY /\
      sw_address row = address.
Proof. exact getAddress_returns_ready_row. Qed.

(** X8.  [getAddress] is idempotent once it has succeeded: a second call,
    whatever the remote service would then answer, returns the same address
    without sending a request or changing anything. *)
Theorem getAddress_twice_is_getAddress_once :
  forall (config : Config) (fetch_outcome later : nat -> Request -> FetchOutcome)
         (uuid_stream : nat -> string) (userId : string) (w : World)
         (address : string),
    fst (getAddress config fetch_outcome uuid_stream userId w) = Return address ->
    getAddress config later uuid_stream userId
               (snd (getAddress config fetch_outcome uuid_stream userId w))
    = (Return address, snd (getAddress config fetch_outcome uuid_stream userId w)).
Proof.
  intros config fetch_outcome later uuid_stream userId w address Hret.
  destruct (getAddress_returns_ready_row config fetch_outcome uuid_stream userId
                                         w address Hret)
    as (row & Hrow & Hst & Haddr).
  rewrite getAddress_run, Hrow, Hst. now rewrite Haddr.
Qed.

(** X9.  On a CREATING record [getAddress] only polls: it writes no audit
    row and touches neither the compatibility table nor the copy-trading
    profiles; the record ends CREATING or READY, never FAILED; and when the
    poll itself throws, that error reaches the caller as it is (not turned
    into a typed error) and the record stays as it was. *)
Theorem getAddress_on_creating_record_only_polls :
  forall (config : Config) (fetch_outcome : nat -> Request -> FetchOutcome)
         (uuid_stream : nat -> string) (userId : string) (w : World)
         (r : ServerWallet),
    wallet_of userId w = Some r ->
    sw_status r = CREATING ->
    let run := getAddress config fetch_outcome uuid_stream userId w in
    let poll := fetchWalletFromDynamic config fetch_outcome
                  (sw_dynamicServerWalletId r) w in
    auditLog (snd run) = auditLog w /\
    wallets (snd run) = wallets w /\
    copyProfiles (snd run) = copyProfiles w /\
    uuidsDrawn (snd run) = uuidsDrawn w /\
    (exists row, wallet_of userId (snd run) = Some row /\
                 sw_id row = sw_id r /\
                 sw_dynamicServerWalletId row = sw_dynamicServerWalletId r /\
                 sw_status row <> FAILED) /\
    (forall error,
        fst poll = Throw error ->
        run = (Throw error, snd poll) /\ wallet_of userId (snd run) = Some r).
Proof.
  intros config fetch_outcome uuid_stream userId w r Hw Hst run poll.
  subst run poll. rewrite getAddress_run, Hw, Hst.
  destruct (callDynamicWithRetry_frame config fetch_outcome
              ("server-wallets/" ++ sw_dynamicServerWalletId r) GET None w)
    as (evs & Hsnd & Hrem & _).
  fold (fetchWalletFromDynamic config fetch_outcome
                               (sw_dynamicServerWalletId r)) in Hsnd.
  destruct (fetchWalletFromDynamic config fetch_outcome
                                   (sw_dynamicServerWalletId r) w)
    as [[fresh|error] w1]; cbn [snd fst] in *; subst w1.
  - destruct (_ || _); cbn [snd fst];
      unfold auditLog;
      cbn [set_serverWallets journalled journal wallets copyProfiles uuidsDrawn];
      (split; [now apply audit_rows_journalled|]);
      (split; [reflexivity|]); (split; [reflexivity|]); (split; [reflexivity|]);
      (split; [|intros error H; discriminate H]).
    + exists (promoted (rb_address fresh) r).
      split; [|repeat split; discriminate].
      unfold wallet_of in *. cbn [serverWallets].
      now apply patched_row_of_user.
    + exists r. unfold wallet_of in *. cbn [serverWallets].
      rewrite Hst. repeat split; try assumption. discriminate.
  - unfold auditLog. cbn [journalled journal wallets copyProfiles uuidsDrawn].
    split; [now apply audit_rows_journalled|].
    split; [reflexivity|]. split; [reflexivity|]. split; [reflexivity|].
    split.
    + exists r. unfold wallet_of in *. cbn [serverWallets].
      rewrite Hst. repeat split; try assumption. discriminate.
    + intros e [= <-]. split; [reflexivity|exact Hw].
Qed.

(** X10.  A failed creation can be retried: when [getAddress] for a user
    without a record fails because the remote creation call throws, and a
    later [getAddress] finds the remote call returning, the later call
    returns the created address and turns the placeholder row (same row id)
    into a READY row with the created wallet id and address; the two calls
    together add one row to the table. *)
Theorem failed_creation_is_retried_in_place :
  forall (config : Config) (fetch_outcome : nat -> Request -> FetchOutcome)
         (uuid_stream : nat -> string) (userId : string) (w : World)
         (cause : JsThrown) (created : ResponseBody),
    let create :=
      callDynamicWithRetry config fetch_outcome "server-wallets" POST
                           (Some (create_wallet_body userId)) in
    let first := getAddress config fetch_outcome uuid_stream userId w in
    let second := getAddress config fetch_outcome uuid_stream userId (snd first) in
    wallet_of userId w = None ->
    fst (create w) = Throw cause ->
    fst (create (snd first)) = Return created ->
    fst second = Return (rb_address created) /\
    wallet_of userId (snd second)
    = Some (mkServerWallet (nextRowId w) userId (rb_id created)
                           (rb_address created) READY) /\
    length (serverWallets (snd second)) = S (length (serverWallets w)).
Proof.
  intros config fetch_outcome uuid_stream userId w cause created
         create first second Hnone Hthrow Hreturn.
  subst second first create.
  assert (Hfirst : forall sw, wallet_of userId w = Some sw -> sw_status sw = FAILED)
    by (intros sw Hsw; rewrite Hnone in Hsw; discriminate).
  rewrite (getAddress_creates config fetch_outcome uuid_stream userId w Hfirst)
    in *.
  rewrite createServerWallet_attempt_run in *.
  destruct (callDynamicWithRetry_frame config fetch_outcome "server-wallets" POST
              (Some (create_wallet_body userId)) w) as (evs & Hsnd & _).
  destruct (callDynamicWithRetry config fetch_outcome "server-wallets" POST
              (Some (create_wallet_body userId)) w) as [[c|e] w1];
    cbn [fst snd] in *; [discriminate|].
  injection Hthrow as ->. subst w1. rewrite Hnone in *.
  set (w2 := creation_failure_recorded userId cause _ None (journalled w evs)) in *.
  set (placeholder := mkServerWallet (nextRowId w) userId
                        ("pending-" ++ uuid_stream (uuidsDrawn w))
                        ZERO_ADDRESS FAILED).
  assert (Hrow : wallet_of userId w2 = Some placeholder).
  { unfold wallet_of, w2.
    cbn [creation_failure_recorded serverWallets journalled nextRowId uuidsDrawn].
    now apply find_after_create. }
  assert (Hsecond : forall sw, wallet_of userId w2 = Some sw -> sw_status sw = FAILED).
  { intros sw Hsw. rewrite Hrow in Hsw. now injection Hsw as <-. }
  rewrite (getAddress_creates config fetch_outcome uuid_stream userId w2 Hsecond).
  rewrite createServerWallet_attempt_run.
  destruct (callDynamicWithRetry_frame config fetch_outcome "server-wallets" POST
              (Some (create_wallet_body userId)) w2) as (evs2 & Hsnd2 & _).
  destruct (callDynamicWithRetry config fetch_outcome "server-wallets" POST
              (Some (create_wallet_body userId)) w2) as [[c|e] w3];
    cbn [fst snd] in *; [|discriminate].
  injection Hreturn as ->. subst w3. rewrite Hrow.
  split; [reflexivity|]. split.
  - unfold wallet_of in *.
    cbn [creation_recorded serverWallets journalled].
    exact (patched_row_of_user userId
             (made_ready (rb_id created) (rb_address created)) _ placeholder
             (fun x => eq_refl) Hrow).
  - cbn [creation_recorded serverWallets journalled]. unfold patched.
    rewrite length_map. unfold w2.
    cbn [creation_failure_recorded serverWallets journalled].
    rewrite length_app. cbn [length]. lia.
Qed.

(** X11.  After [revoke], signing is refused: whatever the record was, the
    next signing call for that user throws [SERVER_WALLET_NOT_READY] without
    sending a request or writing an audit row. *)
Theorem signing_is_refused_after_revoke :
  forall (config : Config) (fetch_outcome : nat -> Request -> FetchOutcome)
         (uuid_stream : nat -> string)
         (JSON_stringify : EIP712TypedData -> string)
         (userId : string) (c : SigningCall) (w : World),
    perform config fetch_outcome uuid_stream JSON_stringify userId c
            (snd (revoke userId w))
    = (Throw (AppError SERVER_WALLET_NOT_READY
                       "Server wallet is not ready for signing" 503),
       uuid_drawn (snd (revoke userId w))).
Proof.
  intros config fetch_outcome uuid_stream JSON_stringify userId c w.
  rewrite perform_envelope. apply envelope_not_ready.
  rewrite revoke_run.
  destruct (wallet_of userId w) as [r|] eqn:Hw; cbn [snd].
  - intros sw Hsw. unfold wallet_of in *.
    cbn [revoked serverWallets] in Hsw.
    rewrite (patched_row_of_user userId marked_failed _ r (fun x => eq_refl) Hw)
      in Hsw.
    injection Hsw as <-. discriminate.
  - intros sw Hsw. congruence.
Qed.

Lemma patched_twice (id : nat) (patch : ServerWallet -> ServerWallet)
    (rows : list ServerWallet) :
  (forall x, sw_id (patch x) = sw_id x) ->
  (forall x, patch (patch x) = patch x) ->
  patched id patch (patched id patch rows) = patched id patch rows.
Proof.
  intros Hid Hidem. unfold patched. rewrite map_map. apply map_ext.
  intros x. destruct (Nat.eqb (sw_id x) id) eqn:Hx; [|now rewrite Hx].
  now rewrite Hid, Hx, Hidem.
Qed.

Lemma paused_for_twice (userId : string) (p : CopyProfile) :
  paused_for userId (paused_for userId p) = paused_for userId p.
Proof.
  unfold paused_for.
  destruct (String.eqb (cp_userId p) userId && String.eqb (cp_status p) "ENABLED")
    eqn:Hhit; [|now rewrite Hhit].
  cbn [cp_userId cp_status]. now rewrite andb_false_r.
Qed.

(** X12.  Revoking twice leaves the tables as revoking once does: the second
    [revoke] changes no wallet row, no copy-trading profile and no
    compatibility row; all it adds is one more [SERVER_WALLET_FAILED] audit
    row. *)
Theorem second_revoke_only_adds_an_audit_row :
  forall (userId : string) (w : World) (r : ServerWallet),
    wallet_of userId w = Some r ->
    serverWallets (snd (revoke userId (snd (revoke userId w))))
    = serverWallets (snd (revoke userId w)) /\
    copyProfiles (snd (revoke userId (snd (revoke userId w))))
    = copyProfiles (snd (revoke userId w)) /\
    wallets (snd (revoke userId (snd (revoke userId w))))
    = wallets (snd (revoke userId w)) /\
    auditLog (snd (revoke userId (snd (revoke userId w))))
    = (auditLog (snd (revoke userId w))
         ++ [mkAuditLog userId SERVER_WALLET_FAILED
               [("reason", JStr "Wallet revoked");
                ("walletId", JStr (sw_dynamicServerWalletId r))]])%list.
Proof.
  intros userId w r Hw.
  rewrite (revoke_run userId w), Hw. cbn [snd].
  assert (Hrow : wallet_of userId (revoked userId r w) = Some (marked_failed r)).
  { unfold wallet_of in *. cbn [revoked serverWallets].
    exact (patched_row_of_user userId marked_failed _ r (fun x => eq_refl) Hw). }
  rewrite revoke_run, Hrow. cbn [snd].
  unfold auditLog.
  cbn [revoked serverWallets copyProfiles wallets journal marked_failed sw_id
       sw_dynamicServerWalletId].
  repeat split.
  - now apply patched_twice.
  - rewrite map_map. apply map_ext. apply paused_for_twice.
  - now rewrite audit_rows_snoc_audit.
Qed.

(** ** The compatibility table *)

Section CompatTable.

Variables (userId type address : string).

Lemma compat_key_means_key (r : Wallet) :
  compat_key userId type r = true -> wl_userId r = userId /\ wl_type r = type.
Proof.
  unfold compat_key. intros H. apply andb_true_iff in H as [Hu Ht].
  split; now apply String.eqb_eq.
Qed.

Lemma compat_key_ignores_address (r : Wallet) (a : string) :
  compat_key userId type (mkWallet (wl_userId r) (wl_type r) a)
  = compat_key userId type r.
Proof. reflexivity. Qed.

(** After an upsert the key holds the address. *)
Lemma upserted_key (rows : list Wallet) :
  find (compat_key userId type) (upserted userId type address rows)
  = Some (mkWallet userId type address).
Proof.
  unfold upserted.
  destruct (existsb (compat_key userId type) rows) eqn:Hex.
  - induction rows as [|x rows IH]; cbn [existsb map find] in *; [discriminate|].
    destruct (compat_key userId type x) eqn:Hx.
    + destruct (compat_key_means_key x Hx) as [Hu Ht].
      rewrite compat_key_ignores_address, Hx. now rewrite Hu, Ht.
    + rewrite Hx. apply IH. exact Hex.
  - induction rows as [|x rows IH]; cbn [existsb app find] in *.
    + unfold compat_key. cbn [wl_userId wl_type]. now rewrite !String.eqb_refl.
    + apply orb_false_iff in Hex as [Hx Hrest]. rewrite Hx. now apply IH.
Qed.

(** An upsert leaves every other key alone. *)
Lemma upserted_other_key (other otherType : string) (rows : list Wallet) :
  other <> userId \/ otherType <> type ->
  find (compat_key other otherType) (upserted userId type address rows)
  = find (compat_key other otherType) rows.
Proof.
  intros Hother. unfold upserted.
  assert (Hdisjoint : forall x, compat_key userId type x = true ->
                                compat_key other otherType x = false).
  { intros x Hx. destruct (compat_key_means_key x Hx) as [Hu Ht].
    unfold compat_key. apply andb_false_iff.
    destruct Hother as [H|H]; [left|right]; apply String.eqb_neq; congruence. }
  destruct (existsb (compat_key userId type) rows).
  - induction rows as [|x rows IH]; cbn [map find]; [reflexivity|].
    rewrite IH. destruct (compat_key userId type x) eqn:Hx; [|reflexivity].
    change (compat_key other otherType
                       (mkWallet (wl_userId x) (wl_type x) address))
      with (compat_key other otherType x).
    now rewrite (Hdisjoint x Hx).
  - induction rows as [|x rows IH]; cbn [app find].
    + assert (Hnew : compat_key other otherType (mkWallet userId type address)
                     = false).
      { apply Hdisjoint. unfold compat_key. cbn [wl_userId wl_type].
        now rewrite !String.eqb_refl. }
      now rewrite Hnew.
    + now rewrite IH.
Qed.

End CompatTable.

(** X13.  A successful wallet creation is mirrored into the compatibility
    table: after [getAddress] has created a wallet (no record before, or a
    FAILED one), and after a [rotate] whose creation call returned, the row
    of the user with type "SERVER_WALLET" holds the created address, and the
    rows under every other user or type are what they were. *)
Theorem creation_mirrors_address_into_wallets :
  forall (config : Config) (fetch_outcome : nat -> Request -> FetchOutcome)
         (uuid_stream : nat -> string) (userId : string) (w : World)
         (created : ResponseBody),
    fst (callDynamicWithRetry config fetch_outcome "server-wallets" POST
                              (Some (create_wallet_body userId)) w)
    = Return created ->
    forall run : World,
      ((forall sw, wallet_of userId w = Some sw -> sw_status sw = FAILED) /\
       run = snd (getAddress config fetch_outcome uuid_stream userId w)) \/
      ((exists old, wallet_of userId w = Some old) /\
       run = snd (rotate config fetch_outcome uuid_stream userId w)) ->
      compat_wallet_of userId "SERVER_WALLET" run
      = Some (mkWallet userId "SERVER_WALLET" (rb_address created)) /\
      forall other otherType,
        other <> userId \/ otherType <> "SERVER_WALLET" ->
        compat_wallet_of other otherType run = compat_wallet_of other otherType w.
Proof.
  intros config fetch_outcome uuid_stream userId w created Hcreated run Hrun.
  assert (Hattempt : forall isRotation,
             wallets (snd (createServerWallet_attempt config fetch_outcome
                             uuid_stream userId isRotation (wallet_of userId w) w))
             = upserted userId "SERVER_WALLET" (rb_address created) (wallets w) /\
             exists a,
               fst (createServerWallet_attempt config fetch_outcome
                      uuid_stream userId isRotation (wallet_of userId w) w)
               = Return a).
  { intros isRotation. rewrite createServerWallet_attempt_run.
    destruct (callDynamicWithRetry_frame config fetch_outcome "server-wallets" POST
                (Some (create_wallet_body userId)) w) as (evs & Hsnd & _).
    destruct (callDynamicWithRetry config fetch_outcome "server-wallets" POST
                (Some (create_wallet_body userId)) w) as [[c|e] w1];
      cbn [fst snd] in *; [|discriminate].
    injection Hcreated as ->. subst w1. split; [reflexivity|now eexists]. }
  assert (Hwallets : wallets run
                     = upserted userId "SERVER_WALLET" (rb_address created)
                                (wallets w)).
  { destruct Hrun as [[Hst ->] | [(old & Hold) ->]].
    - rewrite (getAddress_creates config fetch_outcome uuid_stream userId w Hst).
      apply Hattempt.
    - rewrite rotate_run, Hold. rewrite <- Hold.
      destruct (Hattempt true) as (Hw & a & Ha).
      destruct (createServerWallet_attempt config fetch_outcome uuid_stream userId
                                           true (wallet_of userId w) w)
        as [[a'|e] w1]; cbn [fst snd] in *; [exact Hw|discriminate]. }
  unfold compat_wallet_of. rewrite Hwallets. split.
  - apply upserted_key.
  - intros other otherType Hother. now apply upserted_other_key.
Qed.

(** ** The errors of signing *)




(** ** Resetting the factory *)

Lemma factory_refs_are_below_counter (history : list FactoryCall)
    (s : Factory.State) :
  (forall p, Factory._provider s = Some p ->
             Factory.pv_ref p < Factory.constructed s) ->
  forall p, Factory._provider (factory_after history s) = Some p ->
            Factory.pv_ref p < Factory.constructed (factory_after history s).
Proof.
  revert s. induction history as [|[config prisma|] rest IH]; intros s Hs;
    cbn [factory_after].
  - exact Hs.
  - apply IH. unfold Factory.getTradingAuthorityProvider.
    destruct (Factory._provider s) as [q|] eqn:Hq; cbn [snd].
    + rewrite Hq. exact Hs.
    + cbn [Factory._provider Factory.constructed]. intros p [= <-].
      destruct (_ && _); cbn [Factory.pv_ref]; lia.
  - apply IH. cbn. intros p H. discriminate H.
Qed.

(** X15.  [resetTradingAuthorityProvider] makes the factory choose again:
    after any history of calls and resets, a reset followed by a call
    constructs a new object, different from the one cached before the reset,
    holding the client of that call, and of the class the configuration then
    in force selects. *)
Theorem reset_then_get_constructs_anew :
  forall (history : list FactoryCall) (config : Config)
         (prisma : Factory.PrismaClient),
    let s := factory_after history Factory.initial in
    let p := fst (Factory.getTradingAuthorityProvider
                    config prisma (Factory.resetTradingAuthorityProvider s)) in
    Factory.pv_ref p = Factory.constructed s /\
    Factory.pv_prisma p = prisma /\
    Factory.pv_class p
    = (if Factory.truthy (DYNAMIC_API_KEY config)
          && String.eqb (NODE_ENV config) "production"
       then Factory.DynamicServerWalletProvider
       else Factory.MockDynamicServerWalletProvider) /\
    (forall old, Factory._provider s = Some old ->
                 p <> old /\ Factory.pv_ref p <> Factory.pv_ref old).
Proof.
  intros history config prisma s p. subst p.
  unfold Factory.getTradingAuthorityProvider, Factory.resetTradingAuthorityProvider.
  cbn [Factory._provider Factory.constructed fst].
  assert (Hbelow : forall old, Factory._provider s = Some old ->
                               Factory.pv_ref old < Factory.constructed s).
  { apply factory_refs_are_below_counter. cbn. intros q H. discriminate H. }
  destruct (_ && _); cbn [Factory.pv_ref Factory.pv_prisma Factory.pv_class];
    (split; [reflexivity|]); (split; [reflexivity|]); (split; [reflexivity|]);
    intros old Hold; specialize (Hbelow old Hold);
    (split; [intros <-; cbn [Factory.pv_ref] in Hbelow; lia|lia]).
Qed.

(** ** After a revocation, after a failed rotation *)

(** X16.  [getAddress] never hands out a revoked wallet again: after
    [revoke] on an existing record, [getAddress] goes through a new remote
    creation; it returns the address of the wallet just created, recorded in
    place of the revoked one, or throws [SERVER_WALLET_CREATION_FAILED] when
    that creation fails. *)
Theorem getAddress_after_revoke_creates_anew :
  forall (config : Config) (fetch_outcome : nat -> Request -> FetchOutcome)
         (uuid_stream : nat -> string) (userId : string) (w : World)
         (r : ServerWallet),
    wallet_of userId w = Some r ->
    let w1 := snd (revoke userId w) in
    let run := getAddress config fetch_outcome uuid_stream userId w1 in
    match fst (callDynamicWithRetry config fetch_outcome "server-wallets" POST
                                    (Some (create_wallet_body userId)) w1) with
    | Return created =>
        fst run = Return (rb_address created) /\
        wallet_of userId (snd run)
        = Some (mkServerWallet (sw_id r) (sw_userId r) (rb_id created)
                               (rb_address created) READY)
    | Throw cause =>
        fst run = Throw (AppError SERVER_WALLET_CREATION_FAILED
                                  ("Failed to create server wallet: "
                                   ++ error_message_or_Unknown cause) 503) /\
        wallet_of userId (snd run) = Some (marked_failed r)
    end.
Proof.
  intros config fetch_outcome uuid_stream userId w r Hw w1 run. subst run w1.
  rewrite (revoke_run userId w), Hw. cbn [snd].
  assert (Hrow : wallet_of userId (revoked userId r w) = Some (marked_failed r)).
  { unfold wallet_of in *. cbn [revoked serverWallets].
    exact (patched_row_of_user userId marked_failed _ r (fun x => eq_refl) Hw). }
  assert (Hst : forall sw, wallet_of userId (revoked userId r w) = Some sw ->
                           sw_status sw = FAILED).
  { intros sw Hsw. rewrite Hrow in Hsw. now injection Hsw as <-. }
  rewrite (getAddress_creates config fetch_outcome uuid_stream userId _ Hst).
  destruct (callDynamicWithRetry config fetch_outcome "server-wallets" POST
              (Some (create_wallet_body userId)) (revoked userId r w))
    as [[created|cause] w2] eqn:Hcall; cbn [fst].
  - destruct (createServerWallet_attempt_returns config fetch_outcome uuid_stream
                userId false _ w2 created Hcall) as (Hfst & Hnew & _).
    split; [exact Hfst|]. rewrite Hnew, Hrow. reflexivity.
  - destruct (createServerWallet_attempt_throws config fetch_outcome uuid_stream
                userId false _ w2 cause Hcall) as (Hfst & Hnew & _).
    split; [exact Hfst|]. rewrite Hnew, Hrow. reflexivity.
Qed.

(** X17.  Signing never writes to a table: whatever happens, a signing
    method leaves the wallet table, the compatibility table, the
    copy-trading profiles and the row-id counter as they were, and draws
    exactly one identifier.  In particular a failed signature does not mark
    the wallet FAILED. *)
Theorem signing_writes_no_table :
  forall (config : Config) (fetch_outcome : nat -> Request -> FetchOutcome)
         (uuid_stream : nat -> string)
         (JSON_stringify : EIP712TypedData -> string)
         (userId : string) (c : SigningCall) (w : World),
    let w' := snd (perform config fetch_outcome uuid_stream JSON_stringify
                           userId c w) in
    serverWallets w' = serverWallets w /\
    wallets w' = wallets w /\
    copyProfiles w' = copyProfiles w /\
    nextRowId w' = nextRowId w /\
    uuidsDrawn w' = S (uuidsDrawn w).
Proof.
  intros config fetch_outcome uuid_stream JSON_stringify userId c w w'. subst w'.
  rewrite perform_envelope.
  destruct (wallet_of userId w) as [sw|] eqn:Hw.
  2:{ rewrite envelope_not_ready
        by (intros sw Hsw; rewrite Hw in Hsw; discriminate).
      now repeat split. }
  destruct (sw_status sw) eqn:Hst.
  1,3: rewrite envelope_not_ready
    by (intros sw' Hsw; rewrite Hw in Hsw; injection Hsw as <-; congruence);
    now repeat split.
  rewrite (envelope_ready uuid_stream userId _ _ _ w sw Hw Hst).
  set (w1 := record_event _ (uuid_drawn w)).
  destruct (remote_call_frame config fetch_outcome JSON_stringify c sw w1)
    as (evs & Hsnd & _).
  destruct (remote_call config fetch_outcome JSON_stringify c sw w1)
    as [[decoded|cause] w2]; cbn [snd] in *; subst w2; now repeat split.
Qed.

(** X18.  A rotation that fails disables the wallet: when [rotate] is called
    on an existing record, even a READY one, and the remote creation call
    throws, the record is left FAILED (old wallet id and address kept), and
    every signing call that follows is refused with
    [SERVER_WALLET_NOT_READY]. *)
Theorem failed_rotation_disables_signing :
  forall (config : Config) (fetch_outcome : nat -> Request -> FetchOutcome)
         (uuid_stream : nat -> string)
         (JSON_stringify : EIP712TypedData -> string)
         (userId : string) (w : World) (old : ServerWallet) (cause : JsThrown),
    wallet_of userId w = Some old ->
    fst (callDynamicWithRetry config fetch_outcome "server-wallets" POST
                              (Some (create_wallet_body userId)) w)
    = Throw cause ->
    let w' := snd (rotate config fetch_outcome uuid_stream userId w) in
    wallet_of userId w' = Some (marked_failed old) /\
    forall c,
      fst (perform config fetch_outcome uuid_stream JSON_stringify userId c w')
      = Throw (AppError SERVER_WALLET_NOT_READY
                        "Server wallet is not ready for signing" 503).
Proof.
  intros config fetch_outcome uuid_stream JSON_stringify userId w old cause
         Hold Hthrow w'.
  assert (Hrow : wallet_of userId w' = Some (marked_failed old)).
  { subst w'. rewrite rotate_run, Hold. rewrite <- Hold.
    destruct (callDynamicWithRetry config fetch_outcome "server-wallets" POST
                (Some (create_wallet_body userId)) w) as [[c|e] w1] eqn:Hcall;
      cbn [fst] in Hthrow; [discriminate|]. injection Hthrow as ->.
    destruct (createServerWallet_attempt_throws config fetch_outcome uuid_stream
                userId true w w1 cause Hcall) as (Hfst & Hnew & _).
    destruct (createServerWallet_attempt config fetch_outcome uuid_stream userId
                                         true (wallet_of userId w) w)
      as [[a|e] w2]; cbn [fst snd] in *; [discriminate|].
    now rewrite Hnew, Hold. }
  split; [exact Hrow|].
  intros c. rewrite perform_envelope, envelope_not_ready; [reflexivity|].
  intros sw Hsw. rewrite Hrow in Hsw. injection Hsw as <-. discriminate.
Qed.

(** X19.  A signing call only ever addresses the caller's own wallet: for a
    user with a READY record, every request the call sends is a POST to the
    endpoint of the method under the wallet id stored in that record. *)
Theorem signing_requests_target_own_wallet :
  forall (config : Config) (fetch_outcome : nat -> Request -> FetchOutcome)
         (uuid_stream : nat -> string)
         (JSON_stringify : EIP712TypedData -> string)
         (userId : string) (c : SigningCall) (w : World) (sw : ServerWallet),
    wallet_of userId w = Some sw ->
    sw_status sw = READY ->
    exists new,
      journal (snd (perform config fetch_outcome uuid_stream JSON_stringify
                            userId c w))
      = (journal w ++ new)%list /\
      1 <= fetches_in new /\
      Forall (posts_to ("https://app.dynamicauth.com/api/v0/server-wallets/"
                        ++ sw_dynamicServerWalletId sw ++ endpoint_of c))
             new.
Proof.
  intros config fetch_outcome uuid_stream JSON_stringify userId c w sw Hw Hst.
  rewrite perform_envelope.
  rewrite (envelope_ready uuid_stream userId _ _ _ w sw Hw Hst).
  set (w1 := record_event _ (uuid_drawn w)).
  assert (Hcall : exists evs,
             snd (remote_call config fetch_outcome JSON_stringify c sw w1)
             = journalled w1 evs /\
             1 <= fetches_in evs /\
             Forall (posts_to ("https://app.dynamicauth.com/api/v0/server-wallets/"
                               ++ sw_dynamicServerWalletId sw ++ endpoint_of c))
                    evs).
  { destruct (remote_call_frame config fetch_outcome JSON_stringify c sw w1)
      as (evs' & Hsnd' & _ & Hone).
    destruct c; cbn [remote_call endpoint_of] in *; unfold callDynamicWithRetry in *;
      match goal with
      | |- context [callDynamic_loop _ _ ?path ?method ?body _ _ _] =>
          destruct (loop_events config fetch_outcome path method body
                                (S MAX_RETRIES) 0 w1 eq_refl ltac:(lia))
            as (evs & Hsnd & Hall & _)
      end;
      exists evs;
      (split; [exact Hsnd|]);
      (split;
       [ rewrite Hsnd in Hsnd'; unfold journalled in Hsnd';
         injection Hsnd' as Hj _; apply app_inv_head in Hj; now subst evs'
       | eapply Forall_impl; [|exact Hall];
         intros [row|req|ms] He; cbn [call_event posts_to] in *;
         [exact I|subst req; split; reflexivity|exact I] ]). }
  destruct Hcall as (evs & Hsnd & Hone & Hall).
  destruct (remote_call config fetch_outcome JSON_stringify c sw w1)
    as [[decoded|cause] w2]; cbn [snd] in *; subst w2;
    eexists (_ :: evs ++ [_])%list;
    (split;
     [ cbn [journal record_event journalled w1 uuid_drawn];
       rewrite <- !app_assoc; reflexivity |]);
    (split; [cbn [fetches_in]; rewrite fetches_in_app; lia|]);
    (constructor; [exact I|]);
    (apply Forall_app; split; [exact Hall|]);
    repeat constructor.
Qed.

(** ** Headers that are not numerals *)

Lemma parseInt10_not_a_numeral (h : string) :
  not_a_numeral h -> parseInt10 h = NaN.
Proof.
  destruct h as [|c rest]; [reflexivity|].
  cbv beta iota zeta delta [not_a_numeral].
  intros (Hws & Hplus & Hminus & Hdigit).
  assert (Hspace : is_js_whitespace c = false).
  { apply not_true_is_false. intros H. apply Hws.
    now apply is_js_whitespace_codes. }
  assert (Hnone : digit_of_ascii c = None).
  { unfold digit_of_ascii. cbv zeta.
    destruct ((48 <=? nat_of_ascii c) && (nat_of_ascii c <=? 57)) eqn:Hd;
      [|reflexivity].
    apply andb_true_iff in Hd as [H1 H2].
    apply Nat.leb_le in H1. apply Nat.leb_le in H2. lia. }
  unfold parseInt10. cbn [skip_whitespace]. rewrite Hspace.
  assert (Hread : read_digits (String c rest) false 0 = None)
    by (cbn [read_digits]; now rewrite Hnone).
  destruct c as [b0 b1 b2 b3 b4 b5 b6 b7].
  destruct b0, b1, b2, b3, b4, b5, b6, b7;
    try (exfalso; apply Hminus; reflexivity);
    try (exfalso; apply Hplus; reflexivity);
    exact (f_equal (fun o => match o with Some v => double_of_Z v | None => NaN end)
                   Hread).
Qed.

(** X20.  A [Retry-After] header that is not a numeral is not honoured: on a
    429 whose header is empty or begins with anything but white space, a
    sign or a digit (an HTTP-date, for one), the client asks for a sleep of
    [NaN] milliseconds, not of the default two seconds, before its next
    attempt. *)
Theorem retry_after_date_is_not_honoured :
  forall (config : Config) (fetch_outcome : nat -> Request -> FetchOutcome)
         (path : string) (method : HttpMethod) (body : option JsonValue)
         (n attempt : nat) (w : World) (res : Response) (header : string),
    let req := request_of config path method body in
    fetch_outcome (fetchesSent w) req = FetchResolves res ->
    rs_status res = 429%Z ->
    rs_retry_after res = Some header ->
    not_a_numeral header ->
    attempt < MAX_RETRIES ->
    callDynamic_loop config fetch_outcome path method body (S n) attempt w
    = callDynamic_loop config fetch_outcome path method body n (S attempt)
                       (journalled w [FetchSent req; Slept NaN]).
Proof.
  intros config fetch_outcome path method body n attempt w res header req
         Hout Hst Hheader Hnot Hlt.
  apply loop_continue.
  rewrite (attempt_429_retry config fetch_outcome path method body
                             attempt w res Hout Hst Hlt).
  unfold retry_after_delay. rewrite Hheader.
  now rewrite (parseInt10_not_a_numeral header Hnot).
Qed.

(** ** The leaderboard route *)

Section LeaderboardRoute.

Import Leaderboard.

Context {Amount : Type}.
Variable now : nat -> Z.

Local Abbreviation Leader := (@Leaderboard.Leader Amount).
Local Abbreviation LeaderRow := (@Leaderboard.LeaderRow Amount).
Local Abbreviation Db := (@Leaderboard.Db Amount).

Let at_address (address : string) (r : LeaderRow) : bool :=
  String.eqb (lr_address r) address.

Lemma upsert_row_of_same (leader : Leader) (db : Db) :
  exists row,
    row_of (ld_address leader) (upsert now leader db) = Some row /\
    carries row leader.
Proof.
  unfold row_of, upsert. cbn [leaders].
  destruct (existsb _ (leaders db)) eqn:Hex.
  - induction (leaders db) as [|x rows IH]; cbn [existsb map find] in *;
      [discriminate|].
    destruct (String.eqb (lr_address x) (ld_address leader)) eqn:Hx.
    + cbn [lr_address]. rewrite Hx. eexists. split; [reflexivity|].
      apply String.eqb_eq in Hx. now repeat split.
    + rewrite Hx. apply IH. exact Hex.
  - induction (leaders db) as [|x rows IH]; cbn [existsb app find] in *.
    + cbn [lr_address]. rewrite String.eqb_refl.
      eexists. split; [reflexivity|]. now repeat split.
    + apply orb_false_iff in Hex as [Hx Hrest]. rewrite Hx. now apply IH.
Qed.

Lemma upsert_row_of_other (leader : Leader) (db : Db) (address : string) :
  address <> ld_address leader ->
  row_of address (upsert now leader db) = row_of address db.
Proof.
  intros Hother. unfold row_of, upsert. cbn [leaders].
  destruct (existsb _ (leaders db)).
  - induction (leaders db) as [|x rows IH]; cbn [map find]; [reflexivity|].
    rewrite IH.
    destruct (String.eqb (lr_address x) (ld_address leader)) eqn:Hx;
      [|reflexivity].
    cbn [lr_address]. apply String.eqb_eq in Hx.
    assert (Hno : String.eqb (lr_address x) address = false)
      by (apply String.eqb_neq; congruence).
    now rewrite Hno.
  - induction (leaders db) as [|x rows IH]; cbn [app find].
    + cbn [lr_address].
      assert (Hno : String.eqb (ld_address leader) address = false)
        by (apply String.eqb_neq; congruence).
      now rewrite Hno.
    + now rewrite IH.
Qed.

Lemma sync_row_of_untouched (feed : list Leader) (db : Db) (address : string) :
  ~ In address (map ld_address feed) ->
  row_of address (sync now feed db) = row_of address db.
Proof.
  revert db. induction feed as [|leader feed IH]; intros db Hnot; [reflexivity|].
  cbn [sync fold_left]. fold (sync now feed (upsert now leader db)).
  rewrite IH by (intros H; apply Hnot; now right).
  apply upsert_row_of_other. intros ->. apply Hnot. now left.
Qed.

Lemma sync_app (pre post : list Leader) (db : Db) :
  sync now (pre ++ post) db = sync now post (sync now pre db).
Proof. unfold sync. apply fold_left_app. Qed.

Lemma upsert_addresses (leader : Leader) (db : Db) :
  map lr_address (leaders (upsert now leader db))
  = if existsb (at_address (ld_address leader)) (leaders db)
    then map lr_address (leaders db)
    else (map lr_address (leaders db) ++ [ld_address leader])%list.
Proof.
  unfold upsert, at_address. cbn [leaders].
  destruct (existsb _ (leaders db)).
  - rewrite map_map. apply map_ext. intros r.
    now destruct (String.eqb (lr_address r) (ld_address leader)).
  - now rewrite map_app.
Qed.

Lemma upsert_keeps_unique (leader : Leader) (db : Db) :
  NoDup (map lr_address (leaders db)) ->
  NoDup (map lr_address (leaders (upsert now leader db))).
Proof.
  intros Hnd. rewrite upsert_addresses.
  destruct (existsb _ (leaders db)) eqn:Hex; [exact Hnd|].
  apply NoDup_app; [exact Hnd|repeat constructor; intros []|].
  intros a Hin [<-|[]].
  apply in_map_iff in Hin as (r & Hr & Hin).
  assert (Htrue : existsb (at_address (ld_address leader)) (leaders db) = true).
  { apply existsb_exists. exists r. split; [exact Hin|].
    unfold at_address. now apply String.eqb_eq. }
  congruence.
Qed.

Lemma upsert_keeps_rows (leader : Leader) (db : Db) (address : string) :
  row_of address db <> None -> row_of address (upsert now leader db) <> None.
Proof.
  intros Hsome.
  destruct (string_dec address (ld_address leader)) as [->|Hother].
  - destruct (upsert_row_of_same leader db) as (row & -> & _). discriminate.
  - now rewrite upsert_row_of_other.
Qed.

(** [insert_by_rank] and [order_by_rank] rearrange and order. *)
Lemma insert_by_rank_perm (r : LeaderRow) (rows : list LeaderRow) :
  Permutation (insert_by_rank r rows) (r :: rows).
Proof.
  induction rows as [|x rows IH]; cbn [insert_by_rank]; [reflexivity|].
  destruct (lr_rank r <=? lr_rank x)%Z; [reflexivity|].
  rewrite IH. apply perm_swap.
Qed.

Lemma order_by_rank_perm (rows : list LeaderRow) :
  Permutation (order_by_rank rows) rows.
Proof.
  induction rows as [|x rows IH]; cbn [order_by_rank]; [reflexivity|].
  rewrite insert_by_rank_perm. now constructor.
Qed.

Let ranked (a b : LeaderRow) : Prop := (lr_rank a <= lr_rank b)%Z.

Lemma insert_by_rank_sorted (r : LeaderRow) (rows : list LeaderRow) :
  StronglySorted ranked rows -> StronglySorted ranked (insert_by_rank r rows).
Proof.
  induction rows as [|x rows IH]; intros Hs; cbn [insert_by_rank].
  - repeat constructor.
  - inversion Hs as [|? ? Hrest Hall]; subst.
    destruct (Z.leb_spec (lr_rank r) (lr_rank x)) as [Hle|Hgt].
    + constructor; [exact Hs|].
      constructor; [exact Hle|].
      rewrite Forall_forall in *. intros y Hy. specialize (Hall y Hy).
      unfold ranked in *. lia.
    + constructor; [now apply IH|].
      rewrite insert_by_rank_perm.
      constructor; [unfold ranked; lia|exact Hall].
Qed.

Lemma order_by_rank_sorted (rows : list LeaderRow) :
  StronglySorted ranked (order_by_rank rows).
Proof.
  induction rows as [|x rows IH]; cbn [order_by_rank]; [constructor|].
  now apply insert_by_rank_sorted.
Qed.

Lemma sorted_split (front back : list LeaderRow) :
  StronglySorted ranked (front ++ back) ->
  StronglySorted ranked front /\
  forall a b, In a front -> In b back -> ranked a b.
Proof.
  induction front as [|x front IH]; cbn [app]; intros Hs.
  - split; [constructor|intros a b []].
  - inversion Hs as [|? ? Hrest Hall]; subst.
    destruct (IH Hrest) as [Hfront Hcross].
    apply Forall_app in Hall as [Hallf Hallb].
    split; [now constructor|].
    intros a b [<-|Ha] Hb.
    + rewrite Forall_forall in Hallb. now apply Hallb.
    + now apply Hcross.
Qed.

End LeaderboardRoute.

(** X21.  The sync loop of the leaderboard route writes the feed into the
    table, last entry first in authority: after the route has run, the row
    of every address in the feed carries the data of the last feed entry
    with that address, and the row of an address that is not in the feed is
    what it was, synchronisation time included. *)
Theorem leaderboard_sync_last_entry_wins :
  forall (Amount : Type) (now : nat -> Z)
         (feed : list (@Leaderboard.Leader Amount)) (db : @Leaderboard.Db Amount),
    let db' := snd (Leaderboard.leaderboard now (inr feed) db) in
    (forall pre leader post,
        feed = (pre ++ leader :: post)%list ->
        ~ In (Leaderboard.ld_address leader) (map Leaderboard.ld_address post) ->
        exists row,
          Leaderboard.row_of (Leaderboard.ld_address leader) db' = Some row /\
          Leaderboard.carries row leader) /\
    (forall address,
        ~ In address (map Leaderboard.ld_address feed) ->
        Leaderboard.row_of address db' = Leaderboard.row_of address db).
Proof.
  intros Amount now feed db db'. subst db'. cbn [Leaderboard.leaderboard snd].
  split.
  - intros pre leader post -> Hlast.
    rewrite sync_app.
    cbn [Leaderboard.sync fold_left].
    fold (Leaderboard.sync now post
            (Leaderboard.upsert now leader (Leaderboard.sync now pre db))).
    rewrite (sync_row_of_untouched now post _ _ Hlast).
    apply upsert_row_of_same.
  - intros address Hnot. now apply sync_row_of_untouched.
Qed.

(** X22.  The sync loop keeps the leader table keyed by address: if no two
    rows share an address before the route runs, none do after it, whatever
    the feed holds (duplicates included); and no row is ever dropped. *)
Theorem leaderboard_sync_keeps_addresses_unique :
  forall (Amount : Type) (now : nat -> Z)
         (feed : list (@Leaderboard.Leader Amount)) (db : @Leaderboard.Db Amount),
    let db' := snd (Leaderboard.leaderboard now (inr feed) db) in
    (NoDup (map Leaderboard.lr_address (Leaderboard.leaders db)) ->
     NoDup (map Leaderboard.lr_address (Leaderboard.leaders db'))) /\
    (forall address,
        Leaderboard.row_of address db <> None ->
        Leaderboard.row_of address db' <> None).
Proof.
  intros Amount now feed db db'. subst db'. cbn [Leaderboard.leaderboard snd].
  revert db. induction feed as [|leader feed IH]; intros db.
  - split; [exact (fun H => H)|exact (fun _ H => H)].
  - cbn [Leaderboard.sync fold_left].
    fold (Leaderboard.sync now feed (Leaderboard.upsert now leader db)).
    destruct (IH (Leaderboard.upsert now leader db)) as [Hnd Hkeep].
    split.
    + intros H. apply Hnd. now apply upsert_keeps_unique.
    + intros address H. apply Hkeep. now apply upsert_keeps_rows.
Qed.

(** X23.  The reply of the leaderboard route is the best-ranked part of the
    table as it stands after the sync: at most fifty rows, all of them rows
    of the table, in ascending rank; every row of the table that is left out
    ranks no better than any row in the reply; and a table of at most fifty
    rows is returned whole. *)
Theorem leaderboard_replies_with_best_ranked_rows :
  forall (Amount : Type) (now : nat -> Z)
         (feed : list (@Leaderboard.Leader Amount)) (db : @Leaderboard.Db Amount),
    let table := Leaderboard.leaders (snd (Leaderboard.leaderboard now (inr feed) db)) in
    exists reply,
      fst (Leaderboard.leaderboard now (inr feed) db) = Return reply /\
      length reply <= 50 /\
      StronglySorted
        (fun a b => (Leaderboard.lr_rank a <= Leaderboard.lr_rank b)%Z) reply /\
      (forall r, In r reply -> In r table) /\
      (forall a b,
          In a reply -> In b table -> ~ In b reply ->
          (Leaderboard.lr_rank a <= Leaderboard.lr_rank b)%Z) /\
      (length table <= 50 -> Permutation reply table).
Proof.
  intros Amount now feed db table. subst table.
  cbn [Leaderboard.leaderboard fst snd].
  set (rows := Leaderboard.leaders (Leaderboard.sync now feed db)).
  exists (firstn 50 (Leaderboard.order_by_rank rows)).
  pose proof (order_by_rank_perm rows) as Hperm.
  pose proof (order_by_rank_sorted rows) as Hsorted.
  rewrite <- (firstn_skipn 50 (Leaderboard.order_by_rank rows)) in Hsorted.
  apply sorted_split in Hsorted as [Hfront Hcross].
  split; [reflexivity|]. split; [apply firstn_le_length|].
  split; [exact Hfront|]. split; [|split].
  - intros r Hin. apply (Permutation_in _ Hperm).
    rewrite <- (firstn_skipn 50). apply in_or_app. now left.
  - intros a b Ha Hb Hout. apply Hcross; [exact Ha|].
    apply (Permutation_in _ (Permutation_sym Hperm)) in Hb.
    rewrite <- (firstn_skipn 50) in Hb.
    apply in_app_or in Hb as [Hb|Hb]; [contradiction|exact Hb].
  - intros Hlen. rewrite firstn_all2; [exact Hperm|].
    now rewrite (Permutation_length Hperm).
Qed.

(** ** The further scenarios, run *)

(** Two 429s, then a success. *)
Lemma client_recovers_within_retry_budget_witness :
  exists evs,
    callDynamicWithRetry Scenario.config Story.remote_flaky
                         "server-wallets/dw-0" GET None Scenario.empty
    = (Return Scenario.decoded, journalled Scenario.empty evs) /\
    fetches_in evs = 3 /\
    sleeps_in evs = 2.
Proof.
  apply (client_recovers_within_retry_budget
           Scenario.config Story.remote_flaky "server-wallets/dw-0" GET None
           Scenario.empty 2 Scenario.decoded).
  - unfold MAX_RETRIES. lia.
  - intros i Hi. left. exists Scenario.busy.
    destruct i as [|[|i]]; [split; reflexivity|split; reflexivity|lia].
  - exists Scenario.ok. repeat split.
Defined.

(** A history of calls from an empty database. *)
Lemma calls_keep_one_wallet_row_per_user_witness :
  table_ok (after_calls Scenario.config Scenario.remote_ok Scenario.uuids
                        Scenario.stringify Story.history Scenario.empty).
Proof.
  apply (calls_keep_one_wallet_row_per_user
           Scenario.config Scenario.remote_ok Scenario.uuids Scenario.stringify
           Story.history Scenario.empty).
  repeat split; constructor.
Defined.

(** user-2 resolves an address; the row of user-1 stays. *)
Lemma calls_leave_other_users_wallets_alone_witness :
  wallet_of "user-1"
            (world_after Scenario.config Scenario.remote_ok Scenario.uuids
                         Scenario.stringify "user-2" GetAddress
                         (Scenario.with_wallet READY))
  = Some (Scenario.row READY).
Proof.
  apply (calls_leave_other_users_wallets_alone
           Scenario.config Scenario.remote_ok Scenario.uuids Scenario.stringify
           "user-2" "user-1" GetAddress (Scenario.with_wallet READY)).
  - repeat constructor. intros [].
  - discriminate.
Defined.

Lemma getAddress_returns_address_of_ready_record_witness :
  exists row,
    wallet_of "user-1"
              (snd (getAddress Scenario.config Scenario.remote_ok Scenario.uuids
                               "user-1" Scenario.empty))
    = Some row /\
    sw_status row = READY /\
    sw_address row = "0xA11CE".
Proof.
  apply (getAddress_returns_address_of_ready_record
           Scenario.config Scenario.remote_ok Scenario.uuids "user-1"
           Scenario.empty "0xA11CE").
  reflexivity.
Defined.

(** A second [getAddress], the service being down by then. *)
Lemma getAddress_twice_is_getAddress_once_witness :
  getAddress Scenario.config Scenario.remote_down Scenario.uuids "user-1"
             (snd (getAddress Scenario.config Scenario.remote_ok Scenario.uuids
                              "user-1" Scenario.empty))
  = (Return "0xA11CE",
     snd (getAddress Scenario.config Scenario.remote_ok Scenario.uuids
                     "user-1" Scenario.empty)).
Proof.
  apply (getAddress_twice_is_getAddress_once
           Scenario.config Scenario.remote_ok Scenario.remote_down Scenario.uuids
           "user-1" Scenario.empty "0xA11CE").
  reflexivity.
Defined.

(** A poll that times out on a CREATING record. *)
Lemma getAddress_on_creating_record_only_polls_witness :
  auditLog (snd (getAddress Scenario.config Scenario.remote_down Scenario.uuids
                            "user-1" (Scenario.with_wallet CREATING)))
  = [] /\
  fst (getAddress Scenario.config Scenario.remote_down Scenario.uuids
                  "user-1" (Scenario.with_wallet CREATING))
  = Throw Scenario.timeout /\
  wallet_of "user-1"
            (snd (getAddress Scenario.config Scenario.remote_down Scenario.uuids
                             "user-1" (Scenario.with_wallet CREATING)))
  = Some (Scenario.row CREATING).
Proof.
  destruct (getAddress_on_creating_record_only_polls
              Scenario.config Scenario.remote_down Scenario.uuids "user-1"
              (Scenario.with_wallet CREATING) (Scenario.row CREATING)
              eq_refl eq_refl)
    as (Haudit & _ & _ & _ & _ & Hraw).
  destruct (Hraw Scenario.timeout eq_refl) as (Hrun & Hrow).
  split; [exact Haudit|]. split; [|exact Hrow].
  exact (f_equal fst Hrun).
Defined.

(** A creation that fails, then one that goes through. *)
Lemma failed_creation_is_retried_in_place_witness :
  fst (getAddress Scenario.config Story.remote_recovering Scenario.uuids "user-1"
         (snd (getAddress Scenario.config Story.remote_recovering Scenario.uuids
                          "user-1" Scenario.empty)))
  = Return "0xA11CE" /\
  wallet_of "user-1"
    (snd (getAddress Scenario.config Story.remote_recovering Scenario.uuids "user-1"
            (snd (getAddress Scenario.config Story.remote_recovering Scenario.uuids
                             "user-1" Scenario.empty))))
  = Some (mkServerWallet 0 "user-1" "dw-1" "0xA11CE" READY) /\
  length (serverWallets
            (snd (getAddress Scenario.config Story.remote_recovering Scenario.uuids
                    "user-1"
                    (snd (getAddress Scenario.config Story.remote_recovering
                                     Scenario.uuids "user-1" Scenario.empty)))))
  = 1.
Proof.
  apply (failed_creation_is_retried_in_place
           Scenario.config Story.remote_recovering Scenario.uuids "user-1"
           Scenario.empty Scenario.timeout Scenario.decoded);
    reflexivity.
Defined.

Lemma second_revoke_only_adds_an_audit_row_witness :
  serverWallets (snd (revoke "user-1" (snd (revoke "user-1"
                                                   (Scenario.with_wallet READY)))))
  = [Scenario.row FAILED] /\
  length (auditLog (snd (revoke "user-1"
                                (snd (revoke "user-1"
                                             (Scenario.with_wallet READY))))))
  = 2.
Proof.
  destruct (second_revoke_only_adds_an_audit_row
              "user-1" (Scenario.with_wallet READY) (Scenario.row READY) eq_refl)
    as (Hrows & _ & _ & Haudit).
  split.
  - rewrite Hrows. reflexivity.
  - rewrite Haudit. reflexivity.
Defined.

Lemma creation_mirrors_address_into_wallets_witness :
  compat_wallet_of "user-1" "SERVER_WALLET"
    (snd (getAddress Scenario.config Scenario.remote_ok Scenario.uuids "user-1"
                     Scenario.empty))
  = Some (mkWallet "user-1" "SERVER_WALLET" "0xA11CE") /\
  compat_wallet_of "user-2" "SERVER_WALLET"
    (snd (rotate Scenario.config Scenario.remote_ok Scenario.uuids "user-1"
                 (Scenario.with_wallet READY)))
  = None.
Proof.
  split.
  - destruct (creation_mirrors_address_into_wallets
                Scenario.config Scenario.remote_ok Scenario.uuids "user-1"
                Scenario.empty Scenario.decoded eq_refl
                (snd (getAddress Scenario.config Scenario.remote_ok Scenario.uuids
                                 "user-1" Scenario.empty)))
      as (Hkey & _).
    + left. split; [intros sw H; discriminate H|reflexivity].
    + exact Hkey.
  - destruct (creation_mirrors_address_into_wallets
                Scenario.config Scenario.remote_ok Scenario.uuids "user-1"
                (Scenario.with_wallet READY) Scenario.decoded eq_refl
                (snd (rotate Scenario.config Scenario.remote_ok Scenario.uuids
                             "user-1" (Scenario.with_wallet READY))))
      as (_ & Hothers).
    + right. split; [now exists (Scenario.row READY)|reflexivity].
    + rewrite (Hothers "user-2" "SERVER_WALLET"); [reflexivity|].
      left. discriminate.
Defined.



(** A production provider, a reset, then a call under a test configuration. *)
Lemma reset_then_get_constructs_anew_witness :
  Factory.pv_class
    (fst (Factory.getTradingAuthorityProvider
            (mkConfig None "test") 9
            (Factory.resetTradingAuthorityProvider
               (factory_after [GetProvider Scenario.config 5] Factory.initial))))
  = Factory.MockDynamicServerWalletProvider /\
  fst (Factory.getTradingAuthorityProvider
         (mkConfig None "test") 9
         (Factory.resetTradingAuthorityProvider
            (factory_after [GetProvider Scenario.config 5] Factory.initial)))
  <> Factory.mkProvider 0 Factory.DynamicServerWalletProvider 5.
Proof.
  destruct (reset_then_get_constructs_anew
              [GetProvider Scenario.config 5] (mkConfig None "test") 9)
    as (_ & _ & Hclass & Hnew).
  split; [exact Hclass|].
  exact (proj1 (Hnew (Factory.mkProvider 0 Factory.DynamicServerWalletProvider 5)
                     eq_refl)).
Defined.

Lemma getAddress_after_revoke_creates_anew_witness :
  fst (getAddress Scenario.config Scenario.remote_ok Scenario.uuids "user-1"
                  (snd (revoke "user-1" (Scenario.with_wallet READY))))
  = Return "0xA11CE" /\
  wallet_of "user-1"
    (snd (getAddress Scenario.config Scenario.remote_ok Scenario.uuids "user-1"
                     (snd (revoke "user-1" (Scenario.with_wallet READY)))))
  = Some (mkServerWallet 0 "user-1" "dw-1" "0xA11CE" READY).
Proof.
  exact (getAddress_after_revoke_creates_anew
           Scenario.config Scenario.remote_ok Scenario.uuids "user-1"
           (Scenario.with_wallet READY) (Scenario.row READY) eq_refl).
Defined.

Lemma failed_rotation_disables_signing_witness :
  wallet_of "user-1"
    (snd (rotate Scenario.config Scenario.remote_down Scenario.uuids "user-1"
                 (Scenario.with_wallet READY)))
  = Some (Scenario.row FAILED) /\
  fst (perform Scenario.config Scenario.remote_ok Scenario.uuids Scenario.stringify
               "user-1" (SignMessage (inl "hello"))
               (snd (rotate Scenario.config Scenario.remote_down Scenario.uuids
                            "user-1" (Scenario.with_wallet READY))))
  = Throw (AppError SERVER_WALLET_NOT_READY
                    "Server wallet is not ready for signing" 503).
Proof.
  split.
  - exact (proj1 (failed_rotation_disables_signing
                    Scenario.config Scenario.remote_down Scenario.uuids
                    Scenario.stringify "user-1" (Scenario.with_wallet READY)
                    (Scenario.row READY) Scenario.timeout eq_refl eq_refl)).
  - reflexivity.
Defined.

Lemma retry_after_date_is_not_honoured_witness :
  callDynamic_loop Scenario.config Story.remote_busy_until
                   "server-wallets/dw-0" GET None 4 0 Scenario.empty
  = callDynamic_loop Scenario.config Story.remote_busy_until
                     "server-wallets/dw-0" GET None 3 1
                     (journalled Scenario.empty
                                 [FetchSent Scenario.lookup; Slept NaN]).
Proof.
  apply (retry_after_date_is_not_honoured
           Scenario.config Story.remote_busy_until "server-wallets/dw-0" GET None
           3 0 Scenario.empty Story.busy_until
           "Wed, 21 Oct 2015 07:28:00 GMT").
  - reflexivity.
  - reflexivity.
  - reflexivity.
  - unfold not_a_numeral. cbn. lia.
  - unfold MAX_RETRIES. lia.
Defined.

(** The feed with a repeated address, synced into a board of one row. *)
Lemma leaderboard_sync_last_entry_wins_witness :
  (exists row,
      Leaderboard.row_of "0xaaa"
        (snd (Leaderboard.leaderboard Story.ticks (inr Story.feed) Story.board))
      = Some row /\
      Leaderboard.lr_displayName row = Some "Alice A." /\
      Leaderboard.lr_rank row = 3%Z) /\
  Leaderboard.row_of "0xccc"
    (snd (Leaderboard.leaderboard Story.ticks (inr Story.feed) Story.board))
  = Some (Leaderboard.mkLeaderRow "0xccc" (Some "Carol") None 10%Z 20%Z 2%Z 0%Z).
Proof.
  destruct (leaderboard_sync_last_entry_wins Z Story.ticks Story.feed Story.board)
    as (Hlast & Hrest).
  split.
  - destruct (Hlast
                [Leaderboard.mkLeader "0xaaa" (Some "Alice") None 500%Z 1000%Z 2%Z;
                 Leaderboard.mkLeader "0xbbb" (Some "Bob") None 300%Z 800%Z 1%Z]
                (Leaderboard.mkLeader "0xaaa" (Some "Alice A.") None
                                      700%Z 1200%Z 3%Z)
                [] eq_refl (fun H => H))
      as (row & Hrow & _ & Hname & _ & _ & _ & Hrank).
    exists row. cbn [Leaderboard.ld_address] in Hrow. now repeat split.
  - rewrite (Hrest "0xccc"); [reflexivity|].
    cbn. intros [H|[H|[H|[]]]]; discriminate H.
Defined.

Lemma leaderboard_sync_keeps_addresses_unique_witness :
  NoDup (map Leaderboard.lr_address
             (Leaderboard.leaders
                (snd (Leaderboard.leaderboard Story.ticks (inr Story.feed)
                                              Story.board)))) /\
  Leaderboard.row_of "0xccc"
    (snd (Leaderboard.leaderboard Story.ticks (inr Story.feed) Story.board))
  <> None.
Proof.
  destruct (leaderboard_sync_keeps_addresses_unique
              Z Story.ticks Story.feed Story.board) as (Hunique & Hkeep).
  split.
  - apply Hunique. repeat constructor. intros [].
  - apply Hkeep. discriminate.
Defined.

Lemma leaderboard_replies_with_best_ranked_rows_witness :
  exists reply,
    fst (Leaderboard.leaderboard Story.ticks (inr Story.feed) Story.board)
    = Return reply /\
    length reply <= 50 /\
    Permutation
      reply
      (Leaderboard.leaders
         (snd (Leaderboard.leaderboard Story.ticks (inr Story.feed) Story.board))).
Proof.
  destruct (leaderboard_replies_with_best_ranked_rows
              Z Story.ticks Story.feed Story.board)
    as (reply & Hreply & Hlen & _ & _ & _ & Hall).
  exists reply. split; [exact Hreply|]. split; [exact Hlen|].
  apply Hall. cbn. lia.
Defined.

Lemma signing_requests_target_own_wallet_witness :
  exists new,
    journal (snd (perform Scenario.config Scenario.remote_ok Scenario.uuids
                          Scenario.stringify "user-1" (SignMessage (inl "hello"))
                          (Scenario.with_wallet READY)))
    = ([] ++ new)%list /\
    1 <= fetches_in new /\
    Forall (posts_to "https://app.dynamicauth.com/api/v0/server-wallets/dw-0/sign")
           new.
Proof.
  exact (signing_requests_target_own_wallet
           Scenario.config Scenario.remote_ok Scenario.uuids Scenario.stringify
           "user-1" (SignMessage (inl "hello")) (Scenario.with_wallet READY)
           (Scenario.row READY) eq_refl eq_refl).
Defined.
